(** * Container-standards linter: the checking scripts, embedded and verified

  Embedded sources (paths relative to the repository's [scripts/]):
  - [check_dockerfile.py]: [parse_dockerfile] and the six [check_*]
    functions;
  - [validators/compose_validator.py]: [is_python_service] and
    [validate_compose_service];
  - [validators/container_validator.py]: the directory walk, the black
    formatting pass and the [ast]-based import checks;
  - [validators/poetry_validator.py]: [validate_poetry_config];
  - [validators/dockerfile_validator.py]: [main];
  - [check_standards.py]: [check_containers].

  Python [str] values are Rocq [string]s; a character is read as a code
  point below 256, which covers ASCII and Latin-1 text. The two symbols
  that open the lines [validate_poetry_config] prints stand in the literals
  as their UTF-8 bytes; no string operation looks at them.

  The libraries the scripts call are parameters: [black.format_str],
  [ast.parse], [tomli.load]; so are [validate_dockerfile] (a battery of
  regular-expression searches) and [validate_compose_file] where
  [check_containers] calls them. *)

From Stdlib Require Import Ascii.
From stdpp Require Import gmap strings list pretty.

Set Warnings "-register-all".

(** * Python values shared by all scripts *)

(** Exceptions the embedded code can raise. *)
Inductive exn : Type :=
  | ValueError (msg : string)
  | IndexError (msg : string)
  | TypeError (msg : string)
  | AttributeError (msg : string)
  | KeyError (key : string)
  | OSError (msg : string)
  | LibraryError (msg : string).

(** [str(e)] *)
Definition exn_str (e : exn) : string :=
  match e with
  | ValueError msg | IndexError msg | TypeError msg | AttributeError msg
  | OSError msg | LibraryError msg => msg
  | KeyError key => "'" +:+ key +:+ "'"
  end.

(** The outcome of a Python call: a value, or a raised exception. *)
Inductive result (A : Type) : Type :=
  | Ok (a : A)
  | Raise (e : exn).
Arguments Ok {A} a.
Arguments Raise {A} e.

(** Sequencing: an exception of the first call is the exception of the
    whole. *)
Definition bind {A B : Type} (r : result A) (f : A → result B) : result B :=
  match r with
  | Ok a => f a
  | Raise e => Raise e
  end.

Notation "'let*' x ':=' e 'in' k" := (bind e (fun x => k))
  (at level 10, x pattern, e at level 100, k at level 200).

(** [for x in xs: acc = body(acc, x)], leaving at the first exception. *)
Fixpoint for_each {A S : Type} (body : S → A → result S) (xs : list A)
    (acc : S) : result S :=
  match xs with
  | [] => Ok acc
  | x :: xs' => let* acc' := body acc x in for_each body xs' acc'
  end.

(** * [str] methods *)

Module Str.

Definition LF : ascii := "010"%char.
Definition CR : ascii := "013"%char.
Definition backslash : ascii := "\"%char.

(** [c.isspace()] on code points below 256: TAB..CR, FS..US, SPACE,
    NEL (0x85) and NBSP (0xA0). *)
Definition isspace (c : ascii) : bool :=
  let n := nat_of_ascii c in
  ((9 <=? n) && (n <=? 13) || (28 <=? n) && (n <=? 32)
   || (n =? 133) || (n =? 160))%nat.

(** [c.lower()] on code points below 256: A..Z, and the Latin-1 capitals
    0xC0..0xDE without the multiplication sign 0xD7. *)
Definition lower_char (c : ascii) : ascii :=
  let n := nat_of_ascii c in
  if ((65 <=? n) && (n <=? 90)
      || (192 <=? n) && (n <=? 222) && negb (n =? 215))%nat
  then ascii_of_nat (n + 32) else c.

(** [s.lower()] *)
Fixpoint lower (s : string) : string :=
  match s with
  | "" => ""
  | String c s' => String (lower_char c) (lower s')
  end.

Definition is_empty (s : string) : bool :=
  match s with "" => true | _ => false end.

(** [s.startswith(p)] *)
Fixpoint startswith (p s : string) : bool :=
  match p, s with
  | "", _ => true
  | String a p', String b s' => bool_decide (a = b) && startswith p' s'
  | String _ _, "" => false
  end.

(** [s.endswith(p)] *)
Definition endswith (p s : string) : bool :=
  startswith (String.rev p) (String.rev s).

(** [sub in s] *)
Fixpoint contains (sub s : string) : bool :=
  startswith sub s ||
  match s with
  | "" => false
  | String _ s' => contains sub s'
  end.

(** [s.lstrip()] *)
Fixpoint lstrip (s : string) : string :=
  match s with
  | "" => ""
  | String c s' => if isspace c then lstrip s' else s
  end.

(** [s.rstrip(chars)] for a predicate on characters. *)
Fixpoint rstrip_by (drop : ascii → bool) (s : string) : string :=
  match s with
  | "" => ""
  | String c s' =>
      match rstrip_by drop s' with
      | "" => if drop c then "" else String c ""
      | r => String c r
      end
  end.

(** [s.rstrip()] *)
Definition rstrip : string → string := rstrip_by isspace.

(** [s.strip()] *)
Definition strip (s : string) : string := rstrip (lstrip s).

(** [s.rstrip(c)] for a one-character [c]. *)
Definition rstrip_char (c : ascii) : string → string :=
  rstrip_by (fun x => bool_decide (x = c)).

(** [s.split(sep)] for a one-character [sep]: never empty, the fields may
    be. *)
Fixpoint split (sep : ascii) (s : string) : list string :=
  match s with
  | "" => [""]
  | String c s' =>
      if bool_decide (c = sep) then "" :: split sep s'
      else match split sep s' with
           | h :: t => String c h :: t
           | [] => [String c ""]
           end
  end.

(** The longest prefix without whitespace, and what follows it. *)
Fixpoint span_word (s : string) : string * string :=
  match s with
  | "" => ("", "")
  | String c s' =>
      if isspace c then ("", s)
      else let '(w, r) := span_word s' in (String c w, r)
  end.

(** [s.split(None, 1)]: the first word and, when something other than
    whitespace follows it, the remainder from its first non-blank
    character on (trailing whitespace kept). *)
Definition split_none_1 (s : string) : list string :=
  match lstrip s with
  | "" => []
  | s1 =>
      let '(w, r) := span_word s1 in
      match lstrip r with
      | "" => [w]
      | r' => [w; r']
      end
  end.

(** [s.split()]: the maximal runs of non-whitespace characters. *)
Fixpoint split_none (s : string) : list string :=
  match s with
  | "" => []
  | String c s' =>
      if isspace c then split_none s'
      else match s' with
           | "" => [String c ""]
           | String c' _ =>
               if isspace c' then String c "" :: split_none s'
               else match split_none s' with
                    | w :: ws => String c w :: ws
                    | [] => [String c ""]
                    end
           end
  end.

(** [sep.join(parts)] *)
Fixpoint join (sep : string) (parts : list string) : string :=
  match parts with
  | [] => ""
  | [p] => p
  | p :: ps => p +:+ sep +:+ join sep ps
  end.

(** [seq[0]], raising [IndexError] on an empty list. *)
Definition item0 (l : list string) : result string :=
  match l with
  | x :: _ => Ok x
  | [] => Raise (IndexError "list index out of range")
  end.

(** [a, b = seq] *)
Definition unpack2 (l : list string) : result (string * string) :=
  match l with
  | [a; b] => Ok (a, b)
  | [] => Raise (ValueError "not enough values to unpack (expected 2, got 0)")
  | [_] => Raise (ValueError "not enough values to unpack (expected 2, got 1)")
  | _ => Raise (ValueError "too many values to unpack (expected 2)")
  end.

End Str.

(** * [check_dockerfile.py] *)

Module CheckDockerfile.

(** One parsed directive: [(instruction, argument)]. *)
Definition instruction : Type := string * string.

(** The three locals of [parse_dockerfile]. *)
Record parser_state : Type := ParserState {
  instructions : list instruction;
  current_instruction : option string;
  current_args : list string;
}.

(** The body of the [for line in content.split(...)] loop
    (check_dockerfile.py:26-45). *)
Definition parse_line (st : parser_state) (raw : string)
    : result parser_state :=
  let line := Str.strip raw in
  if Str.is_empty line || Str.startswith "#" line then Ok st
  else if Str.endswith "\" line then
    match current_instruction st with
    | None =>
        let* (instr, arg) := Str.unpack2 (Str.split_none_1 line) in
        Ok (ParserState (instructions st) (Some instr)
              [Str.strip (Str.rstrip_char Str.backslash arg)])
    | Some _ =>
        Ok (ParserState (instructions st) (current_instruction st)
              (current_args st
               ++ [Str.strip (Str.rstrip_char Str.backslash line)]))
    end
  else
    match current_instruction st with
    | Some ci =>
        Ok (ParserState
              (instructions st
               ++ [(ci, Str.join " " (current_args st ++ [line]))])
              None [])
    | None =>
        let* (instr, arg) := Str.unpack2 (Str.split_none_1 line) in
        Ok (ParserState (instructions st ++ [(instr, arg)])
              (current_instruction st) (current_args st))
    end.

Definition initial_state : parser_state := ParserState [] None [].

(** [parse_dockerfile(content)] (check_dockerfile.py:19-47). *)
Definition parse_dockerfile (content : string) : result (list instruction) :=
  let* st := for_each parse_line (Str.split Str.LF content) initial_state in
  Ok (instructions st).



(** [check_base_image(instructions)] (check_dockerfile.py:50-62). *)
Definition check_base_image (instrs : list instruction) : list string :=
  match instrs with
  | [] => ["Dockerfile must start with FROM instruction"]
  | (kw, base_image) :: _ =>
      if bool_decide (kw ≠ "FROM")
      then ["Dockerfile must start with FROM instruction"]
      else if negb (Str.startswith "python:3.11" base_image)
      then ["Base image must be python:3.11"]
      else []
  end.

(** The literal set at check_dockerfile.py:68-77. *)
Definition required_env_vars : gset string :=
  {[ "PYTHONUNBUFFERED"; "PYTHONDONTWRITEBYTECODE"; "POETRY_VERSION";
     "POETRY_HOME"; "POETRY_VIRTUALENVS_IN_PROJECT"; "POETRY_NO_INTERACTION";
     "PYSETUP_PATH"; "VENV_PATH" ]}.

(** The key taken from one [ENV] argument (check_dockerfile.py:83-86). *)
Definition env_key (args : string) : result string :=
  if Str.contains "=" args
  then let* key := Str.item0 (Str.split "=" args) in Ok (Str.strip key)
  else let* key := Str.item0 (Str.split_none args) in Ok (Str.strip key).

(** The first loop of [check_environment_variables]
    (check_dockerfile.py:79-87). *)
Definition found_env_vars (instrs : list instruction) : result (gset string) :=
  for_each (fun (found : gset string) '(kw, args) =>
              if bool_decide (kw = "ENV")
              then let* key := env_key args in Ok ({[ key ]} ∪ found)
              else Ok found)
           instrs ∅.

(** One message per element of [required] that is not in [found]; a Python
    set is walked in an unspecified order, here the order of [elements]. *)
Definition missing_from (prefix : string) (required found : gset string)
    : list string :=
  (λ var, prefix +:+ var) <$>
    filter (λ var, var ∉ found) (elements required).

(** [check_environment_variables(instructions)]
    (check_dockerfile.py:65-93). *)
Definition check_environment_variables (instrs : list instruction)
    : result (list string) :=
  let* found := found_env_vars instrs in
  Ok (missing_from "Missing required environment variable: "
        required_env_vars found).

(** [check_poetry_installation(instructions)]
    (check_dockerfile.py:96-109). *)
Definition check_poetry_installation (instrs : list instruction)
    : list string :=
  let poetry_install_found :=
    existsb (λ '(kw, args),
               bool_decide (kw = "RUN")
               && Str.contains "curl -sSL https://install.python-poetry.org"
                    args) instrs in
  if negb poetry_install_found
  then ["Poetry installation command not found"] else [].

(** [check_dependencies_installation(instructions)]
    (check_dockerfile.py:112-129); the loop state is
    [(poetry_install_found, copy_requirements_found)]. *)
Definition check_dependencies_installation (instrs : list instruction)
    : list string :=
  let '(poetry_install_found, copy_requirements_found) :=
    foldl (λ '(poetry, copy) '(kw, args),
             if bool_decide (kw = "COPY")
                && Str.contains "pyproject.toml" args
                && Str.contains "poetry.lock" args
             then (poetry, true)
             else if bool_decide (kw = "RUN")
                     && Str.contains "poetry install" args
             then (true, copy)
             else (poetry, copy))
          (false, false) instrs in
  (if negb copy_requirements_found
   then ["Must copy pyproject.toml and poetry.lock files"] else [])
  ++ (if negb poetry_install_found
      then ["Must install dependencies using poetry install"] else []).

(** [check_healthcheck(instructions)] (check_dockerfile.py:132-147): only
    the first [HEALTHCHECK] is inspected, the loop leaves after it. *)
Fixpoint check_healthcheck (instrs : list instruction) : list string :=
  match instrs with
  | [] => ["Healthcheck configuration not found"]
  | (kw, args) :: rest =>
      if bool_decide (kw = "HEALTHCHECK")
      then if negb (Str.contains "--interval" args)
              || negb (Str.contains "--timeout" args)
              || negb (Str.contains "--retries" args)
           then ["Healthcheck must specify interval, timeout, and retries"]
           else []
      else check_healthcheck rest
  end.

(** The literal set at check_dockerfile.py:153. *)
Definition required_labels : gset string :=
  {[ "maintainer"; "version"; "description" ]}.

(** The keys one [LABEL] argument contributes
    (check_dockerfile.py:158-160). *)
Definition label_keys (args : string) : list string :=
  omap (λ label,
          if Str.contains "=" label
          then match Str.split "=" label with
               | key :: _ => Some (Str.strip key)
               | [] => None
               end
          else None)
       (Str.split_none args).

(** The loop of [check_labels] (check_dockerfile.py:156-160). *)
Definition found_labels (instrs : list instruction) : gset string :=
  foldl (λ (found : gset string) '(kw, args),
           if bool_decide (kw = "LABEL")
           then list_to_set (label_keys args) ∪ found
           else found)
        ∅ instrs.

(** [check_labels(instructions)] (check_dockerfile.py:150-166). *)
Definition check_labels (instrs : list instruction) : list string :=
  missing_from "Missing required label: " required_labels
    (found_labels instrs).

(** The table [checks] of [main] (check_dockerfile.py:186-193). *)
Definition checks
    : list (string * (list instruction → result (list string))) :=
  [ ("Base image", λ i, Ok (check_base_image i));
    ("Environment variables", check_environment_variables);
    ("Poetry installation", λ i, Ok (check_poetry_installation i));
    ("Dependencies installation", λ i, Ok (check_dependencies_installation i));
    ("Healthcheck", λ i, Ok (check_healthcheck i));
    ("Labels", λ i, Ok (check_labels i)) ].

(** The loop over [checks] (check_dockerfile.py:195-201): every error of
    every check, in the order [main] prints them, with the exit code. *)
Definition run_checks (instrs : list instruction)
    : result (list string * Z) :=
  for_each (λ '(printed, exit_code) '(_, check_func),
              let* errors := check_func instrs in
              match errors with
              | [] => Ok (printed, exit_code)
              | _ => Ok (printed ++ errors, 1%Z)
              end)
           checks ([], 0%Z).

(** The return value of [main] (check_dockerfile.py:169-207) for a template
    that loaded or failed to and for the text of [./Dockerfile], [None] when
    the file is absent. An exception anywhere is caught and gives 1;
    standard output is not modelled. *)
Definition main (template : result string) (dockerfile : option string) : Z :=
  let body :=
    let* _ := template in
    match dockerfile with
    | None => Ok 1%Z
    | Some content =>
        let* instrs := parse_dockerfile content in
        let* (_, exit_code) := run_checks instrs in
        Ok exit_code
    end in
  match body with
  | Ok exit_code => exit_code
  | Raise _ => 1%Z
  end.

End CheckDockerfile.

(** * [validators/compose_validator.py] *)

Module ComposeValidator.

(** What [yaml.safe_load] returns. A mapping keeps the order of the file and
    is read at the first entry of a key; numbers other than integers, and
    dates, behave in this code as [YInt] does: they are neither [str],
    [list] nor [dict]. *)
Inductive yaml : Type :=
  | YNone
  | YBool (b : bool)
  | YInt (n : Z)
  | YStr (s : string)
  | YList (items : list yaml)
  | YDict (entries : list (yaml * yaml)).

Definition type_name (v : yaml) : string :=
  match v with
  | YNone => "NoneType"
  | YBool _ => "bool"
  | YInt _ => "int"
  | YStr _ => "str"
  | YList _ => "list"
  | YDict _ => "dict"
  end.

(** [v == s] for a string literal [s]. *)
Definition eq_str (v : yaml) (s : string) : bool :=
  match v with
  | YStr x => bool_decide (x = s)
  | _ => false
  end.

(** [d.get(key)] on the entries of a mapping. *)
Fixpoint dict_get (key : string) (entries : list (yaml * yaml))
    : option yaml :=
  match entries with
  | [] => None
  | (k, v) :: rest => if eq_str k key then Some v else dict_get key rest
  end.

(** [key in v] *)
Definition contains_key (key : string) (v : yaml) : result bool :=
  match v with
  | YDict entries => Ok (bool_decide (is_Some (dict_get key entries)))
  | YList items => Ok (existsb (λ x, eq_str x key) items)
  | YStr s => Ok (Str.contains key s)
  | _ => Raise (TypeError ("argument of type '" +:+ type_name v
                           +:+ "' is not iterable"))
  end.

(** [v[key]] *)
Definition getitem (v : yaml) (key : string) : result yaml :=
  match v with
  | YDict entries =>
      match dict_get key entries with
      | Some x => Ok x
      | None => Raise (KeyError key)
      end
  | YList _ =>
      Raise (TypeError "list indices must be integers or slices, not str")
  | YStr _ => Raise (TypeError "string indices must be integers, not 'str'")
  | _ => Raise (TypeError ("'" +:+ type_name v
                           +:+ "' object is not subscriptable"))
  end.

(** [v.lower()] *)
Definition lower (v : yaml) : result string :=
  match v with
  | YStr s => Ok (Str.lower s)
  | _ => Raise (AttributeError ("'" +:+ type_name v
                                +:+ "' object has no attribute 'lower'"))
  end.

(** [v.startswith(p)] *)
Definition startswith (v : yaml) (p : string) : result bool :=
  match v with
  | YStr s => Ok (Str.startswith p s)
  | _ => Raise (AttributeError ("'" +:+ type_name v +:+
                                "' object has no attribute 'startswith'"))
  end.

Definition is_dict (v : yaml) : bool :=
  match v with YDict _ => true | _ => false end.

(** The list at compose_validator.py:104-108. *)
Definition python_service_indicators : list string :=
  [ "python"; "django"; "flask"; "fastapi"; "celery";
    "worker"; "api"; "service"; "app"; "backend";
    "foundation"; "agent"; "model"; "processor"; "analyzer" ].

(** [is_python_service(service_name)] (compose_validator.py:99-109). *)
Definition is_python_service (service_name : string) : bool :=
  existsb (λ indicator, Str.contains indicator (Str.lower service_name))
    python_service_indicators.

(** [errors.append(msg)] under a condition. *)
Definition append_if (cond : bool) (msg : string) (errors : list string)
    : list string :=
  if cond then errors ++ [msg] else errors.

(** The build-context rules for one [build] mapping that has a [context]
    (compose_validator.py:42-64). *)
Definition check_build_context (service_name : string) (build : yaml)
    (errors : list string) : result (list string) :=
  let* context := getitem build "context" in
  let* has_dockerfile := contains_key "dockerfile" build in
  if bool_decide (service_name = "dev") then
    let errors :=
      append_if (negb (eq_str context "./containers/dev-environment"
                       || eq_str context "." || eq_str context "../.."))
        "Dev container build context should be './containers/dev-environment', '.' or '../..'"
        errors in
    if has_dockerfile then
      let* dockerfile := getitem build "dockerfile" in
      Ok (append_if
            (negb (eq_str dockerfile "Dockerfile"
                   || eq_str dockerfile
                        "containers/dev-environment/Dockerfile"))
            "Dev container dockerfile should be 'Dockerfile' or 'containers/dev-environment/Dockerfile'"
            errors)
    else Ok errors
  else
    let component := "./containers/" +:+ service_name in
    let errors :=
      append_if (negb (eq_str context component || eq_str context "."))
        ("Build context should be './containers/" +:+ service_name
         +:+ "' or '.'")
        errors in
    let* errors :=
      (if eq_str context component && has_dockerfile then
         let* dockerfile := getitem build "dockerfile" in
         Ok (append_if (negb (eq_str dockerfile "Dockerfile"))
               "When using component context, dockerfile should be 'Dockerfile'"
               errors)
       else Ok errors) in
    if eq_str context "." && has_dockerfile then
      let* dockerfile := getitem build "dockerfile" in
      let* at_component :=
        startswith dockerfile ("containers/" +:+ service_name +:+ "/") in
      Ok (append_if (negb at_component)
            "When using root context, dockerfile should include component path"
            errors)
    else Ok errors.

(** [[arg for arg in args if 'poetry' in arg.lower()]]
    (compose_validator.py:68). *)
Definition poetry_args (args : list (yaml * yaml)) : result (list yaml) :=
  for_each (λ found '(arg, _),
              let* lowered := lower arg in
              Ok (if Str.contains "poetry" lowered
                  then found ++ [arg] else found))
           args [].

(** The [build] block (compose_validator.py:36-70). *)
Definition check_build (service_name : string) (service_config : yaml)
    (errors : list string) : result (list string) :=
  let* has_build := contains_key "build" service_config in
  if has_build then
    let* build := getitem service_config "build" in
    if is_dict build then
      let* has_context := contains_key "context" build in
      let* errors := (if has_context
                then check_build_context service_name build errors
                else Ok errors) in
      let* has_args := contains_key "args" build in
      if has_args then
        let* args := getitem build "args" in
        match args with
        | YDict entries =>
            let* found := poetry_args entries in
            Ok (append_if
                  (match found with [] => true | _ => false end
                   && is_python_service service_name)
                  ("Python service " +:+ service_name
                   +:+ " should include Poetry-related build args")
                  errors)
        | _ => Ok errors
        end
      else Ok errors
    else Ok errors
  else Ok errors.

(** The [volumes] block (compose_validator.py:72-82). *)
Definition check_volumes (service_name : string) (service_config : yaml)
    (errors : list string) : result (list string) :=
  let* has_volumes := contains_key "volumes" service_config in
  if has_volumes then
    let* volumes := getitem service_config "volumes" in
    match volumes with
    | YList items =>
        let poetry_volume_found :=
          existsb (λ volume,
                     match volume with
                     | YStr v => Str.contains "pyproject.toml" v
                                 || Str.contains "poetry.lock" v
                     | _ => false
                     end) items in
        if negb poetry_volume_found && is_python_service service_name
        then Ok (errors ++
                 [ "Python service " +:+ service_name +:+
                   " should mount pyproject.toml/poetry.lock for development";
                   "  Consider adding: './containers/" +:+ service_name +:+
                   "/pyproject.toml:/app/pyproject.toml'" ])
        else Ok errors
    | _ => Ok errors
    end
  else Ok errors.

(** [python_path_found] for the value under [environment]
    (compose_validator.py:87-92). *)
Definition python_path_found (env_vars : yaml) : bool :=
  match env_vars with
  | YList items =>
      existsb (λ env,
                 match env with
                 | YStr e => Str.contains "PYTHONPATH" e
                 | _ => false
                 end) items
  | YDict entries => bool_decide (is_Some (dict_get "PYTHONPATH" entries))
  | _ => false
  end.

Definition pythonpath_message (service_name : string) : string :=
  "Python service " +:+ service_name
  +:+ " should define PYTHONPATH environment variable".

(** The [environment] block (compose_validator.py:84-95). *)
Definition check_environment (service_name : string) (service_config : yaml)
    (errors : list string) : result (list string) :=
  let* has_environment := contains_key "environment" service_config in
  if has_environment then
    let* env_vars := getitem service_config "environment" in
    Ok (append_if
          (negb (python_path_found env_vars)
           && is_python_service service_name)
          (pythonpath_message service_name) errors)
  else Ok errors.

(** [validate_compose_service(service_name, service_config)]
    (compose_validator.py:23-97). *)
Definition validate_compose_service (service_name : string)
    (service_config : yaml) : result (list string) :=
  let* errors := check_build service_name service_config [] in
  let* errors := check_volumes service_name service_config errors in
  check_environment service_name service_config errors.

End ComposeValidator.

(** * The file system under the working directory *)

Module Fs.

(** A relative [pathlib.Path], as its [parts]. *)
Definition path : Type := list string.

Inductive entry : Type :=
  | File (content : string)
  | Dir.

(** The tree below the working directory, flattened: every existing path
    with what is there. *)
Abbreviation filesystem := (gmap (list string) entry).

(** [str(p)] *)
Definition path_str (p : path) : string :=
  match p with
  | [] => "."
  | _ => Str.join "/" p
  end.

(** [p.name] *)
Definition name (p : path) : string := List.last p "".

(** [p.parent] *)
Definition parent (p : path) : path := removelast p.

(** [p.exists()] *)
Definition exists_ (fs : filesystem) (p : path) : bool :=
  bool_decide (is_Some (fs !! p)).

(** [p.is_dir()] *)
Definition is_dir (fs : filesystem) (p : path) : bool :=
  match fs !! p with
  | Some Dir => true
  | _ => false
  end.

(** [p] lies strictly below [base]. *)
Definition below (base p : path) : bool :=
  bool_decide (base `prefix_of` p) && bool_decide (p ≠ base).

(** [base.rglob(pattern)] for the two patterns in use, a star and a star
    followed by a suffix: every path below [base] whose name ends with
    [suffix]. The order of a directory walk is the operating system's; it
    is the order of [map_to_list] here. *)
Definition rglob (fs : filesystem) (base : path) (suffix : string)
    : list path :=
  filter (λ p, below base p && Str.endswith suffix (name p))
    (map_to_list fs).*1.

(** [base.glob("*")]: the entries of [base]. *)
Definition glob_star (fs : filesystem) (base : path) : list path :=
  filter (λ p, bool_decide (parent p = base) && below base p)
    (map_to_list fs).*1.

(** [open(p).read()]: the stored text, or the message of the [OSError].
    It is what [tomli.load] gets from the file it opens in binary mode, and
    what goes to [ast.parse], which takes either line end; where the text
    is written back, [read_text] below gives what a text-mode read makes
    of it. *)
Definition read (fs : filesystem) (p : path) : string + string :=
  match fs !! p with
  | Some (File content) => inr content
  | Some Dir =>
      inl ("[Errno 21] Is a directory: '" +:+ path_str p +:+ "'")
  | None =>
      inl ("[Errno 2] No such file or directory: '" +:+ path_str p +:+ "'")
  end.

(** What a file opened in text mode hands over for its stored text
    (universal newlines): a carriage return followed by a line feed, and a
    carriage return alone, are read as one line feed. *)
Fixpoint universal_newlines (s : string) : string :=
  match s with
  | "" => ""
  | String c s' =>
      if bool_decide (c = Str.CR) then
        String Str.LF
          match s' with
          | String c' s'' =>
              if bool_decide (c' = Str.LF) then universal_newlines s''
              else universal_newlines s'
          | "" => ""
          end
      else String c (universal_newlines s')
  end.

(** [open(p, 'r', encoding='utf-8').read()]: the text with its line ends
    translated, or the message of the [OSError]. *)
Definition read_text (fs : filesystem) (p : path) : string + string :=
  match read fs p with
  | inr text => inr (universal_newlines text)
  | inl msg => inl msg
  end.

(** [open(p, 'w').write(text)] on an existing file; a line feed is written
    as it is, [os.linesep] being the line feed where these scripts run. *)
Definition write (fs : filesystem) (p : path) (text : string) : filesystem :=
  <[ p := File text ]> fs.

End Fs.

(** * Python syntax trees, as far as the validators look at them *)

Module Ast.

(** The target of an assignment: an [ast.Name], or any other expression
    (tuple, attribute, subscript, ...). *)
Inductive target : Type :=
  | Name (id : string)
  | OtherTarget.

(** A node of the tree. [ImportFrom] and [Assign] carry the fields the
    validators read; what hangs below them are aliases and expressions,
    none of which is a statement, and is left out. Every other node is
    [Other] with its child nodes. *)
Inductive node : Type :=
  | ImportFrom (module : option string) (level : nat) (lineno : nat)
  | Assign (targets : list target) (lineno : nat)
  | Other (children : list node).

Definition children (n : node) : list node :=
  match n with
  | Other cs => cs
  | _ => []
  end.

Fixpoint node_size (n : node) : nat :=
  match n with
  | Other cs => S (list_sum (map node_size cs))
  | _ => 1
  end.

(** The loop of [ast.walk]: take the first node off the queue, put its
    children at the end, yield it. *)
Fixpoint walk_queue (fuel : nat) (todo : list node) : list node :=
  match fuel, todo with
  | S fuel', n :: rest => n :: walk_queue fuel' (rest ++ children n)
  | _, _ => []
  end.

(** [ast.walk(tree)]: breadth first, every node once. *)
Definition walk (tree : node) : list node :=
  walk_queue (node_size tree) [tree].

(** What [ast.parse] does with a source text. *)
Inductive parse_outcome : Type :=
  | Parsed (tree : node)
  | SyntaxError (msg : string)
  | OtherError (msg : string).

End Ast.

(** * [validators/container_validator.py] *)

Module ContainerValidator.

Import Fs Ast.

(** What [black.format_str] does with a source text. *)
Inductive black_outcome : Type :=
  | Formatted (formatted_src : string)
  | InvalidInput (msg : string)
  | BlackError (msg : string).

(** The set at container_validator.py:25-41. *)
Definition EXCLUDED_DIRS : gset string :=
  {[ "__pycache__"; "common"; "tools"; "monitoring"; ".pytest_cache";
     ".git"; ".venv"; "node_modules"; "build"; "dist"; "coverage";
     ".coverage"; ".mypy_cache"; ".tox"; ".eggs" ]}.

(** [should_skip_directory(dir_path)] (container_validator.py:43-48). *)
Definition should_skip_directory (dir_path : path) : bool :=
  existsb (λ part, Str.startswith "." part) dir_path
  || existsb (λ part, bool_decide (part ∈ EXCLUDED_DIRS)) dir_path.

(** [is_utility_container(container_name)]
    (container_validator.py:230-233). *)
Definition is_utility_container (container_name : string) : bool :=
  bool_decide
    (container_name ∈ ["common"; "tools"; "monitoring"; "resource_monitor"]).

(** [has_python_code(container_path)] (container_validator.py:235-238). *)
Definition has_python_code (fs : filesystem) (container_path : path) : bool :=
  let python_files := rglob fs container_path ".py" in
  bool_decide (0 < length python_files)
  && exists_ fs (container_path ++ ["src"]).

(** [validate_poetry_configuration(container_path)]
    (container_validator.py:119-137). *)
Definition validate_poetry_configuration (fs : filesystem)
    (container_path : path) : list string :=
  (if negb (exists_ fs (container_path ++ ["pyproject.toml"]))
      && has_python_code fs container_path
   then ["Missing pyproject.toml (required for Poetry dependency management)"]
   else [])
  ++ (if exists_ fs (container_path ++ ["requirements.txt"])
      then ["requirements.txt found - should use pyproject.toml with Poetry instead"]
      else [])
  ++ (if exists_ fs (container_path ++ ["setup.py"])
      then ["setup.py found - should use pyproject.toml with Poetry instead"]
      else []).

Section WithLibraries.

(** The two libraries the validators call: [black.format_str] with the mode
    of container_validator.py:53-58, and [ast.parse]. *)
Variable format_str : string → black_outcome.
Variable ast_parse : string → parse_outcome.

(** One round of the loop of [format_python_files]
    (container_validator.py:61-72), on the errors and the file system so
    far. The file is opened in text mode both times: black gets the text
    with its line ends translated, and its output is written as it is. *)
Definition format_python_file (acc : list string * filesystem)
    (py_file : path) : list string * filesystem :=
  let '(errors, fs) := acc in
  if negb (should_skip_directory (parent py_file)) then
    match read_text fs py_file with
    | inr src =>
        match format_str src with
        | Formatted formatted_src => (errors, write fs py_file formatted_src)
        | InvalidInput msg =>
            (errors ++ ["Syntax error in " +:+ path_str py_file
                        +:+ ": " +:+ msg], fs)
        | BlackError msg =>
            (errors ++ ["Error reading/writing " +:+ path_str py_file
                        +:+ ": " +:+ msg], fs)
        end
    | inl msg =>
        (errors ++ ["Error reading/writing " +:+ path_str py_file
                    +:+ ": " +:+ msg], fs)
    end
  else (errors, fs).

(** [format_python_files(container_path)] (container_validator.py:50-74):
    the errors, and the file system it leaves. *)
Definition format_python_files (fs : filesystem) (container_path : path)
    : list string * filesystem :=
  foldl format_python_file ([], fs) (rglob fs container_path ".py").

(** [any(t.id == "__all__" for t in node.targets if isinstance(t, ast.Name))]
    on an [ast.Assign] (container_validator.py:184-185). *)
Definition assigns_all (n : node) : bool :=
  match n with
  | Assign targets _ =>
      existsb (λ t, match t with
                    | Name id => bool_decide (id = "__all__")
                    | OtherTarget => false
                    end) targets
  | _ => false
  end.

Definition is_import_from (n : node) : bool :=
  match n with ImportFrom _ _ _ => true | _ => false end.

Definition missing_all_message (init_file : path) : string :=
  "Missing __all__ definition in " +:+ path_str init_file
  +:+ " when it contains imports".

(** [validate_init_file(init_file)] (container_validator.py:171-200). *)
Definition validate_init_file (fs : filesystem) (init_file : path)
    : list string :=
  match read fs init_file with
  | inr content =>
      match ast_parse content with
      | Parsed tree =>
          let has_all := existsb assigns_all (walk tree) in
          if negb has_all && existsb is_import_from (walk tree)
          then [missing_all_message init_file]
          else []
      | SyntaxError msg =>
          ["Syntax error in " +:+ path_str init_file +:+ ": " +:+ msg]
      | OtherError msg =>
          ["Error reading " +:+ path_str init_file +:+ ": " +:+ msg]
      end
  | inl msg => ["Error reading " +:+ path_str init_file +:+ ": " +:+ msg]
  end.

(** ['.' * n] *)
Fixpoint dots (n : nat) : string :=
  match n with
  | 0 => ""
  | S n' => String "." (dots n')
  end.

Definition relative_import_message (py_file : path) (level : nat)
    (module : option string) : string :=
  "Relative import found in " +:+ path_str py_file +:+ ": from "
  +:+ dots level +:+ default "" module +:+ " import ...".

Definition deprecated_import_message (py_file : path) (module : string)
    : string :=
  "Deprecated import format in " +:+ path_str py_file +:+ ": from "
  +:+ module +:+ " import ... (should start with the container name directly, e.g., 'foundation.' instead of 'containers.foundation.')".

(** The body of the loop over [ast.walk(tree)] in [validate_imports]
    (container_validator.py:215-220): what one node adds to [errors]. *)
Definition import_errors (py_file : path) (n : node) : list string :=
  match n with
  | ImportFrom module level _ =>
      if bool_decide (0 < level)
      then [relative_import_message py_file level module]
      else match module with
           | Some m =>
               if negb (Str.is_empty m) && Str.startswith "containers." m
               then [deprecated_import_message py_file m]
               else []
           | None => []
           end
  | _ => []
  end.

(** [validate_imports(py_file, package_path)]
    (container_validator.py:202-228). *)
Definition validate_imports (fs : filesystem) (py_file package_path : path)
    : list string :=
  match read fs py_file with
  | inr content =>
      match ast_parse content with
      | Parsed tree => walk tree ≫= import_errors py_file
      | SyntaxError msg =>
          ["Syntax error in " +:+ path_str py_file +:+ ": " +:+ msg]
      | OtherError msg =>
          ["Error reading " +:+ path_str py_file +:+ ": " +:+ msg]
      end
  | inl msg => ["Error reading " +:+ path_str py_file +:+ ": " +:+ msg]
  end.

(** [p.relative_to(base)] for a [p] at or below [base]. *)
Definition relative_to (base p : path) : path := drop (length base) p.

(** [validate_python_package(package_path, package_name)]
    (container_validator.py:139-169). *)
Definition validate_python_package (fs : filesystem) (package_path : path)
    (package_name : string) : list string :=
  let root_init := package_path ++ [package_name; "__init__.py"] in
  (if negb (exists_ fs root_init) && bool_decide (package_name ≠ "tests")
   then ["Missing package __init__.py file at "
         +:+ path_str (relative_to package_path root_init)]
   else if exists_ fs root_init
   then validate_init_file fs root_init
   else [])
  ++ (rglob fs package_path "" ≫= λ py_dir,
        if is_dir fs py_dir && negb (should_skip_directory py_dir) then
          let init_file := py_dir ++ ["__init__.py"] in
          if negb (exists_ fs init_file)
          then ["Missing __init__.py in Python package directory: "
                +:+ path_str (relative_to package_path py_dir)]
          else validate_init_file fs init_file
        else [])
  ++ (rglob fs package_path ".py" ≫= λ py_file,
        if bool_decide (name py_file ≠ "__init__.py")
           && negb (should_skip_directory (parent py_file))
        then validate_imports fs py_file package_path
        else []).

(** [validate_container_structure(container_path)]
    (container_validator.py:76-117): the errors, and the file system it
    leaves. *)
Definition validate_container_structure (fs : filesystem)
    (container_path : path) : list string * filesystem :=
  let container_name := name container_path in
  if bool_decide (container_name ∈ EXCLUDED_DIRS) then ([], fs)
  else
    let '(errors, fs) :=
      if has_python_code fs container_path
      then format_python_files fs container_path
      else ([], fs) in
    if is_dir fs container_path then
      let errors :=
        errors ++
        (if negb (is_utility_container container_name)
            && negb (exists_ fs (container_path ++ ["Dockerfile"]))
         then ["Missing required file: Dockerfile"] else []) in
      let errors :=
        errors ++
        (if has_python_code fs container_path then
           let src_path := container_path ++ ["src"] in
           let tests_path := container_path ++ ["tests"] in
           (if exists_ fs src_path
            then validate_python_package fs src_path container_name
            else [])
           ++ (if exists_ fs tests_path then
                 if negb (exists_ fs (tests_path ++ ["__init__.py"]))
                 then ["Missing __init__.py in tests directory"]
                 else validate_python_package fs tests_path "tests"
               else [])
         else []) in
      (errors ++ validate_poetry_configuration fs container_path, fs)
    else (errors, fs).

End WithLibraries.

End ContainerValidator.

(** * [validators/poetry_validator.py] *)

Module PoetryValidator.

Import Fs.

(** What [tomli.load] returns. Floats and dates behave in this code as
    [TInt] does: they support neither [in] nor indexing. *)
Inductive toml : Type :=
  | TStr (s : string)
  | TInt (n : Z)
  | TBool (b : bool)
  | TArray (items : list toml)
  | TTable (entries : list (string * toml)).

Definition type_name (v : toml) : string :=
  match v with
  | TStr _ => "str"
  | TInt _ => "int"
  | TBool _ => "bool"
  | TArray _ => "list"
  | TTable _ => "dict"
  end.

(** [d.get(key)] on the entries of a table. *)
Fixpoint table_get (key : string) (entries : list (string * toml))
    : option toml :=
  match entries with
  | [] => None
  | (k, v) :: rest =>
      if bool_decide (k = key) then Some v else table_get key rest
  end.

(** [key in v] *)
Definition contains_key (key : string) (v : toml) : result bool :=
  match v with
  | TTable entries => Ok (bool_decide (is_Some (table_get key entries)))
  | TArray items =>
      Ok (existsb (λ x, match x with
                        | TStr s => bool_decide (s = key)
                        | _ => false
                        end) items)
  | TStr s => Ok (Str.contains key s)
  | _ => Raise (TypeError ("argument of type '" +:+ type_name v
                           +:+ "' is not iterable"))
  end.

(** [v[key]] *)
Definition getitem (v : toml) (key : string) : result toml :=
  match v with
  | TTable entries =>
      match table_get key entries with
      | Some x => Ok x
      | None => Raise (KeyError key)
      end
  | TArray _ =>
      Raise (TypeError "list indices must be integers or slices, not str")
  | TStr _ => Raise (TypeError "string indices must be integers, not 'str'")
  | _ => Raise (TypeError ("'" +:+ type_name v
                           +:+ "' object is not subscriptable"))
  end.

(** [v.get(key, {})] *)
Definition get_or_empty (v : toml) (key : string) : result toml :=
  match v with
  | TTable entries => Ok (default (TTable []) (table_get key entries))
  | _ => Raise (AttributeError ("'" +:+ type_name v
                                +:+ "' object has no attribute 'get'"))
  end.

Definition REQUIRED_SECTIONS : list string :=
  ["tool.poetry"; "tool.poetry.dependencies"].
Definition REQUIRED_FIELDS : list string := ["name"; "version"; "description"].

(** The inner loop over the parts of one section
    (poetry_validator.py:52-57): whether every part was found. *)
Fixpoint has_section (parts : list string) (current : toml) : result bool :=
  match parts with
  | [] => Ok true
  | part :: rest =>
      let* present := contains_key part current in
      if present
      then let* next := getitem current part in has_section rest next
      else Ok false
  end.

(** The first element of [items] that [test] rejects, as the loops that
    return at the first failure find it. *)
Fixpoint first_failing (test : string → result bool) (items : list string)
    : result (option string) :=
  match items with
  | [] => Ok None
  | x :: rest =>
      let* ok := test x in
      if ok then first_failing test rest else Ok (Some x)
  end.

Section WithLoader.

(** [tomli.load] on the text of the file: the parsed document, or the
    message of the error it raises. *)
Variable tomli_load : string → string + toml.

(** The [try] block of [validate_poetry_config]
    (poetry_validator.py:45-72): the value returned and the line printed. *)
Definition check_pyproject (fs : filesystem) (pyproject_path : path)
    : result (bool * string) :=
  let* text :=
    match read fs pyproject_path with
    | inr text => Ok text
    | inl msg => Raise (OSError msg)
    end in
  let* pyproject_data :=
    match tomli_load text with
    | inr data => Ok data
    | inl msg => Raise (LibraryError msg)
    end in
  let* missing_section :=
    first_failing (λ section,
                     has_section (Str.split "." section) pyproject_data)
      REQUIRED_SECTIONS in
  match missing_section with
  | Some section =>
      Ok (false, "❌ Error: Missing section '" +:+ section
                 +:+ "' in pyproject.toml")
  | None =>
      let* tool := get_or_empty pyproject_data "tool" in
      let* poetry_section := get_or_empty tool "poetry" in
      let* missing_field :=
        first_failing (λ field, contains_key field poetry_section)
          REQUIRED_FIELDS in
      match missing_field with
      | Some field =>
          Ok (false, "❌ Error: Missing required field '" +:+ field
                     +:+ "' in [tool.poetry]")
      | None =>
          let* tool := get_or_empty pyproject_data "tool" in
          let* poetry := get_or_empty tool "poetry" in
          let* dependencies := get_or_empty poetry "dependencies" in
          let* has_python := contains_key "python" dependencies in
          if negb has_python
          then Ok (false,
                   "❌ Error: Missing Python version constraint in dependencies")
          else Ok (true, "✅ Poetry configuration valid: "
                         +:+ path_str pyproject_path)
      end
  end.

(** [validate_poetry_config(container_path)] (poetry_validator.py:23-76):
    the boolean it returns and the line it prints. *)
Definition validate_poetry_config (fs : filesystem) (container_path : path)
    : bool * string :=
  let pyproject_path := container_path ++ ["pyproject.toml"] in
  let requirements_path := container_path ++ ["requirements.txt"] in
  let setup_path := container_path ++ ["setup.py"] in
  if negb (exists_ fs pyproject_path)
  then (false, "❌ Error: " +:+ path_str pyproject_path +:+ " does not exist")
  else if exists_ fs requirements_path
  then (false, "❌ Error: " +:+ path_str requirements_path
               +:+ " exists (should use pyproject.toml instead)")
  else if exists_ fs setup_path
  then (false, "❌ Error: " +:+ path_str setup_path
               +:+ " exists (should use pyproject.toml instead)")
  else
    match check_pyproject fs pyproject_path with
    | Ok outcome => outcome
    | Raise e => (false, "❌ Error parsing pyproject.toml: " +:+ exn_str e)
    end.

End WithLoader.

End PoetryValidator.

(** * [validators/dockerfile_validator.py] *)

Module DockerfileValidator.

Import Fs.

Inductive level : Type := INFO | WARNING | ERROR.

Section WithRules.

(** [validate_dockerfile(dockerfile_path)] (dockerfile_validator.py:47-136),
    a battery of regular-expression searches over the text of the file: the
    errors and the warnings it returns. It only reads the file. *)
Variable validate_dockerfile : filesystem → path → list string * list string.

(** [main()] (dockerfile_validator.py:138-163) for the path given on the
    command line: the records logged, and the exit status returned. *)
Definition main (fs : filesystem) (dockerfile_path : path)
    : list (level * string) * Z :=
  let '(errors, warnings) := validate_dockerfile fs dockerfile_path in
  let logged :=
    match warnings with
    | [] => []
    | _ => (WARNING, "Warnings:")
           :: ((λ warning, (WARNING, "  - " +:+ warning)) <$> warnings)
    end in
  match errors with
  | _ :: _ =>
      (logged ++ (ERROR, "Dockerfile validation failed:")
              :: ((λ error, (ERROR, "  - " +:+ error)) <$> errors),
       1%Z)
  | [] =>
      (logged ++
       [ (INFO, match warnings with
                | _ :: _ => "Dockerfile validation passed with warnings!"
                | [] => "Dockerfile validation passed successfully!"
                end) ],
       0%Z)
  end.

End WithRules.

End DockerfileValidator.

(** * [check_standards.py] *)

Module CheckStandards.

Import Fs.

(** What a validator hands back to [check_containers]: the list of error
    strings it expects, or a boolean. *)
Inductive pyvalue : Type :=
  | PyList (items : list string)
  | PyBool (b : bool).

(** [if v:] *)
Definition truthy (v : pyvalue) : bool :=
  match v with
  | PyList items => negb (bool_decide (items = []))
  | PyBool b => b
  end.

(** [for error in v:] *)
Definition iterate (v : pyvalue) : result (list string) :=
  match v with
  | PyList items => Ok items
  | PyBool _ => Raise (TypeError "'bool' object is not iterable")
  end.

(** The files and the standard output of the process. *)
Record world : Type := World {
  files : filesystem;
  stdout : list string;
}.

(** A computation that reads and changes the world and may raise; the
    world at the moment of the exception is kept. *)
Definition io (A : Type) : Type := world → result A * world.

Definition io_ret {A : Type} (a : A) : io A := λ w, (Ok a, w).

Definition io_bind {A B : Type} (m : io A) (k : A → io B) : io B :=
  λ w, match m w with
       | (Ok a, w') => k a w'
       | (Raise e, w') => (Raise e, w')
       end.

Notation "'let!' x ':=' e 'in' k" := (io_bind e (fun x => k))
  (at level 10, x pattern, e at level 100, k at level 200).

(** [print(line)] for each line. *)
Definition print (lines : list string) : io unit :=
  λ w, (Ok tt, World (files w) (stdout w ++ lines)).

Definition lift {A : Type} (r : result A) : io A := λ w, (r, w).

Definition get_files : io filesystem := λ w, (Ok (files w), w).

(** [for x in xs: acc = body(acc, x)] *)
Fixpoint io_for_each {A S : Type} (body : S → A → io S) (xs : list A)
    (acc : S) : io S :=
  match xs with
  | [] => io_ret acc
  | x :: xs' => let! acc' := body acc x in io_for_each body xs' acc'
  end.

(** The pattern repeated for every validator
    (check_standards.py:22-26, 30-34, 40-44, 54-58): when the value is
    truthy, [all_valid] goes to [False], the header is printed and one line
    per element of the value. *)
Definition report (errors : pyvalue) (header : string) (all_valid : bool)
    : io bool :=
  if truthy errors then
    let! _ := print [header] in
    let! items := lift (iterate errors) in
    let! _ := print ((λ error, "  - " +:+ error) <$> items) in
    io_ret false
  else io_ret all_valid.

Section WithValidators.

Variable format_str : string → ContainerValidator.black_outcome.
Variable ast_parse : string → Ast.parse_outcome.
Variable tomli_load : string → string + PoetryValidator.toml.

(** [validate_dockerfile] of dockerfile_validator.py and
    [validate_compose_file] of compose_validator.py: both only read the
    file they are given and return lists of strings, whatever happens. *)
Variable validate_dockerfile : filesystem → path → list string * list string.
Variable validate_compose_file : filesystem → path → list string.

(** [validate_container_structure(container_dir)], with its writes. *)
Definition validate_container_structure (container_dir : path)
    : io (list string) :=
  λ w, let '(errors, fs) :=
         ContainerValidator.validate_container_structure
           format_str ast_parse (files w) container_dir in
       (Ok errors, World fs (stdout w)).

(** [validate_poetry_config(container_dir)], with the line it prints. *)
Definition validate_poetry_config (container_dir : path) : io bool :=
  λ w, let '(valid, line) :=
         PoetryValidator.validate_poetry_config
           tomli_load (files w) container_dir in
       (Ok valid, World (files w) (stdout w ++ [line])).

(** Structural validation (check_standards.py:20-26). *)
Definition structure_block (container_dir : path) (all_valid : bool)
    : io bool :=
  let! structure_errors := validate_container_structure container_dir in
  report (PyList structure_errors)
    ("Container structure validation errors in "
     +:+ path_str container_dir +:+ ":")
    all_valid.

(** Poetry validation (check_standards.py:28-34). *)
Definition poetry_block (container_dir : path) (all_valid : bool)
    : io bool :=
  let! poetry_errors := validate_poetry_config container_dir in
  report (PyBool poetry_errors)
    ("Poetry configuration errors in " +:+ path_str container_dir +:+ ":")
    all_valid.

(** Dockerfile validation (check_standards.py:36-48). *)
Definition dockerfile_block (container_dir : path) (all_valid : bool)
    : io bool :=
  let dockerfile_path := container_dir ++ ["Dockerfile"] in
  let! fs := get_files in
  if exists_ fs dockerfile_path then
    let '(dockerfile_errors, dockerfile_warnings) :=
      validate_dockerfile fs dockerfile_path in
    let! all_valid :=
      report (PyList dockerfile_errors)
        ("Dockerfile validation errors in "
         +:+ path_str dockerfile_path +:+ ":")
        all_valid in
    let! _ :=
      match dockerfile_warnings with
      | [] => io_ret tt
      | _ => print (("Dockerfile validation warnings in "
                     +:+ path_str dockerfile_path +:+ ":")
                    :: ((λ warning, "  - Warning: " +:+ warning)
                          <$> dockerfile_warnings))
      end in
    io_ret all_valid
  else io_ret all_valid.

(** The body of the loop over the container directories
    (check_standards.py:19-48). *)
Definition container_body (all_valid : bool) (container_dir : path)
    : io bool :=
  let! all_valid := structure_block container_dir all_valid in
  let! all_valid := poetry_block container_dir all_valid in
  dockerfile_block container_dir all_valid.

Definition compose_path : path :=
  ["containers"; "dev-environment"; "docker-compose.dev.yml"].

(** Compose validation (check_standards.py:50-58). *)
Definition compose_block (all_valid : bool) : io bool :=
  let! fs := get_files in
  if exists_ fs compose_path then
    report (PyList (validate_compose_file fs compose_path))
      "Docker Compose validation errors:" all_valid
  else io_ret all_valid.

(** [check_containers()] (check_standards.py:13-60). *)
Definition check_containers : io bool :=
  let! _ := print ["Validating containers..."] in
  let! fs := get_files in
  let container_dirs := filter (λ p, is_dir fs p) (glob_star fs ["containers"]) in
  let! all_valid := io_for_each container_body container_dirs true in
  compose_block all_valid.

End WithValidators.

End CheckStandards.

(** * Vocabulary of the stated properties *)

Module Claims.

Import CheckDockerfile.

(** Some character of [s] is whitespace. *)
Fixpoint has_space (s : string) : bool :=
  match s with
  | "" => false
  | String c s' => Str.isspace c || has_space s'
  end.

(** Some character of [s] is not whitespace. *)
Fixpoint has_text (s : string) : bool :=
  match s with
  | "" => false
  | String c s' => negb (Str.isspace c) || has_text s'
  end.

(** A physical line the parser does not drop: neither blank nor a comment
    once stripped. *)
Definition kept (raw : string) : bool :=
  let line := Str.strip raw in
  negb (Str.is_empty line || Str.startswith "#" line).

(** The line feed, as a string. *)
Definition nl : string := String Str.LF "".

(** A line ending with the continuation marker, once stripped. *)
Definition continued (raw : string) : bool :=
  Str.endswith "\" (Str.strip raw).

(** A kept line that is a whole instruction by itself: no continuation
    marker, a keyword and an argument. *)
Definition plain_line (raw : string) : bool :=
  negb (continued raw)
  && bool_decide (length (Str.split_none_1 (Str.strip raw)) = 2).

(** A Dockerfile text without continuation lines in which every
    instruction has its argument. *)
Definition plain_text (content : string) : bool :=
  forallb (λ raw, implb (kept raw) (plain_line raw))
    (Str.split Str.LF content).

(** A Dockerfile text in which no kept line ends with the continuation
    marker. *)
Definition no_continuation (content : string) : bool :=
  forallb (λ raw, implb (kept raw) (negb (continued raw)))
    (Str.split Str.LF content).

(** The pair a plain line stands for. *)
Definition line_instruction (raw : string) (i : instruction) : Prop :=
  Str.split_none_1 (Str.strip raw) = [i.1; i.2].

(** The key of an [ENV] argument as the specification words it: the first
    token delimited by whitespace or by the equals sign. *)
Fixpoint first_token (s : string) : string :=
  match s with
  | "" => ""
  | String c s' =>
      if Str.isspace c || bool_decide (c = "="%char) then ""
      else String c (first_token s')
  end.

Definition spec_env_key (args : string) : string :=
  first_token (Str.lstrip args).

(** Some instruction has keyword [kw] and an argument that passes [test]. *)
Definition has_instruction (kw : string) (test : string → bool)
    (instrs : list instruction) : bool :=
  existsb (λ '(k, args), bool_decide (k = kw) && test args) instrs.

(** The required keys the specification's reading finds in no [ENV]
    instruction. *)
Definition spec_missing_env_vars (instrs : list instruction) : list string :=
  filter (λ key, has_instruction "ENV"
                   (λ args, bool_decide (spec_env_key args = key)) instrs
                 = false)
    (elements required_env_vars).

(** A Dockerfile with the eight keys in the [ENV KEY VALUE] form; the last
    value contains an equals sign. *)
Definition env_space_form_dockerfile : string :=
  "FROM python:3.11-slim" +:+ nl
  +:+ "ENV PYTHONUNBUFFERED 1" +:+ nl
  +:+ "ENV PYTHONDONTWRITEBYTECODE 1" +:+ nl
  +:+ "ENV POETRY_VERSION 1.7.1" +:+ nl
  +:+ "ENV POETRY_HOME /opt/poetry" +:+ nl
  +:+ "ENV POETRY_VIRTUALENVS_IN_PROJECT true" +:+ nl
  +:+ "ENV POETRY_NO_INTERACTION 1" +:+ nl
  +:+ "ENV PYSETUP_PATH /opt/pysetup" +:+ nl
  +:+ "ENV VENV_PATH /opt/pysetup/.venv-py=3.11" +:+ nl.

(** Every argument contains a character that is not whitespace. *)
Definition args_have_text (instrs : list instruction) : Prop :=
  Forall (λ i : instruction, has_text i.2 = true) instrs.

(** The command that installs Poetry (check_dockerfile.py:102). *)
Definition poetry_installer : string :=
  "curl -sSL https://install.python-poetry.org".

Definition copies_manifests (args : string) : bool :=
  Str.contains "pyproject.toml" args && Str.contains "poetry.lock" args.

Definition healthcheck_flags (args : string) : bool :=
  Str.contains "--interval" args && Str.contains "--timeout" args
  && Str.contains "--retries" args.

(** One of the tokens of a [LABEL] argument is [key=value]. *)
Definition has_label_token (key args : string) : bool :=
  existsb (Str.startswith (key +:+ "=")) (Str.split_none args).

(** The premises of the zero-error property as it is stated: the base
    image first, every required key the first token of some [ENV] argument,
    a [RUN] with the Poetry installer, a [COPY] of both manifests, a
    [HEALTHCHECK] with the three flags, the three labels. *)
Definition complete_as_stated (instrs : list instruction) : bool :=
  bool_decide (head instrs = Some ("FROM", "python:3.11-slim"))
  && forallb (λ key, has_instruction "ENV"
                       (λ args, bool_decide (spec_env_key args = key)) instrs)
       (elements required_env_vars)
  && has_instruction "RUN" (Str.contains poetry_installer) instrs
  && has_instruction "COPY" copies_manifests instrs
  && has_instruction "HEALTHCHECK" healthcheck_flags instrs
  && forallb (λ key, has_instruction "LABEL" (has_label_token key) instrs)
       (elements required_labels).

(** [ENV KEY=VALUE], or [ENV KEY VALUE] with no equals sign in the value. *)
Definition env_declaration (key args : string) : Prop :=
  (∃ value, args = key +:+ String "=" value)
  ∨ (∃ c value, Str.isspace c = true ∧ args = key +:+ String c value
                ∧ Str.contains "=" value = false).

(** The premises under which the six checks are silent. *)
Record complete_dockerfile (instrs : list instruction) : Prop := {
  base_image : head instrs = Some ("FROM", "python:3.11-slim");
  env_vars :
    ∀ key, key ∈ required_env_vars →
      ∃ args, ("ENV", args) ∈ instrs ∧ env_declaration key args;
  poetry_installed :
    has_instruction "RUN" (Str.contains poetry_installer) instrs = true;
  dependencies_installed :
    has_instruction "RUN" (Str.contains "poetry install") instrs = true;
  manifests_copied : has_instruction "COPY" copies_manifests instrs = true;
  first_healthcheck :
    ∃ before args after,
      instrs = before ++ ("HEALTHCHECK", args) :: after
      ∧ has_instruction "HEALTHCHECK" (λ _, true) before = false
      ∧ healthcheck_flags args = true;
  labels :
    ∀ key, key ∈ required_labels →
      has_instruction "LABEL" (has_label_token key) instrs = true;
}.

(** The head of a Dockerfile that has everything the property as stated
    asks for up to the health check. *)
Definition stated_dockerfile_head : string :=
  "FROM python:3.11-slim" +:+ nl
  +:+ "ENV PYTHONUNBUFFERED=1 \" +:+ nl
  +:+ "    PYTHONDONTWRITEBYTECODE=1" +:+ nl
  +:+ "ENV PYTHONDONTWRITEBYTECODE=1" +:+ nl
  +:+ "ENV POETRY_VERSION=1.7.1" +:+ nl
  +:+ "ENV POETRY_HOME=/opt/poetry" +:+ nl
  +:+ "ENV POETRY_VIRTUALENVS_IN_PROJECT=true" +:+ nl
  +:+ "ENV POETRY_NO_INTERACTION=1" +:+ nl
  +:+ "ENV PYSETUP_PATH /opt/pysetup" +:+ nl
  +:+ "ENV VENV_PATH /opt/pysetup/.venv" +:+ nl
  +:+ "# install poetry" +:+ nl
  +:+ "RUN curl -sSL https://install.python-poetry.org | python3 -" +:+ nl
  +:+ "WORKDIR /opt/pysetup" +:+ nl
  +:+ "COPY pyproject.toml poetry.lock ./" +:+ nl.

Definition stated_dockerfile_labels : string :=
  "LABEL maintainer=platform version=1.0 description=worker" +:+ nl.

(** Everything the property as stated asks for, and no [poetry install]. *)
Definition dockerfile_without_poetry_install : string :=
  stated_dockerfile_head
  +:+ "HEALTHCHECK --interval=5s --timeout=3s --retries=3 CMD true" +:+ nl
  +:+ stated_dockerfile_labels.

(** Everything the property as stated asks for and [poetry install], with a
    bare [HEALTHCHECK] before the one that has the flags. *)
Definition dockerfile_two_healthchecks : string :=
  stated_dockerfile_head
  +:+ "RUN poetry install --no-root" +:+ nl
  +:+ "HEALTHCHECK CMD true" +:+ nl
  +:+ "HEALTHCHECK --interval=5s --timeout=3s --retries=3 CMD true" +:+ nl
  +:+ stated_dockerfile_labels.

(** A Dockerfile with all the amended property asks for. *)
Definition complete_dockerfile_text : string :=
  stated_dockerfile_head
  +:+ "RUN poetry install --no-root" +:+ nl
  +:+ "HEALTHCHECK --interval=5s --timeout=3s --retries=3 CMD true" +:+ nl
  +:+ stated_dockerfile_labels.

(** The service configuration has no [PYTHONPATH] among its environment
    entries, as the property is stated: also when it has no [environment]
    at all. *)
Definition lacks_pythonpath (service_config : ComposeValidator.yaml) : bool :=
  match service_config with
  | ComposeValidator.YDict entries =>
      match ComposeValidator.dict_get "environment" entries with
      | Some env_vars => negb (ComposeValidator.python_path_found env_vars)
      | None => true
      end
  | _ => true
  end.

(** Every node of a tree, the node first and then what is below each of
    its children, left to right. *)
Fixpoint nodes (n : Ast.node) : list Ast.node :=
  n :: match n with
       | Ast.Other cs => flat_map nodes cs
       | _ => []
       end.

(** An import-from statement with a level above zero. *)
Definition is_relative_import (n : Ast.node) : bool :=
  match n with
  | Ast.ImportFrom _ level _ => bool_decide (0 < level)
  | _ => false
  end.

(** A finding of the relative-import kind. *)
Definition is_relative_finding (finding : string) : bool :=
  Str.startswith "Relative import found in " finding.

(** The relative-import finding for an import-from node. *)
Definition relative_finding (py_file : Fs.path) (n : Ast.node) : string :=
  match n with
  | Ast.ImportFrom module level _ =>
      ContainerValidator.relative_import_message py_file level module
  | _ => ""
  end.


(** A module of two lines, [import os] and [from . import helper], and
    the tree [ast.parse] builds for it. *)
Definition helper_source : string :=
  "import os" +:+ nl +:+ "from . import helper" +:+ nl.
Definition helper_tree : Ast.node :=
  Ast.Other [Ast.Other [Ast.Other []]; Ast.ImportFrom None 1 2].

(** An [__init__] module that imports and assigns [__all__] inside an
    [if], and its tree.
<<
from .core import run
if True:
    __all__ = ["run"]
>> *)
Definition guarded_all_source : string :=
  "from .core import run" +:+ nl +:+ "if True:" +:+ nl
  +:+ "    __all__ = [" +:+ String "034" ("run" +:+ String "034" "]")
  +:+ nl.
Definition guarded_all_tree : Ast.node :=
  Ast.Other [ Ast.ImportFrom (Some "core") 1 1;
              Ast.Other [Ast.Other []; Ast.Assign [Ast.Name "__all__"] 3] ].

(** A one-line module as it may be written, [x=1], and as black leaves
    it, [x = 1]. *)
Definition unformatted_source : string := "x=1" +:+ nl.
Definition formatted_source : string := "x = 1" +:+ nl.

(** The formatted module as an editor on another system stores it, with
    a carriage return before the line feed. *)
Definition crlf_source : string := "x = 1" +:+ String Str.CR nl.

(** [ast.parse] on the sample modules; no other text is parsed in the
    examples. *)
Definition sample_parse (source : string) : Ast.parse_outcome :=
  if bool_decide (source = helper_source) then Ast.Parsed helper_tree
  else if bool_decide (source = guarded_all_source)
  then Ast.Parsed guarded_all_tree
  else if bool_decide (source = unformatted_source)
          || bool_decide (source = formatted_source)
  then Ast.Parsed (Ast.Other [Ast.Assign [Ast.Name "x"] 1])
  else if bool_decide (source = "") then Ast.Parsed (Ast.Other [])
  else Ast.SyntaxError "invalid syntax".

(** [black.format_str] on the sample modules: it puts spaces around the
    equals sign of [x=1] and leaves the others, which are formatted, as
    they are. *)
Definition sample_format (src : string) : ContainerValidator.black_outcome :=
  if bool_decide (src = unformatted_source)
  then ContainerValidator.Formatted formatted_source
  else ContainerValidator.Formatted src.

(** A package with the two sample modules. *)
Definition sample_package : Fs.filesystem :=
  {[ ["src"] := Fs.Dir;
     ["src"; "app"] := Fs.Dir;
     ["src"; "app"; "__init__.py"] := Fs.File guarded_all_source;
     ["src"; "app"; "util.py"] := Fs.File helper_source;
     ["src"; "app"; "core"] := Fs.Dir;
     ["src"; "app"; "core"; "__init__.py"] := Fs.File helper_source ]}.

(** The files [format_python_files] rewrites: the Python files below the
    container, outside the skipped directories. *)
Definition format_targets (fs : Fs.filesystem) (container_path : Fs.path)
    : list Fs.path :=
  filter (λ py_file,
            negb (ContainerValidator.should_skip_directory
                    (Fs.parent py_file)))
    (Fs.rglob fs container_path ".py").

(** What the formatting pass makes of one entry it does not skip: a file
    whose text black formats holds black's output for the text as a
    text-mode read gives it; anything else stays. *)
Definition formatted_entry
    (format_str : string → ContainerValidator.black_outcome)
    (e : Fs.entry) : Fs.entry :=
  match e with
  | Fs.File src =>
      match format_str (Fs.universal_newlines src) with
      | ContainerValidator.Formatted formatted_src => Fs.File formatted_src
      | _ => e
      end
  | Fs.Dir => Fs.Dir
  end.

(** [validate_container_structure] runs the formatting pass on this
    container: its name is not excluded and it has Python code. *)
Definition formats (fs : Fs.filesystem) (container_path : Fs.path) : bool :=
  negb (bool_decide (Fs.name container_path
                     ∈ ContainerValidator.EXCLUDED_DIRS))
  && ContainerValidator.has_python_code fs container_path.

(** What [format_python_files] appends to [errors] for one file it does
    not skip (container_validator.py:62-72): nothing when black formats the
    text, else the message of the [except] clause that catches. *)
Definition format_failure
    (format_str : string → ContainerValidator.black_outcome)
    (fs : Fs.filesystem) (py_file : Fs.path) : option string :=
  match Fs.read_text fs py_file with
  | inr src =>
      match format_str src with
      | ContainerValidator.Formatted _ => None
      | ContainerValidator.InvalidInput msg =>
          Some ("Syntax error in " +:+ Fs.path_str py_file +:+ ": " +:+ msg)
      | ContainerValidator.BlackError msg =>
          Some ("Error reading/writing " +:+ Fs.path_str py_file
                +:+ ": " +:+ msg)
      end
  | inl msg =>
      Some ("Error reading/writing " +:+ Fs.path_str py_file
            +:+ ": " +:+ msg)
  end.

(** Black accepts its own output and leaves it as it is. *)
Definition black_stable
    (format_str : string → ContainerValidator.black_outcome) : Prop :=
  ∀ src formatted_src,
    format_str (Fs.universal_newlines src)
    = ContainerValidator.Formatted formatted_src →
    format_str (Fs.universal_newlines formatted_src)
    = ContainerValidator.Formatted formatted_src.

(** The second file system differs from the first at most in the text of
    files whose name ends in [.py]. *)
Definition python_only_changes (before after : Fs.filesystem) : Prop :=
  ∀ p : Fs.path,
    after !! p = before !! p
    ∨ (Str.endswith ".py" (Fs.name p) = true
       ∧ ∃ src src',
           before !! p = Some (Fs.File src)
           ∧ after !! p = Some (Fs.File src')).

(** The container directories [check_containers] walks. *)
Definition container_dirs (fs : Fs.filesystem) : list Fs.path :=
  filter (λ p, Fs.is_dir fs p) (Fs.glob_star fs ["containers"]).

(** The exception of [for error in poetry_errors] on a boolean. *)
Definition bool_not_iterable : exn :=
  TypeError "'bool' object is not iterable".

(** [s] between double quotes. *)
Definition quoted (s : string) : string :=
  String "034" (s +:+ String "034" "").

(** A [pyproject.toml] with what the Poetry validator asks for, and the
    document [tomli.load] makes of it; no other text is loaded in the
    examples. *)
Definition sample_pyproject : string :=
  "[tool.poetry]" +:+ nl
  +:+ "name = " +:+ quoted "api" +:+ nl
  +:+ "version = " +:+ quoted "0.1.0" +:+ nl
  +:+ "description = " +:+ quoted "API service" +:+ nl
  +:+ nl
  +:+ "[tool.poetry.dependencies]" +:+ nl
  +:+ "python = " +:+ quoted "^3.11" +:+ nl.
Definition sample_pyproject_data : PoetryValidator.toml :=
  PoetryValidator.TTable
    [ ("tool",
       PoetryValidator.TTable
         [ ("poetry",
            PoetryValidator.TTable
              [ ("name", PoetryValidator.TStr "api");
                ("version", PoetryValidator.TStr "0.1.0");
                ("description", PoetryValidator.TStr "API service");
                ("dependencies",
                 PoetryValidator.TTable
                   [("python", PoetryValidator.TStr "^3.11")]) ]) ]) ].
Definition sample_tomli_load (text : string)
    : string + PoetryValidator.toml :=
  if bool_decide (text = sample_pyproject) then inr sample_pyproject_data
  else inl "Invalid statement (at line 1, column 1)".

(** A service container with one module, with the text [main]. *)
Definition service_container (main : string) : Fs.filesystem :=
  {[ ["containers"] := Fs.Dir;
     ["containers"; "api"] := Fs.Dir;
     ["containers"; "api"; "Dockerfile"] := Fs.File "FROM python:3.11-slim";
     ["containers"; "api"; "pyproject.toml"] := Fs.File sample_pyproject;
     ["containers"; "api"; "src"] := Fs.Dir;
     ["containers"; "api"; "src"; "api"] := Fs.Dir;
     ["containers"; "api"; "src"; "api"; "__init__.py"] := Fs.File "";
     ["containers"; "api"; "src"; "api"; "main.py"] := Fs.File main ]}.

(** The same container without its [pyproject.toml]. *)
Definition service_container_without_pyproject : Fs.filesystem :=
  delete ["containers"; "api"; "pyproject.toml"]
    (service_container formatted_source).

(** A run of [check_containers] on the files [fs], with validators for the
    Dockerfile and the compose file that find nothing. *)
Definition sample_run (fs : Fs.filesystem)
    : result bool * CheckStandards.world :=
  CheckStandards.check_containers sample_format sample_parse
    sample_tomli_load (λ _ _, ([], [])) (λ _ _, [])
    (CheckStandards.World fs []).





End Claims.

(** * Vocabulary of the further properties *)

Module Further.

Import CheckDockerfile Claims.

(** A kept line that ends an instruction: it has no continuation marker. *)
Definition closing (raw : string) : bool :=
  kept raw && negb (continued raw).

(** What a continued line adds to the argument: the trailing markers and
    the whitespace around what is left are removed. *)
Definition fragment (line : string) : string :=
  Str.strip (Str.rstrip_char Str.backslash line).

(** The shape of a parsed instruction: a keyword that is one word, an
    argument that is not blank. *)
Definition well_shaped (i : instruction) : Prop :=
  i.1 ≠ "" ∧ has_space i.1 = false ∧ has_text i.2 = true.

(** What the parser keeps between the lines: instructions of the right
    shape, and an open keyword that is a word. *)
Definition parser_invariant (st : parser_state) : Prop :=
  Forall well_shaped (instructions st)
  ∧ ∀ ci, current_instruction st = Some ci → ci ≠ "" ∧ has_space ci = false.

(** [isinstance(v, str)] on a value of a compose file. *)
Definition is_str (v : ComposeValidator.yaml) : bool :=
  match v with ComposeValidator.YStr _ => true | _ => false end.

(** A container kept below a directory named [build], with one module
    black would reformat. *)
Definition vendored_container : Fs.filesystem :=
  {[ ["build"] := Fs.Dir;
     ["build"; "api"] := Fs.Dir;
     ["build"; "api"; "src"] := Fs.Dir;
     ["build"; "api"; "src"; "main.py"] := Fs.File unformatted_source ]}.

(** A [pyproject.toml] document with what [validate_poetry_config] looks
    for: a table [tool] with a table [poetry] that has the three required
    fields and a [dependencies] entry in which [python] is found. *)
Definition poetry_document_accepted (data : PoetryValidator.toml) : Prop :=
  ∃ document tool poetry dependencies,
    data = PoetryValidator.TTable document
    ∧ PoetryValidator.table_get "tool" document
      = Some (PoetryValidator.TTable tool)
    ∧ PoetryValidator.table_get "poetry" tool
      = Some (PoetryValidator.TTable poetry)
    ∧ Forall (λ field, is_Some (PoetryValidator.table_get field poetry))
        ["name"; "version"; "description"]
    ∧ PoetryValidator.table_get "dependencies" poetry = Some dependencies
    ∧ PoetryValidator.contains_key "python" dependencies = Ok true.

(** The second world comes from the first by changes to the text of Python
    files and by printing. *)
Definition extends (w w' : CheckStandards.world) : Prop :=
  python_only_changes (CheckStandards.files w) (CheckStandards.files w')
  ∧ CheckStandards.stdout w `prefix_of` CheckStandards.stdout w'.

End Further.

(** * Tactics for the examples *)

(** Membership in a list given in full, by evaluation. *)
Ltac listed := refine (bool_decide_unpack _ _); vm_compute; exact I.

(** [ENV KEY=VALUE] and [ENV KEY VALUE] declarations among listed
    instructions. *)
Ltac declared_with_equals args value :=
  exists args; split; [listed | left; exists value; reflexivity].
Ltac declared_with_space args value :=
  exists args; split;
  [listed | right; exists " "%char, value; split_and!; reflexivity].

(** * Properties *)

Import CheckDockerfile Claims.

(** ** Strings *)

Section StrFacts.

Lemma lstrip_no_space s : has_space s = false → Str.lstrip s = s.
Proof.
  destruct s as [|c s]; [done|]. simpl.
  intros [Hc _]%orb_false_elim. by rewrite Hc.
Qed.

Lemma span_word_no_space s : has_space s = false → Str.span_word s = (s, "").
Proof.
  induction s as [|c s IH]; [done|]. simpl.
  intros [Hc Hs]%orb_false_elim. by rewrite Hc, (IH Hs).
Qed.

Lemma split_none_1_bare s :
  s ≠ "" → has_space s = false → Str.split_none_1 s = [s].
Proof.
  intros Hne Hs. unfold Str.split_none_1.
  rewrite (lstrip_no_space s Hs).
  destruct s as [|c s]; [done|].
  by rewrite (span_word_no_space _ Hs).
Qed.

Lemma append_cons c a b : String c a +:+ b = String c (a +:+ b).
Proof. reflexivity. Qed.

Lemma append_nil b : "" +:+ b = b.
Proof. reflexivity. Qed.

Lemma rstrip_no_space s : has_space s = false → Str.rstrip s = s.
Proof.
  unfold Str.rstrip. induction s as [|c s IH]; [done|]. simpl.
  intros [Hc Hs]%orb_false_elim. rewrite (IH Hs), Hc. by destruct s.
Qed.

Lemma strip_no_space s : has_space s = false → Str.strip s = s.
Proof.
  intros Hs. unfold Str.strip. by rewrite (lstrip_no_space s Hs), rstrip_no_space.
Qed.

Lemma lstrip_head s c r : Str.lstrip s = String c r → Str.isspace c = false.
Proof.
  induction s as [|a s IH]; [done|]. simpl.
  destruct (Str.isspace a) eqn:Ha; [done|]. by intros [= <- _].
Qed.

Lemma has_text_rstrip s :
  Str.is_empty (Str.rstrip s) = false → has_text (Str.rstrip s) = true.
Proof.
  unfold Str.rstrip. induction s as [|c s IH]; [done|]. simpl.
  destruct (Str.rstrip_by Str.isspace s) as [|c' r] eqn:Hr.
  - destruct (Str.isspace c) eqn:Hc; [done|]. simpl. by rewrite Hc.
  - intros _. simpl in *. rewrite (IH eq_refl). apply orb_true_r.
Qed.

Lemma has_text_strip raw :
  Str.is_empty (Str.strip raw) = false → has_text (Str.strip raw) = true.
Proof. apply has_text_rstrip. Qed.

Lemma has_text_app_r a b : has_text b = true → has_text (a +:+ b) = true.
Proof.
  intros Hb. induction a as [|c a IH]; [done|].
  rewrite append_cons. simpl. rewrite IH. apply orb_true_r.
Qed.

Lemma has_text_join_snoc sep parts last :
  has_text last = true → has_text (Str.join sep (parts ++ [last])) = true.
Proof.
  intros Hlast. induction parts as [|p parts IH]; [done|].
  change (Str.join sep ((p :: parts) ++ [last]))
    with (match parts ++ [last] with
          | [] => p
          | _ => p +:+ sep +:+ Str.join sep (parts ++ [last])
          end).
  destruct (parts ++ [last]) eqn:Hparts; [by destruct parts|].
  by do 2 apply has_text_app_r.
Qed.

Lemma has_text_split_none s : has_text s = true → Str.split_none s ≠ [].
Proof.
  induction s as [|c s IH]; [done|]. simpl.
  destruct (Str.isspace c); simpl; [done|]. intros _.
  destruct s as [|c' s]; [done|].
  destruct (Str.isspace c'); [done|]. by destruct (Str.split_none _).
Qed.

Lemma split_nonempty sep s : Str.split sep s ≠ [].
Proof.
  destruct s as [|c s]; [done|]. simpl.
  destruct (bool_decide _); [done|]. by destruct (Str.split sep s).
Qed.

Lemma split_none_1_arg_has_text s kw arg :
  Str.split_none_1 s = [kw; arg] → has_text arg = true.
Proof.
  unfold Str.split_none_1.
  destruct (Str.lstrip s) as [|c s1]; [done|].
  destruct (Str.span_word (String c s1)) as [w r].
  destruct (Str.lstrip r) as [|c' r'] eqn:Hr; [done|].
  intros [= _ <-]. simpl. by rewrite (lstrip_head _ _ _ Hr).
Qed.

(** The one-character pattern [String c ""] in a concatenation. *)
Lemma contains_char_app c a b :
  Str.contains (String c "") (a +:+ b)
  = Str.contains (String c "") a || Str.contains (String c "") b.
Proof.
  induction a as [|x a IH].
  - rewrite append_nil. by destruct b.
  - rewrite append_cons. simpl. rewrite IH.
    by destruct (bool_decide (c = x)).
Qed.

Lemma contains_char_cons c x s :
  Str.contains (String c "") (String x s)
  = bool_decide (c = x) || Str.contains (String c "") s.
Proof. simpl. by destruct (bool_decide (c = x)). Qed.

Lemma split_at_separator sep k v :
  Str.contains (String sep "") k = false →
  Str.split sep (k +:+ String sep v) = k :: Str.split sep v.
Proof.
  induction k as [|x k IH]; intros Hk.
  - rewrite append_nil. simpl. by rewrite bool_decide_eq_true_2.
  - rewrite contains_char_cons in Hk.
    apply orb_false_elim in Hk as [Hx Hk].
    rewrite append_cons. simpl. rewrite (IH Hk).
    apply bool_decide_eq_false in Hx.
    by rewrite bool_decide_eq_false_2 by congruence.
Qed.

Lemma split_none_at_space k c v :
  k ≠ "" → has_space k = false → Str.isspace c = true →
  Str.split_none (k +:+ String c v) = k :: Str.split_none v.
Proof.
  intros Hne Hk Hc. induction k as [|x k IH]; [done|].
  simpl in Hk. apply orb_false_elim in Hk as [Hx Hk].
  rewrite append_cons. simpl. rewrite Hx.
  destruct k as [|y k].
  - rewrite append_nil, Hc. simpl. by rewrite Hc.
  - rewrite append_cons. rewrite <- append_cons.
    rewrite (IH ltac:(done) Hk).
    simpl in Hk. apply orb_false_elim in Hk as [Hy _]. by rewrite Hy.
Qed.

Lemma append_assoc a b c : (a +:+ b) +:+ c = a +:+ (b +:+ c).
Proof.
  induction a as [|x a IH]; [done|]. by rewrite !append_cons, IH.
Qed.

Lemma startswith_app p s : Str.startswith p s = true → ∃ v, s = p +:+ v.
Proof.
  revert s. induction p as [|a p IH]; intros s; [by exists s|].
  destruct s as [|b s]; [done|]. simpl.
  intros [->%bool_decide_eq_true [v ->]%IH]%andb_prop. by exists v.
Qed.

End StrFacts.

(** ** The Dockerfile parser *)

Lemma Ok_inj {A : Type} (a b : A) : Ok a = Ok b → a = b.
Proof. by intros [= ->]. Qed.

Lemma for_each_app {A S : Type} (body : S → A → result S) (xs ys : list A)
    (acc : S) :
  for_each body (xs ++ ys) acc
  = bind (for_each body xs acc) (for_each body ys).
Proof.
  revert acc. induction xs as [|x xs IH]; intros acc; simpl; [done|].
  destruct (body acc x); simpl; [apply IH | done].
Qed.

(** A kept line without whitespace, met outside a continuation, makes the
    loop body raise: both branches unpack a one-element split. *)
Lemma parse_line_bare (st : parser_state) (raw : string) :
  current_instruction st = None →
  kept raw = true →
  has_space (Str.strip raw) = false →
  parse_line st raw
  = Raise (ValueError "not enough values to unpack (expected 2, got 1)").
Proof.
  unfold kept, parse_line. intros Hcur Hkept Hbare.
  apply negb_true_iff in Hkept. rewrite Hkept, Hcur.
  apply orb_false_elim in Hkept as [Hne _].
  rewrite split_none_1_bare; [|by destruct (Str.strip raw)|done].
  by destruct (Str.endswith _ _).
Qed.

(** C1. A non-blank, non-comment line that consists of a bare keyword and is
    met outside a continuation does not yield an instruction with an empty
    argument: [parse_dockerfile] raises [ValueError] on the whole text. *)
Theorem parse_dockerfile_bare_keyword_raises
    (content : string) (before after : list string) (raw : string)
    (st : parser_state) :
  Str.split Str.LF content = before ++ raw :: after →
  for_each parse_line before initial_state = Ok st →
  current_instruction st = None →
  kept raw = true →
  has_space (Str.strip raw) = false →
  parse_dockerfile content
  = Raise (ValueError "not enough values to unpack (expected 2, got 1)").
Proof.
  intros Hlines Hbefore Hcur Hkept Hbare. unfold parse_dockerfile.
  rewrite Hlines, for_each_app, Hbefore. simpl.
  by rewrite (parse_line_bare st raw Hcur Hkept Hbare).
Qed.

Lemma parse_dockerfile_bare_keyword_raises_witness :
  parse_dockerfile ("FROM python:3.11-slim" +:+ nl +:+ "CMD")
  = Raise (ValueError "not enough values to unpack (expected 2, got 1)").
Proof.
  apply (parse_dockerfile_bare_keyword_raises _
           ["FROM python:3.11-slim"] [] "CMD"
           (ParserState [("FROM", "python:3.11-slim")] None []));
    reflexivity.
Defined.

(** A blank line or a comment leaves the parser state alone. *)
Lemma parse_line_dropped (st : parser_state) (raw : string) :
  kept raw = false → parse_line st raw = Ok st.
Proof.
  unfold kept, parse_line. intros Hkept%negb_false_iff. by rewrite Hkept.
Qed.

(** A plain line met outside a continuation appends its pair. *)
Lemma parse_line_plain (st : parser_state) (raw kw arg : string) :
  current_instruction st = None →
  kept raw = true →
  continued raw = false →
  Str.split_none_1 (Str.strip raw) = [kw; arg] →
  parse_line st raw
  = Ok (ParserState (instructions st ++ [(kw, arg)]) None (current_args st)).
Proof.
  unfold kept, continued, parse_line.
  intros Hcur Hkept%negb_true_iff Hcont Hsplit.
  by rewrite Hkept, Hcont, Hcur, Hsplit.
Qed.

(** On lines that are all plain, the loop started outside a continuation
    appends one instruction per kept line and stays outside. *)
Lemma for_each_parse_line_plain (lines : list string) (st : parser_state) :
  current_instruction st = None →
  forallb (λ raw, implb (kept raw) (plain_line raw)) lines = true →
  ∃ added,
    for_each parse_line lines st
    = Ok (ParserState (instructions st ++ added) None (current_args st))
    ∧ Forall2 line_instruction (filter (λ raw, kept raw) lines) added.
Proof.
  revert st. induction lines as [|raw lines IH]; intros st Hcur Hall.
  - exists []. simpl. rewrite app_nil_r. split; [|constructor].
    destruct st; simpl in *; by subst.
  - simpl in Hall. apply andb_prop in Hall as [Hraw Hall].
    simpl. destruct (kept raw) eqn:Hkept.
    + rewrite filter_cons_True by (by rewrite Hkept).
      simpl in Hraw. apply andb_prop in Hraw as [Hcont Hlen].
      apply negb_true_iff in Hcont. apply bool_decide_eq_true in Hlen.
      destruct (Str.split_none_1 (Str.strip raw))
        as [|kw [|arg [|? ?]]] eqn:Hsplit; try discriminate Hlen.
      rewrite (parse_line_plain st raw kw arg Hcur Hkept Hcont Hsplit).
      destruct (IH (ParserState (instructions st ++ [(kw, arg)]) None
                      (current_args st)) eq_refl Hall)
        as (added & Hrun & Hadded).
      exists ((kw, arg) :: added). cbn [bind]. simpl in Hrun. rewrite Hrun.
      split; [by rewrite <- (assoc_L (++))|].
      constructor; [exact Hsplit | exact Hadded].
    + rewrite filter_cons_False by (rewrite Hkept; exact id).
      rewrite (parse_line_dropped st raw Hkept). simpl.
      by apply IH.
Qed.

Lemma lstrip_has_text s : has_text s = true → Str.lstrip s ≠ "".
Proof.
  induction s as [|c s IH]; [done|]. simpl.
  destruct (Str.isspace c); [exact IH|done].
Qed.

(** A kept line splits into a keyword, or into a keyword and an
    argument. *)
Lemma split_none_1_kept (raw : string) :
  kept raw = true →
  ∃ kw, Str.split_none_1 (Str.strip raw) = [kw]
        ∨ ∃ arg, Str.split_none_1 (Str.strip raw) = [kw; arg].
Proof.
  unfold kept. intros [Hne _]%negb_true_iff%orb_false_elim.
  pose proof (lstrip_has_text _ (has_text_strip raw Hne)) as Hleft.
  unfold Str.split_none_1.
  destruct (Str.lstrip (Str.strip raw)) as [|c s1]; [done|].
  destruct (Str.span_word (String c s1)) as [w r]. exists w.
  destruct (Str.lstrip r) as [|c' r']; [by left|right; by eexists].
Qed.

(** A kept line that is no continuation and does not split in two, met
    outside a continuation, makes the loop body raise. *)
Lemma parse_line_short (st : parser_state) (raw : string) :
  current_instruction st = None →
  kept raw = true →
  continued raw = false →
  length (Str.split_none_1 (Str.strip raw)) ≠ 2 →
  parse_line st raw
  = Raise (ValueError "not enough values to unpack (expected 2, got 1)").
Proof.
  intros Hcur Hkept Hcont Hlen.
  destruct (split_none_1_kept raw Hkept) as [kw [Hsplit|[arg Hsplit]]];
    [|by rewrite Hsplit in Hlen].
  unfold kept, continued, parse_line in *.
  apply negb_true_iff in Hkept. by rewrite Hkept, Hcont, Hcur, Hsplit.
Qed.

(** On lines without continuation marker, the loop started outside a
    continuation raises at the first kept line that does not split in
    two. *)
Lemma for_each_parse_line_short (lines : list string) (st : parser_state) :
  current_instruction st = None →
  forallb (λ raw, implb (kept raw) (negb (continued raw))) lines = true →
  forallb (λ raw, implb (kept raw) (plain_line raw)) lines = false →
  for_each parse_line lines st
  = Raise (ValueError "not enough values to unpack (expected 2, got 1)").
Proof.
  revert st. induction lines as [|raw lines IH]; intros st Hcur Hnone Hshort;
    [done|].
  cbn [forallb] in Hnone, Hshort.
  apply andb_prop in Hnone as [Hraw Hnone]. cbn [for_each].
  destruct (kept raw) eqn:Hkept.
  - cbn [implb] in Hraw, Hshort. apply negb_true_iff in Hraw.
    unfold plain_line in Hshort. rewrite Hraw in Hshort.
    cbn [negb andb] in Hshort. case_bool_decide as Hlen.
    + destruct (Str.split_none_1 (Str.strip raw))
        as [|kw [|arg [|? ?]]] eqn:Hsplit; try discriminate Hlen.
      rewrite (parse_line_plain st raw kw arg Hcur Hkept Hraw Hsplit).
      cbn [bind]. by apply IH.
    + by rewrite (parse_line_short st raw Hcur Hkept Hraw Hlen).
  - rewrite (parse_line_dropped st raw Hkept). cbn [bind]. by apply IH.
Qed.

(** C9. On a Dockerfile text without continuation lines,
    [parse_dockerfile] returns one pair per non-blank, non-comment
    physical line, in the order of the lines, when every such line has a
    keyword and an argument; and when one of them has not, a bare keyword
    as in the text [FROM python:3.11-slim] followed by [CMD], it raises
    [ValueError] and returns no pair at all. *)
Theorem parse_dockerfile_without_continuation (content : string) :
  no_continuation content = true →
  (plain_text content = true →
   ∃ instrs,
     parse_dockerfile content = Ok instrs
     ∧ Forall2 line_instruction
         (filter (λ raw, kept raw) (Str.split Str.LF content)) instrs)
  ∧ (plain_text content = false →
     parse_dockerfile content
     = Raise (ValueError "not enough values to unpack (expected 2, got 1)")).
Proof.
  intros Hnone. unfold parse_dockerfile. split.
  - intros Hplain.
    destruct (for_each_parse_line_plain (Str.split Str.LF content)
                initial_state eq_refl Hplain) as (added & Hrun & Hadded).
    exists added. by rewrite Hrun.
  - intros Hshort.
    by rewrite (for_each_parse_line_short (Str.split Str.LF content)
                  initial_state eq_refl Hnone Hshort).
Qed.

Lemma parse_dockerfile_without_continuation_witness :
  parse_dockerfile ("FROM python:3.11-slim" +:+ nl +:+ "CMD")
  = Raise (ValueError "not enough values to unpack (expected 2, got 1)").
Proof.
  destruct (parse_dockerfile_without_continuation
              ("FROM python:3.11-slim" +:+ nl +:+ "CMD") eq_refl)
    as [_ Hraises].
  apply Hraises. reflexivity.
Defined.

Lemma parse_line_args_have_text (st st' : parser_state) (raw : string) :
  parse_line st raw = Ok st' →
  args_have_text (instructions st) → args_have_text (instructions st').
Proof.
  unfold parse_line, args_have_text.
  destruct (Str.is_empty (Str.strip raw)) eqn:Hempty; cbn [orb];
    [by intros [= <-]|].
  destruct (Str.startswith "#" (Str.strip raw)); [by intros [= <-]|].
  destruct (Str.endswith "\" (Str.strip raw)),
    (current_instruction st) as [ci|] eqn:Hcur.
  - by intros [= <-].
  - destruct (Str.split_none_1 (Str.strip raw)) as [|kw [|arg [|? ?]]];
      simpl; (discriminate || by intros [= <-]).
  - intros [= <-] Hst. simpl. apply Forall_app. split; [done|].
    constructor; [|constructor]. simpl.
    by apply has_text_join_snoc, has_text_strip.
  - destruct (Str.split_none_1 (Str.strip raw))
      as [|kw [|arg [|? ?]]] eqn:Hsplit; simpl; try discriminate.
    intros [= <-] Hst. simpl. apply Forall_app. split; [done|].
    constructor; [|constructor]. simpl.
    by eapply split_none_1_arg_has_text.
Qed.

Lemma for_each_parse_line_args_have_text (lines : list string)
    (st st' : parser_state) :
  for_each parse_line lines st = Ok st' →
  args_have_text (instructions st) → args_have_text (instructions st').
Proof.
  revert st. induction lines as [|raw lines IH]; intros st; simpl.
  - by intros [= <-].
  - destruct (parse_line st raw) as [st1|] eqn:Hstep; simpl; [|done].
    intros Hrest Hst. eapply IH; [done|].
    by eapply parse_line_args_have_text.
Qed.

Lemma parse_dockerfile_args_have_text (content : string)
    (instrs : list instruction) :
  parse_dockerfile content = Ok instrs → args_have_text instrs.
Proof.
  unfold parse_dockerfile.
  destruct (for_each parse_line _ _) as [st|] eqn:Hrun; simpl; [|done].
  intros [= <-]. eapply for_each_parse_line_args_have_text; [done|].
  constructor.
Qed.

(** ** The Dockerfile checks *)

Lemma env_key_total args : has_text args = true → ∃ key, env_key args = Ok key.
Proof.
  intros Htext. unfold env_key. destruct (Str.contains "=" args).
  - pose proof (split_nonempty "=" args).
    destruct (Str.split "=" args); [done|]. by eexists.
  - pose proof (has_text_split_none args Htext).
    destruct (Str.split_none args); [done|]. by eexists.
Qed.

(** [ENV KEY=VALUE]: the key is the text before the first equals sign. *)
Lemma env_key_equals_form key value :
  has_space key = false → Str.contains "=" key = false →
  env_key (key +:+ String "=" value) = Ok key.
Proof.
  intros Hspace Hkey. unfold env_key.
  rewrite contains_char_app, contains_char_cons, bool_decide_eq_true_2 by done.
  rewrite orb_true_r, (split_at_separator "=" key value Hkey). simpl.
  by rewrite strip_no_space.
Qed.

(** [ENV KEY VALUE] without an equals sign: the key is the first word. *)
Lemma env_key_space_form key c value :
  key ≠ "" → has_space key = false → Str.contains "=" key = false →
  Str.isspace c = true → Str.contains "=" value = false →
  env_key (key +:+ String c value) = Ok key.
Proof.
  intros Hne Hspace Hkey Hc Hvalue. unfold env_key.
  rewrite contains_char_app, contains_char_cons, Hkey, Hvalue.
  rewrite bool_decide_eq_false_2 by (by intros <-). simpl.
  rewrite (split_none_at_space key c value Hne Hspace Hc). simpl.
  by rewrite strip_no_space.
Qed.

Lemma required_env_var_shape key :
  key ∈ required_env_vars →
  key ≠ "" ∧ has_space key = false ∧ Str.contains "=" key = false.
Proof.
  unfold required_env_vars. rewrite !elem_of_union, !elem_of_singleton.
  intros H. destruct_or! H; by subst.
Qed.

Lemma env_declaration_key key args :
  key ∈ required_env_vars → env_declaration key args →
  env_key args = Ok key.
Proof.
  intros (Hne & Hspace & Hkey)%required_env_var_shape
    [(value & ->)|(c & value & Hc & -> & Hvalue)].
  - by apply env_key_equals_form.
  - by apply env_key_space_form.
Qed.

(** The first loop of [check_environment_variables] collects the key of
    every [ENV] instruction, provided no argument is blank. *)
Lemma found_env_vars_collects instrs (acc : gset string) :
  args_have_text instrs →
  ∃ found,
    for_each (λ (found : gset string) '(kw, args),
                if bool_decide (kw = "ENV")
                then let* key := env_key args in Ok ({[ key ]} ∪ found)
                else Ok found) instrs acc = Ok found
    ∧ acc ⊆ found
    ∧ ∀ args key, ("ENV", args) ∈ instrs → env_key args = Ok key →
        key ∈ found.
Proof.
  revert acc. induction instrs as [|[kw args] instrs IH]; intros acc Htext.
  - exists acc. split_and!; [done..|]. intros ?? []%elem_of_nil.
  - apply Forall_cons in Htext as [Hargs Htext]. simpl in Hargs. simpl.
    destruct (bool_decide (kw = "ENV")) eqn:Hkw.
    + apply bool_decide_eq_true in Hkw as ->.
      destruct (env_key_total args Hargs) as [key Hkey]. rewrite Hkey. simpl.
      destruct (IH ({[ key ]} ∪ acc) Htext) as (found & Hrun & Hsub & Hin).
      exists found. split_and!; [done|set_solver|].
      intros args' key' [[= ->]|?]%elem_of_cons Hkey'; [|by eapply Hin].
      rewrite Hkey in Hkey'. injection Hkey' as <-. set_solver.
    + apply bool_decide_eq_false in Hkw.
      destruct (IH acc Htext) as (found & Hrun & Hsub & Hin).
      exists found. split_and!; [done..|].
      intros args' key' [[= <- ->]|?]%elem_of_cons Hkey'; [done|].
      by eapply Hin.
Qed.

(** Nothing is reported when every required element was found. *)
Lemma missing_from_nil prefix (required found : gset string) :
  required ⊆ found → missing_from prefix required found = [].
Proof.
  intros Hsub. unfold missing_from.
  assert (Forall (λ var, var ∈ found) (elements required)) as Hall.
  { apply Forall_forall. intros var Hvar%elem_of_elements. by apply Hsub. }
  induction Hall as [|var vars Hvar _ IH]; [done|].
  by rewrite filter_cons_False by (by intros Hnot).
Qed.

Lemma check_environment_variables_silent content instrs :
  parse_dockerfile content = Ok instrs →
  (∀ key, key ∈ required_env_vars →
     ∃ args, ("ENV", args) ∈ instrs ∧ env_declaration key args) →
  check_environment_variables instrs = Ok [].
Proof.
  intros Hparse%parse_dockerfile_args_have_text Henv.
  unfold check_environment_variables, found_env_vars.
  destruct (found_env_vars_collects instrs ∅ Hparse)
    as (found & -> & _ & Hfound).
  simpl. f_equal. apply missing_from_nil. intros key Hkey.
  destruct (Henv key Hkey) as (args & Hin & Hdecl).
  eapply Hfound; [done|]. by apply env_declaration_key.
Qed.

Lemma check_poetry_installation_silent instrs :
  has_instruction "RUN" (Str.contains poetry_installer) instrs = true →
  check_poetry_installation instrs = [].
Proof.
  unfold check_poetry_installation, has_instruction, poetry_installer.
  by intros ->.
Qed.

(** The two flags of [check_dependencies_installation] after the loop. *)
Lemma dependencies_flags instrs (poetry copy : bool) :
  foldl (λ '(poetry, copy) '(kw, args),
           if bool_decide (kw = "COPY")
              && Str.contains "pyproject.toml" args
              && Str.contains "poetry.lock" args
           then (poetry, true)
           else if bool_decide (kw = "RUN")
                   && Str.contains "poetry install" args
           then (true, copy)
           else (poetry, copy))
        (poetry, copy) instrs
  = (poetry || has_instruction "RUN" (Str.contains "poetry install") instrs,
     copy || has_instruction "COPY" copies_manifests instrs).
Proof.
  revert poetry copy.
  induction instrs as [|[kw args] instrs IH]; intros poetry copy.
  - simpl. by rewrite !orb_false_r.
  - cbn [foldl]. unfold has_instruction, copies_manifests in *.
    cbn [existsb].
    destruct (bool_decide (kw = "COPY")) eqn:Hcopy.
    + apply bool_decide_eq_true in Hcopy as ->.
      rewrite (bool_decide_eq_false_2 ("COPY" = "RUN")) by done.
      cbn [andb orb].
      destruct (Str.contains "pyproject.toml" args),
        (Str.contains "poetry.lock" args); cbn [andb orb]; rewrite IH;
        by rewrite ?orb_true_r.
    + cbn [andb orb].
      destruct (bool_decide (kw = "RUN") && Str.contains "poetry install" args);
        rewrite IH; cbn [orb]; by rewrite ?orb_true_r.
Qed.

Lemma check_dependencies_installation_silent instrs :
  has_instruction "RUN" (Str.contains "poetry install") instrs = true →
  has_instruction "COPY" copies_manifests instrs = true →
  check_dependencies_installation instrs = [].
Proof.
  intros Hrun Hcopy. unfold check_dependencies_installation.
  by rewrite dependencies_flags, Hrun, Hcopy.
Qed.

Lemma check_healthcheck_first before args after :
  has_instruction "HEALTHCHECK" (λ _, true) before = false →
  healthcheck_flags args = true →
  check_healthcheck (before ++ ("HEALTHCHECK", args) :: after) = [].
Proof.
  intros Hbefore Hflags. induction before as [|[kw a] before IH].
  - simpl. unfold healthcheck_flags in Hflags.
    apply andb_prop in Hflags as [[-> ->]%andb_prop ->]. done.
  - unfold has_instruction in Hbefore. cbn [existsb] in Hbefore.
    apply orb_false_elim in Hbefore as [Hkw Hbefore].
    rewrite andb_true_r in Hkw. simpl. rewrite Hkw. by apply IH.
Qed.


(** C5. On a Dockerfile that declares the eight keys in the [ENV KEY VALUE]
    form, one of them with an equals sign in its value, every required key
    is the first token of an [ENV] argument, yet
    [check_environment_variables] takes the text before the equals sign,
    value included, for the key and reports [VENV_PATH] missing. *)
Theorem check_environment_variables_equals_in_value :
  ∃ instrs,
    parse_dockerfile env_space_form_dockerfile = Ok instrs
    ∧ spec_missing_env_vars instrs = []
    ∧ spec_env_key "VENV_PATH /opt/pysetup/.venv-py=3.11" = "VENV_PATH"
    ∧ env_key "VENV_PATH /opt/pysetup/.venv-py=3.11"
      = Ok "VENV_PATH /opt/pysetup/.venv-py"
    ∧ check_environment_variables instrs
      = Ok ["Missing required environment variable: VENV_PATH"].
Proof.
  eexists. split; [vm_compute; reflexivity|].
  split_and!; vm_compute; reflexivity.
Qed.

Lemma required_label_shape key :
  key ∈ required_labels →
  has_space key = false ∧ Str.contains "=" key = false.
Proof.
  unfold required_labels. rewrite !elem_of_union, !elem_of_singleton.
  intros H. destruct_or! H; by subst.
Qed.

(** A [key=value] token contributes [key]. *)
Lemma label_keys_token key args :
  has_space key = false → Str.contains "=" key = false →
  has_label_token key args = true → key ∈ label_keys args.
Proof.
  intros Hspace Hkey. unfold has_label_token, label_keys.
  intros (token & Htoken%list_elem_of_In & Hstart)%existsb_exists.
  apply startswith_app in Hstart as [value ->].
  apply list_elem_of_omap. eexists. split; [done|].
  rewrite append_assoc, append_cons, append_nil.
  rewrite contains_char_app, contains_char_cons, bool_decide_eq_true_2 by done.
  rewrite orb_true_r, (split_at_separator "=" key value Hkey).
  by rewrite strip_no_space.
Qed.

Lemma found_labels_collects key instrs (acc : gset string) :
  has_space key = false → Str.contains "=" key = false →
  key ∈ acc ∨ has_instruction "LABEL" (has_label_token key) instrs = true →
  key ∈ foldl (λ (found : gset string) '(kw, args),
                 if bool_decide (kw = "LABEL")
                 then list_to_set (label_keys args) ∪ found
                 else found) acc instrs.
Proof.
  intros Hspace Hkey. revert acc.
  induction instrs as [|[kw args] instrs IH]; intros acc.
  - by intros [?|?].
  - intros Hin. cbn [foldl]. apply IH.
    destruct Hin as [Hacc|Hhas].
    + left. destruct (bool_decide _); set_solver.
    + unfold has_instruction in Hhas. cbn [existsb] in Hhas.
      apply orb_prop in Hhas as [[Hkw Htok]%andb_prop|Hrest]; [|by right].
      left. rewrite Hkw. apply elem_of_union_l, elem_of_list_to_set.
      by apply label_keys_token.
Qed.

Lemma check_labels_silent instrs :
  (∀ key, key ∈ required_labels →
     has_instruction "LABEL" (has_label_token key) instrs = true) →
  check_labels instrs = [].
Proof.
  intros Hlabels. unfold check_labels, found_labels.
  apply missing_from_nil. intros key Hkey.
  destruct (required_label_shape key Hkey) as [Hspace Hequals].
  apply found_labels_collects; auto.
Qed.

(** C4, as amended. For every Dockerfile text that [parse_dockerfile]
    parses and whose instructions start with [FROM python:3.11-slim],
    declare each of the eight required keys with [ENV KEY=VALUE] or
    [ENV KEY VALUE], have a [RUN] with the Poetry installer command, a
    [RUN] with [poetry install], a [COPY] naming both manifests, a first
    [HEALTHCHECK] with the three flags and [key=value] label tokens for
    maintainer, version and description: each of the six checks returns no
    error, and [main] returns 0. *)
Theorem dockerfile_checker_silent (content template : string)
    (instrs : list instruction) :
  parse_dockerfile content = Ok instrs →
  complete_dockerfile instrs →
  check_base_image instrs = []
  ∧ check_environment_variables instrs = Ok []
  ∧ check_poetry_installation instrs = []
  ∧ check_dependencies_installation instrs = []
  ∧ check_healthcheck instrs = []
  ∧ check_labels instrs = []
  ∧ run_checks instrs = Ok ([], 0%Z)
  ∧ main (Ok template) (Some content) = 0%Z.
Proof.
  intros Hparse [Hbase Henv Hpoetry Hdeps Hcopy Hhealth Hlabels].
  assert (check_base_image instrs = []) as H1.
  { destruct instrs as [|[kw base] rest]; [done|].
    by injection Hbase as -> ->. }
  pose proof (check_environment_variables_silent _ _ Hparse Henv) as H2.
  pose proof (check_poetry_installation_silent _ Hpoetry) as H3.
  pose proof (check_dependencies_installation_silent _ Hdeps Hcopy) as H4.
  assert (check_healthcheck instrs = []) as H5.
  { destruct Hhealth as (before & args & after & -> & Hbefore & Hflags).
    by apply check_healthcheck_first. }
  pose proof (check_labels_silent _ Hlabels) as H6.
  assert (run_checks instrs = Ok ([], 0%Z)) as H7.
  { unfold run_checks, checks.
    do 6 (cbv beta iota zeta delta [for_each bind];
          rewrite ?H1, ?H2, ?H3, ?H4, ?H5, ?H6).
    done. }
  split_and!; [assumption..|].
  unfold main. cbn [bind]. rewrite Hparse. cbn [bind]. by rewrite H7.
Qed.

Lemma dockerfile_checker_silent_witness :
  ∃ instrs,
    parse_dockerfile complete_dockerfile_text = Ok instrs
    ∧ complete_dockerfile instrs
    ∧ run_checks instrs = Ok ([], 0%Z)
    ∧ main (Ok "") (Some complete_dockerfile_text) = 0%Z.
Proof.
  assert (∃ instrs, parse_dockerfile complete_dockerfile_text = Ok instrs)
    as [instrs Hparse] by (vm_compute; eauto).
  assert (Hparse' := Hparse). vm_compute in Hparse'.
  injection Hparse' as Hinstrs.
  assert (complete_dockerfile instrs) as Hcomplete.
  { subst instrs. split.
    - reflexivity.
    - intros key. unfold required_env_vars.
      rewrite !elem_of_union, !elem_of_singleton. intros Hkey.
      destruct_or! Hkey; subst key.
      + declared_with_equals
          "PYTHONUNBUFFERED=1 PYTHONDONTWRITEBYTECODE=1"
          "1 PYTHONDONTWRITEBYTECODE=1".
      + declared_with_equals "PYTHONDONTWRITEBYTECODE=1" "1".
      + declared_with_equals "POETRY_VERSION=1.7.1" "1.7.1".
      + declared_with_equals "POETRY_HOME=/opt/poetry" "/opt/poetry".
      + declared_with_equals "POETRY_VIRTUALENVS_IN_PROJECT=true" "true".
      + declared_with_equals "POETRY_NO_INTERACTION=1" "1".
      + declared_with_space "PYSETUP_PATH /opt/pysetup" "/opt/pysetup".
      + declared_with_space "VENV_PATH /opt/pysetup/.venv"
          "/opt/pysetup/.venv".
    - vm_compute; reflexivity.
    - vm_compute; reflexivity.
    - vm_compute; reflexivity.
    - eexists [_; _; _; _; _; _; _; _; _; _; _; _; _], _, _.
      split_and!; [reflexivity | vm_compute; reflexivity..].
    - intros key. unfold required_labels.
      rewrite !elem_of_union, !elem_of_singleton. intros Hkey.
      destruct_or! Hkey; subst key; vm_compute; reflexivity. }
  exists instrs. split_and!; [done..| |];
    by apply (dockerfile_checker_silent complete_dockerfile_text ""
                instrs Hparse Hcomplete).
Defined.

(** C4, as stated, fails. A Dockerfile with the base image, the eight
    keys, the Poetry installer, the [COPY] of both manifests, a
    [HEALTHCHECK] with the three flags and the three labels gets an error
    when no [RUN] has [poetry install]; and one that has it gets an error
    when a [HEALTHCHECK] without flags comes before the one with them. *)
Lemma complete_as_stated_still_reports :
  (∃ instrs,
     parse_dockerfile dockerfile_without_poetry_install = Ok instrs
     ∧ complete_as_stated instrs = true
     ∧ run_checks instrs
       = Ok (["Must install dependencies using poetry install"], 1%Z))
  ∧ (∃ instrs,
       parse_dockerfile dockerfile_two_healthchecks = Ok instrs
       ∧ complete_as_stated instrs = true
       ∧ run_checks instrs
         = Ok (["Healthcheck must specify interval, timeout, and retries"],
               1%Z)).
Proof.
  split; (eexists; split; [vm_compute; reflexivity|]);
    split; vm_compute; reflexivity.
Qed.

(** ** The compose validator *)

Section Compose.

Import ComposeValidator.

Lemma contains_key_dict key entries :
  contains_key key (YDict entries)
  = Ok (bool_decide (is_Some (dict_get key entries))).
Proof. reflexivity. Qed.

(** On a mapping, the [volumes] block raises nothing and only appends. *)
Lemma check_volumes_appends name entries errors :
  ∃ added, check_volumes name (YDict entries) errors = Ok (errors ++ added).
Proof.
  unfold check_volumes. rewrite contains_key_dict. cbn [bind].
  destruct (dict_get "volumes" entries) as [volumes|] eqn:Hget.
  - rewrite bool_decide_eq_true_2 by eauto. simpl. rewrite Hget. simpl.
    destruct volumes; try (exists []; by rewrite app_nil_r).
    destruct (_ && _); eauto. exists []. by rewrite app_nil_r.
  - rewrite bool_decide_eq_false_2 by (by intros [? ?]).
    exists []. by rewrite app_nil_r.
Qed.

Lemma append_inj_l (a b c : string) : a +:+ b = a +:+ c → b = c.
Proof.
  induction a as [|x a IH]; [done|]. rewrite !append_cons.
  intros [= ?]. by apply IH.
Qed.

(** No other message of the validator is the missing-[PYTHONPATH] one:
    it begins with another letter, or goes on differently after the name
    of the service. *)
Lemma pythonpath_message_other_head (name msg : string) :
  String.get 0 msg ≠ Some "P"%char → msg ≠ pythonpath_message name.
Proof. intros Hhead ->. by apply Hhead. Qed.

Lemma pythonpath_message_other_tail (name suffix : string) :
  suffix ≠ " should define PYTHONPATH environment variable" →
  "Python service " +:+ name +:+ suffix ≠ pythonpath_message name.
Proof.
  intros Hsuffix Hsame. apply Hsuffix. unfold pythonpath_message in Hsame.
  by do 2 apply append_inj_l in Hsame.
Qed.

Lemma append_if_other (name msg : string) (cond : bool)
    (errors : list string) :
  msg ≠ pythonpath_message name →
  pythonpath_message name ∉ errors →
  pythonpath_message name ∉ append_if cond msg errors.
Proof.
  intros Hmsg Herrors. unfold append_if. destruct cond; [|done].
  intros [?|?%list_elem_of_singleton]%elem_of_app; [done|].
  by apply Hmsg.
Qed.

(** The build-context rules, the [build] block and the [volumes] block
    never add the missing-[PYTHONPATH] finding. *)
Lemma check_build_context_other (name : string) (build : yaml)
    (errors errors' : list string) :
  check_build_context name build errors = Ok errors' →
  pythonpath_message name ∉ errors →
  pythonpath_message name ∉ errors'.
Proof.
  unfold check_build_context. intros Hrun Herrors.
  destruct (getitem build "context") as [context|]; cbn [bind] in Hrun;
    [|done].
  destruct (contains_key "dockerfile" build) as [has_dockerfile|];
    cbn [bind] in Hrun; [|done].
  destruct (getitem build "dockerfile") as [dockerfile|e];
    destruct (bool_decide (name = "dev")), has_dockerfile,
      (eq_str context ("./containers/" +:+ name)), (eq_str context ".");
    cbn [andb bind] in Hrun; try discriminate Hrun;
    try (destruct (startswith dockerfile _); cbn [bind] in Hrun;
         [|discriminate Hrun]);
    apply Ok_inj in Hrun as <-;
    repeat (apply append_if_other;
            [first [ apply pythonpath_message_other_head; vm_compute;
                     discriminate
                   | apply pythonpath_message_other_tail; discriminate ]|]);
    assumption.
Qed.

Lemma check_build_other (name : string) (service_config : yaml)
    (errors errors' : list string) :
  check_build name service_config errors = Ok errors' →
  pythonpath_message name ∉ errors →
  pythonpath_message name ∉ errors'.
Proof.
  unfold check_build. intros Hrun Herrors.
  destruct (contains_key "build" service_config) as [[|]|];
    cbn [bind] in Hrun; [|by apply Ok_inj in Hrun as <-|done].
  destruct (getitem service_config "build") as [build|]; cbn [bind] in Hrun;
    [|done].
  destruct (is_dict build); [|by apply Ok_inj in Hrun as <-].
  destruct (contains_key "context" build) as [has_context|];
    cbn [bind] in Hrun; [|done].
  assert (∃ errors1,
            (if has_context then check_build_context name build errors
             else Ok errors) = Ok errors1
            ∧ pythonpath_message name ∉ errors1) as (errors1 & Hcontext & H1).
  { destruct has_context.
    - destruct (check_build_context name build errors) as [errors1|]
        eqn:Hcontext; [|done].
      exists errors1. split; [done|].
      by apply (check_build_context_other name build errors).
    - by exists errors. }
  rewrite Hcontext in Hrun. cbn [bind] in Hrun.
  destruct (contains_key "args" build) as [[|]|]; cbn [bind] in Hrun;
    [|by apply Ok_inj in Hrun as <-|done].
  destruct (getitem build "args") as [args|]; cbn [bind] in Hrun; [|done].
  destruct args; try (by apply Ok_inj in Hrun as <-).
  destruct (poetry_args entries); cbn [bind] in Hrun; [|done].
  clear Herrors.
  apply Ok_inj in Hrun as <-;
  repeat (apply append_if_other;
          [first [ apply pythonpath_message_other_head; vm_compute;
                   discriminate
                 | apply pythonpath_message_other_tail; discriminate ]|]);
  assumption.
Qed.

Lemma check_volumes_other_message (name : string) (service_config : yaml)
    (errors errors' : list string) :
  check_volumes name service_config errors = Ok errors' →
  pythonpath_message name ∉ errors →
  pythonpath_message name ∉ errors'.
Proof.
  unfold check_volumes. intros Hrun Herrors.
  destruct (contains_key "volumes" service_config) as [[|]|];
    cbn [bind] in Hrun; [|by apply Ok_inj in Hrun as <-|done].
  destruct (getitem service_config "volumes") as [volumes|];
    cbn [bind] in Hrun; [|done].
  destruct volumes; try (by apply Ok_inj in Hrun as <-).
  destruct (_ && _); apply Ok_inj in Hrun as <-; [|done].
  intros [?|Hadded]%elem_of_app; [done|].
  apply elem_of_cons in Hadded as [Hfirst|Hsecond%list_elem_of_singleton].
  - symmetry in Hfirst. revert Hfirst.
    apply pythonpath_message_other_tail. discriminate.
  - symmetry in Hsecond. revert Hsecond.
    apply pythonpath_message_other_head. vm_compute. discriminate.
Qed.

(** C6, as amended. The classification is a substring search for fifteen
    keywords in the lower-cased name: [worker-api] is a Python service and
    [gateway] is not. For every Python service whose configuration is a
    mapping with an [environment] entry that holds no [PYTHONPATH], and
    whose [build] block raises nothing, [validate_compose_service] returns
    with the missing-[PYTHONPATH] finding as its last error. For every
    service whose mapping has no [environment] entry, the finding is not
    among the errors [validate_compose_service] returns. *)
Theorem python_service_without_pythonpath_reported :
  is_python_service "worker-api" = true
  ∧ is_python_service "Worker-API" = true
  ∧ is_python_service "gateway" = false
  ∧ (∀ name,
       is_python_service name = true
       ↔ ∃ indicator, indicator ∈ python_service_indicators
                      ∧ Str.contains indicator (Str.lower name) = true)
  ∧ (∀ name entries env_vars build_errors,
      is_python_service name = true →
      dict_get "environment" entries = Some env_vars →
      python_path_found env_vars = false →
      check_build name (YDict entries) [] = Ok build_errors →
      ∃ volume_errors,
        validate_compose_service name (YDict entries)
        = Ok (build_errors ++ volume_errors ++ [pythonpath_message name]))
  ∧ ∀ name entries errors,
      dict_get "environment" entries = None →
      validate_compose_service name (YDict entries) = Ok errors →
      pythonpath_message name ∉ errors.
Proof.
  split_and!; [done..| | |].
  - intros name. unfold is_python_service. rewrite existsb_exists.
    by setoid_rewrite list_elem_of_In.
  - intros name entries env_vars build_errors Hpython Henv Hfound Hbuild.
    unfold validate_compose_service. rewrite Hbuild. cbn [bind].
    destruct (check_volumes_appends name entries build_errors)
      as [volume_errors ->].
    exists volume_errors. cbn [bind]. unfold check_environment.
    rewrite contains_key_dict, Henv. cbn [bind].
    rewrite bool_decide_eq_true_2 by eauto.
    unfold getitem. rewrite Henv. cbn [bind].
    rewrite Hfound, Hpython. unfold append_if. cbn [negb andb].
    by rewrite <- (assoc_L (++)).
  - intros name entries errors Henv Hrun.
    unfold validate_compose_service in Hrun.
    destruct (check_build name (YDict entries) []) as [errors1|]
      eqn:Hbuild; cbn [bind] in Hrun; [|done].
    destruct (check_volumes name (YDict entries) errors1) as [errors2|]
      eqn:Hvolumes; cbn [bind] in Hrun; [|done].
    unfold check_environment in Hrun.
    rewrite contains_key_dict, Henv in Hrun. cbn [bind] in Hrun.
    rewrite bool_decide_eq_false_2 in Hrun by (by intros [? ?]).
    apply Ok_inj in Hrun as <-.
    apply (check_volumes_other_message name (YDict entries) errors1);
      [done|].
    apply (check_build_other name (YDict entries) []); [done|].
    by intros ?%elem_of_nil.
Qed.

Lemma python_service_without_pythonpath_reported_witness :
  ∃ volume_errors,
    validate_compose_service "worker-api"
      (YDict [ (YStr "build",
                YDict [(YStr "context", YStr "./containers/worker-api")]);
               (YStr "environment", YList [YStr "LOG_LEVEL=debug"]) ])
    = Ok ([] ++ volume_errors ++ [pythonpath_message "worker-api"]).
Proof.
  destruct python_service_without_pythonpath_reported
    as (_ & _ & _ & _ & Hreported & _).
  by apply (Hreported "worker-api" _ (YList [YStr "LOG_LEVEL=debug"]) []).
Defined.

(** C6, as stated, fails. The service [worker-api] of the specification's
    example, with a [build] context and no [environment] entry at all, is a
    Python service without [PYTHONPATH] and gets no finding: the check sits
    behind the test that [environment] is present. *)
Lemma python_service_without_environment_silent :
  is_python_service "worker-api" = true
  ∧ lacks_pythonpath
      (YDict [ (YStr "build",
                YDict [(YStr "context", YStr "./containers/worker-api")]) ])
    = true
  ∧ validate_compose_service "worker-api"
      (YDict [ (YStr "build",
                YDict [(YStr "context", YStr "./containers/worker-api")]) ])
    = Ok [].
Proof. by split_and!. Qed.

End Compose.

(** ** Syntax trees *)

Section AstFacts.

Import Fs Ast ContainerValidator.

Lemma node_size_children n :
  node_size n = S (list_sum (map node_size (children n))).
Proof. by destruct n. Qed.

Lemma nodes_children n : nodes n = n :: flat_map nodes (children n).
Proof. by destruct n. Qed.

(** With enough fuel the queue loop yields every node below the queued
    nodes, each once. *)
Lemma walk_queue_nodes fuel todo :
  list_sum (map node_size todo) ≤ fuel →
  walk_queue fuel todo ≡ₚ flat_map nodes todo.
Proof.
  revert todo. induction fuel as [|fuel IH]; intros todo Hfuel.
  - destruct todo as [|n rest]; [done|].
    simpl in Hfuel. rewrite node_size_children in Hfuel. lia.
  - destruct todo as [|n rest]; [done|]. cbn [walk_queue flat_map].
    rewrite nodes_children. cbn [app]. constructor.
    rewrite IH.
    + rewrite flat_map_app. apply Permutation_app_comm.
    + rewrite map_cons, node_size_children in Hfuel. simpl in Hfuel.
      rewrite map_app, list_sum_app. lia.
Qed.

(** [ast.walk] yields every node of the tree exactly once. *)
Lemma walk_nodes tree : walk tree ≡ₚ nodes tree.
Proof.
  unfold walk. rewrite walk_queue_nodes; [|simpl; lia].
  simpl. by rewrite app_nil_r.
Qed.


Lemma startswith_append p v : Str.startswith p (p +:+ v) = true.
Proof.
  induction p as [|a p IH]; [done|].
  rewrite append_cons. simpl. by rewrite bool_decide_eq_true_2, IH.
Qed.

Lemma contains_startswith sub s :
  Str.startswith sub s = true → Str.contains sub s = true.
Proof. intros Hs. destruct s; simpl in *; by rewrite Hs. Qed.

Lemma contains_app_r sub a b :
  Str.contains sub b = true → Str.contains sub (a +:+ b) = true.
Proof.
  intros Hb. induction a as [|x a IH]; [done|].
  rewrite append_cons. cbn [Str.contains]. rewrite IH. apply orb_true_r.
Qed.

(** The relative-import finding names the file. *)
Lemma relative_import_message_names_file py_file level module :
  Str.contains (path_str py_file)
    (relative_import_message py_file level module) = true.
Proof.
  unfold relative_import_message.
  apply contains_app_r, contains_startswith, startswith_append.
Qed.

(** Among the errors of the loop over the nodes, the relative-import
    findings are those of the relative imports, in the same order. *)
Lemma relative_findings_of_nodes py_file (l : list node) :
  filter (λ finding, is_relative_finding finding)
    (l ≫= import_errors py_file)
  = relative_finding py_file <$> filter (λ n, is_relative_import n) l.
Proof.
  induction l as [|n l IH]; [done|].
  rewrite bind_cons, filter_app, IH, filter_cons.
  destruct n as [module level lineno| |];
    cbn [import_errors is_relative_import];
    [|by rewrite decide_False by exact id..].
  destruct (bool_decide (0 < level)) eqn:Hlevel.
  - rewrite decide_True by done. by rewrite filter_cons_True.
  - rewrite decide_False by exact id.
    destruct module as [m|]; [|done].
    destruct (negb (Str.is_empty m) && Str.startswith "containers." m);
      [|done].
    by rewrite filter_cons_False by (vm_compute; exact id).
Qed.

End AstFacts.

(** ** The import and [__init__] checks *)

Section Imports.

Import Fs Ast ContainerValidator.

Variable ast_parse : string → parse_outcome.

(** C7, as amended. For a readable, parseable Python file with exactly one
    relative import statement, [validate_imports] emits exactly one
    relative-import finding; it names the file and the dotted module of
    that import, and is the same whatever the line of the import. *)
Theorem validate_imports_one_relative_import
    (fs : filesystem) (py_file package_path : path) (content : string)
    (tree : node) :
  read fs py_file = inr content →
  ast_parse content = Parsed tree →
  length (filter (λ n, is_relative_import n) (nodes tree)) = 1 →
  ∃ module level lineno,
    ImportFrom module level lineno ∈ nodes tree
    ∧ 0 < level
    ∧ filter (λ finding, is_relative_finding finding)
        (validate_imports ast_parse fs py_file package_path)
      = [relative_import_message py_file level module]
    ∧ Str.contains (path_str py_file)
        (relative_import_message py_file level module) = true
    ∧ ∀ other_line,
        import_errors py_file (ImportFrom module level other_line)
        = import_errors py_file (ImportFrom module level lineno).
Proof.
  intros Hread Hparse Hone. unfold validate_imports.
  rewrite Hread, Hparse.
  destruct (filter (λ n, is_relative_import n) (nodes tree))
    as [|n [|? ?]] eqn:Hfilter; try discriminate Hone.
  assert (n ∈ filter (λ n, is_relative_import n) (nodes tree)) as Hn
    by (rewrite Hfilter; constructor).
  apply list_elem_of_filter in Hn as [Hrel Hin].
  destruct n as [module level lineno| |]; try done.
  exists module, level, lineno. split_and!; [done| | | |done].
  - by apply bool_decide_unpack in Hrel.
  - apply Permutation_singleton_r.
    rewrite (walk_nodes tree), relative_findings_of_nodes.
    by rewrite Hfilter.
  - apply relative_import_message_names_file.
Qed.




End Imports.

Lemma validate_imports_one_relative_import_witness :
  ∃ module level lineno,
    Ast.ImportFrom module level lineno ∈ nodes helper_tree
    ∧ 0 < level
    ∧ filter (λ finding, is_relative_finding finding)
        (ContainerValidator.validate_imports sample_parse sample_package
           ["src"; "app"; "util.py"] ["src"])
      = [ContainerValidator.relative_import_message
           ["src"; "app"; "util.py"] level module]
    ∧ Str.contains (Fs.path_str ["src"; "app"; "util.py"])
        (ContainerValidator.relative_import_message
           ["src"; "app"; "util.py"] level module) = true
    ∧ ∀ other_line,
        ContainerValidator.import_errors ["src"; "app"; "util.py"]
          (Ast.ImportFrom module level other_line)
        = ContainerValidator.import_errors ["src"; "app"; "util.py"]
            (Ast.ImportFrom module level lineno).
Proof.
  apply (validate_imports_one_relative_import sample_parse sample_package
           ["src"; "app"; "util.py"] ["src"] helper_source helper_tree);
    vm_compute; reflexivity.
Defined.

(** C7, as stated, fails. The one finding for the module whose relative
    import stands on line 2 names the file and the import, and no line:
    it does not contain the number. *)
Lemma relative_import_finding_has_no_line :
  Ast.ImportFrom None 1 2 ∈ nodes helper_tree
  ∧ ContainerValidator.validate_imports sample_parse sample_package
      ["src"; "app"; "util.py"] ["src"]
    = ["Relative import found in src/app/util.py: from . import ..."]
  ∧ Str.contains (pretty 2)
      "Relative import found in src/app/util.py: from . import ..."
    = false.
Proof.
  split_and!; [|vm_compute; reflexivity..].
  cbn. do 3 apply list_elem_of_further. apply list_elem_of_here.
Qed.



(** ** The formatting pass of the container validator *)

Section Formatting.

Import Fs ContainerValidator.

Variable format_str : string → black_outcome.
Variable ast_parse : string → Ast.parse_outcome.

(** One round of the loop leaves every path but its own alone. *)
Lemma format_python_file_other (errors : list string) (fs : filesystem)
    (py_file q : path) :
  q ≠ py_file →
  (format_python_file format_str (errors, fs) py_file).2 !! q = fs !! q.
Proof.
  intros Hq. unfold format_python_file.
  destruct (negb _); [|done].
  destruct (read_text fs py_file); [done|].
  destruct (format_str _); [|done..].
  unfold write. simpl. by rewrite lookup_insert_ne.
Qed.

(** What a text-mode read gives depends on the entry at the path only. *)
Lemma read_text_lookup (fs : filesystem) (p : path) :
  read_text fs p
  = match fs !! p with
    | Some (File content) => inr (universal_newlines content)
    | Some Dir =>
        inl ("[Errno 21] Is a directory: '" +:+ path_str p +:+ "'")
    | None =>
        inl ("[Errno 2] No such file or directory: '" +:+ path_str p +:+ "'")
    end.
Proof. unfold read_text, read. by destruct (fs !! p) as [[?|]|]. Qed.

Lemma read_text_same (fs cur : filesystem) (p : path) :
  cur !! p = fs !! p → read_text cur p = read_text fs p.
Proof. intros Hsame. rewrite !read_text_lookup. by rewrite Hsame. Qed.

(** One round of the loop, at its own path, on a file whose entry is still
    the one of the file system the loop began with. *)
Lemma format_python_file_own (errors : list string) (fs cur : filesystem)
    (py_file : path) :
  cur !! py_file = fs !! py_file →
  (format_python_file format_str (errors, cur) py_file).2 !! py_file
  = if should_skip_directory (parent py_file) then fs !! py_file
    else formatted_entry format_str <$> fs !! py_file.
Proof.
  intros Hsame. unfold format_python_file.
  destruct (should_skip_directory (parent py_file)); cbn [negb];
    [exact Hsame|].
  rewrite (read_text_same fs cur py_file Hsame), read_text_lookup.
  rewrite <- Hsame.
  destruct (cur !! py_file) as [[src|]|] eqn:Hcur; cbn; [|done..].
  destruct (format_str (universal_newlines src)); cbn; [|done..].
  unfold write. apply lookup_insert_eq.
Qed.

(** The error one round adds. *)
Lemma format_python_file_errors (errors : list string)
    (fs cur : filesystem) (py_file : path) :
  cur !! py_file = fs !! py_file →
  (format_python_file format_str (errors, cur) py_file).1
  = errors ++ (if should_skip_directory (parent py_file) then []
               else option_list (format_failure format_str fs py_file)).
Proof.
  intros Hsame. unfold format_python_file, format_failure.
  rewrite (read_text_same fs cur py_file Hsame).
  destruct (should_skip_directory (parent py_file)); cbn [negb];
    [by rewrite app_nil_r|].
  destruct (read_text fs py_file) as [msg|src]; [done|].
  destruct (format_str src); [|done..]. cbn. by rewrite app_nil_r.
Qed.

(** The loop over files that are all different: the errors are those of
    the files as they were at the start, in the order of the walk; each
    file that is not skipped ends as [formatted_entry] makes it from its
    entry at the start; the rest is left alone. *)
Lemma format_loop_exact (fs : filesystem) (files : list path)
    (errors : list string) (cur : filesystem) :
  NoDup files →
  (∀ p, p ∈ files → cur !! p = fs !! p) →
  let result := foldl (format_python_file format_str) (errors, cur) files in
  let targets :=
    filter (λ p, negb (should_skip_directory (parent p))) files in
  result.1 = errors ++ omap (format_failure format_str fs) targets
  ∧ ∀ p, result.2 !! p
         = if bool_decide (p ∈ targets)
           then formatted_entry format_str <$> fs !! p
           else cur !! p.
Proof.
  intros Hnodup. revert errors cur.
  induction Hnodup as [|x files Hx Hnodup IH]; intros errors cur Hsame.
  - cbn. split; [by rewrite app_nil_r|]. intros p.
    by rewrite bool_decide_eq_false_2 by (by intros ?%elem_of_nil).
  - cbn [foldl].
    pose proof (format_python_file_errors errors fs cur x
                  (Hsame x (list_elem_of_here _ _))) as Herrors.
    pose proof (format_python_file_other errors cur x) as Hother.
    pose proof (format_python_file_own errors fs cur x
                  (Hsame x (list_elem_of_here _ _))) as Hown.
    destruct (format_python_file format_str (errors, cur) x)
      as [errors1 cur1]. cbn [fst snd] in Herrors, Hother, Hown.
    destruct (IH errors1 cur1) as [IHerrors IHfiles].
    { intros p Hp. rewrite Hother by (by intros ->).
      apply Hsame. by right. }
    cbn zeta in *.
    assert (x ∉ filter (λ p, negb (should_skip_directory (parent p))) files)
      as Hfresh by (by intros [_ ?]%list_elem_of_filter).
    destruct (should_skip_directory (parent x)) eqn:Hskip.
    + rewrite filter_cons_False by (rewrite Hskip; exact id).
      split; [by rewrite IHerrors, Herrors, app_nil_r|].
      intros p. rewrite IHfiles. case_bool_decide as Hp; [done|].
      destruct (decide (p = x)) as [->|Hne].
      * etrans; [exact Hown|]. symmetry. apply Hsame. by left.
      * by apply Hother.
    + rewrite filter_cons_True by (by rewrite Hskip). split.
      * rewrite IHerrors, Herrors, <- (assoc_L (++)). f_equal.
        destruct (format_failure format_str fs x) as [msg|] eqn:Hfailure;
          cbn; by rewrite Hfailure.
      * intros p. rewrite IHfiles.
        destruct (decide (p = x)) as [->|Hne].
        -- rewrite (bool_decide_eq_false_2 _ Hfresh).
           by rewrite bool_decide_eq_true_2 by (by left).
        -- case_bool_decide as Hp.
           ++ by rewrite bool_decide_eq_true_2 by (by right).
           ++ rewrite bool_decide_eq_false_2
                by (by intros [?|?]%elem_of_cons).
              by apply Hother.
Qed.

Lemma rglob_NoDup (fs : filesystem) base suffix :
  NoDup (rglob fs base suffix).
Proof. apply NoDup_filter, NoDup_fst_map_to_list. Qed.

(** What [format_python_files] returns and leaves behind. *)
Lemma format_python_files_exact (fs : filesystem) (container_path : path) :
  let result := format_python_files format_str fs container_path in
  result.1
  = omap (format_failure format_str fs) (format_targets fs container_path)
  ∧ ∀ p, result.2 !! p
         = if bool_decide (p ∈ format_targets fs container_path)
           then formatted_entry format_str <$> fs !! p
           else fs !! p.
Proof.
  apply (format_loop_exact fs (rglob fs container_path ".py") [] fs);
    [apply rglob_NoDup|done].
Qed.

(** The name of a file the pass formats ends in [.py]. *)
Lemma format_targets_python (fs : filesystem) (container_path p : path) :
  p ∈ format_targets fs container_path →
  Str.endswith ".py" (name p) = true.
Proof.
  intros [_ Hp]%list_elem_of_filter.
  apply list_elem_of_filter in Hp as [Hname _].
  by apply andb_prop_elim in Hname as [_ Hname%Is_true_true].
Qed.

Lemma format_python_files_python_only (fs : filesystem)
    (container_path : path) :
  python_only_changes fs
    (format_python_files format_str fs container_path).2.
Proof.
  destruct (format_python_files_exact fs container_path) as [_ Hfiles].
  cbn zeta in Hfiles. intros p. rewrite Hfiles.
  case_bool_decide as Hp; [|by left].
  unfold path in *.
  destruct (fs !! p) as [[src|]|] eqn:Hentry; [|by left..].
  cbn. destruct (format_str (universal_newlines src)) as [out| |];
    [|by left..].
  right. split; [by eapply format_targets_python|]. by exists src, out.
Qed.

(** The file system [validate_container_structure] leaves is the one the
    formatting pass leaves when the pass runs, and the one it was given
    otherwise. *)
Lemma validate_container_structure_files (fs : filesystem) container_path :
  (validate_container_structure format_str ast_parse fs container_path).2
  = if formats fs container_path
    then (format_python_files format_str fs container_path).2
    else fs.
Proof.
  unfold validate_container_structure, formats.
  destruct (bool_decide (name container_path ∈ EXCLUDED_DIRS)); [done|].
  cbn [negb andb].
  destruct (has_python_code fs container_path).
  - destruct (format_python_files _ _ _) as [errors fs1].
    by destruct (is_dir fs1 container_path).
  - by destruct (is_dir fs container_path).
Qed.

Lemma validate_container_structure_python_only (fs : filesystem)
    container_path :
  python_only_changes fs
    (validate_container_structure format_str ast_parse fs
       container_path).2.
Proof.
  rewrite validate_container_structure_files.
  destruct (formats fs container_path).
  - apply format_python_files_python_only.
  - intros p. by left.
Qed.

(** The paths of a file system, in the order of the walk, depend on which
    paths exist and not on what is there. *)
Lemma paths_same_dom (fs1 fs2 : filesystem) :
  (∀ p : path, is_Some (fs1 !! p) ↔ is_Some (fs2 !! p)) →
  (map_to_list fs1).*1 = (map_to_list fs2).*1.
Proof.
  intros Hdom.
  assert (∀ fs : filesystem,
            (map_to_list fs).*1
            = (map_to_list ((λ _ : entry, ()) <$> fs)).*1) as Hkeys.
  { intros fs. rewrite map_to_list_fmap, <- list_fmap_compose.
    apply list_fmap_ext. by intros ? [? ?]. }
  rewrite (Hkeys fs1), (Hkeys fs2). f_equal. f_equal.
  apply map_eq. intros p. rewrite !lookup_fmap.
  destruct (Hdom p) as [H12 H21]. unfold path in *.
  destruct (fs1 !! p) as [e1|] eqn:H1, (fs2 !! p) as [e2|] eqn:H2;
    cbn; try done.
  - destruct H12 as [? Hnone]; [by eexists|]. discriminate Hnone.
  - destruct H21 as [? Hnone]; [by eexists|]. discriminate Hnone.
Qed.

Lemma formatted_files_same_dom (fs : filesystem) (container_path : path)
    (p : path) :
  is_Some ((format_python_files format_str fs container_path).2 !! p)
  ↔ is_Some (fs !! p).
Proof.
  destruct (format_python_files_exact fs container_path) as [_ Hfiles].
  cbn zeta in Hfiles. rewrite Hfiles.
  case_bool_decide; [apply fmap_is_Some|done].
Qed.

Lemma rglob_formatted (fs : filesystem) (container_path base : path)
    (suffix : string) :
  rglob (format_python_files format_str fs container_path).2 base suffix
  = rglob fs base suffix.
Proof.
  unfold rglob. f_equal. apply paths_same_dom.
  intros p. apply formatted_files_same_dom.
Qed.

Lemma has_python_code_formatted (fs : filesystem) (container_path : path) :
  has_python_code (format_python_files format_str fs container_path).2
    container_path
  = has_python_code fs container_path.
Proof.
  unfold has_python_code, exists_. rewrite rglob_formatted. f_equal.
  apply bool_decide_ext, formatted_files_same_dom.
Qed.

(** Black leaves alone what the pass has made of an entry. *)
Lemma formatted_entry_idem (e : entry) :
  black_stable format_str →
  formatted_entry format_str (formatted_entry format_str e)
  = formatted_entry format_str e.
Proof.
  intros Hstable. destruct e as [src|]; [|done]. cbn.
  destruct (format_str (universal_newlines src)) as [out| |] eqn:Hfmt;
    cbn; rewrite ?Hfmt; [|done..].
  by rewrite (Hstable src out Hfmt).
Qed.

Lemma format_failure_formatted (fs : filesystem) (container_path p : path) :
  black_stable format_str →
  p ∈ format_targets fs container_path →
  format_failure format_str
    (format_python_files format_str fs container_path).2 p
  = format_failure format_str fs p.
Proof.
  intros Hstable Hp.
  destruct (format_python_files_exact fs container_path) as [_ Hfiles].
  cbn zeta in Hfiles. specialize (Hfiles p).
  rewrite bool_decide_eq_true_2 in Hfiles by done.
  unfold format_failure. rewrite !read_text_lookup. unfold path in *.
  rewrite Hfiles.
  destruct (fs !! p) as [[src|]|]; [|done..]. cbn.
  destruct (format_str (universal_newlines src)) as [out| |] eqn:Hfmt;
    cbn; rewrite ?Hfmt; [|done..].
  by rewrite (Hstable src out Hfmt).
Qed.

(** A second formatting pass reports what the first reported and changes
    nothing. *)
Lemma format_python_files_again (fs : filesystem) (container_path : path) :
  black_stable format_str →
  format_python_files format_str
    (format_python_files format_str fs container_path).2 container_path
  = format_python_files format_str fs container_path.
Proof.
  intros Hstable.
  pose proof (format_python_files_exact fs container_path)
    as [Herrors Hfiles].
  pose proof (format_python_files_exact
                (format_python_files format_str fs container_path).2
                container_path) as [Herrors' Hfiles'].
  cbn zeta in *.
  assert (format_targets
            (format_python_files format_str fs container_path).2
            container_path
          = format_targets fs container_path) as Htargets
    by (unfold format_targets; by rewrite rglob_formatted).
  rewrite Htargets in Herrors', Hfiles'.
  apply injective_projections.
  - rewrite Herrors', Herrors. apply list_omap_ext, Forall2_same_length_lookup.
    split; [done|]. intros i p q Hp Hq.
    rewrite Hp in Hq. injection Hq as <-.
    apply format_failure_formatted; [done|]. by eapply list_elem_of_lookup_2.
  - apply map_eq. intros p. rewrite Hfiles', Hfiles.
    case_bool_decide; [|done].
    rewrite <- option_fmap_compose. apply option_fmap_ext.
    intros e. by apply formatted_entry_idem.
Qed.

(** C2, as amended. [validate_container_structure] does write to the
    container. When the container's name is not excluded and it has Python
    code, every Python file below it, outside the skipped directories,
    whose text black formats is replaced by black's output for the text a
    text-mode read gives; every other entry stays as it is, so no path
    appears or disappears. A second run on what the first has left
    returns the findings of the first and changes nothing, black leaving
    its own output alone. *)
Theorem validate_container_structure_rewrites
    (fs : filesystem) (container_path : path) :
  let run := validate_container_structure format_str ast_parse in
  (∀ p, (run fs container_path).2 !! p
        = if formats fs container_path
             && bool_decide (p ∈ format_targets fs container_path)
          then formatted_entry format_str <$> fs !! p
          else fs !! p)
  ∧ dom (run fs container_path).2 = dom fs
  ∧ (black_stable format_str →
     run (run fs container_path).2 container_path = run fs container_path).
Proof.
  intros run.
  assert (∀ p, (run fs container_path).2 !! p
               = if formats fs container_path
                    && bool_decide (p ∈ format_targets fs container_path)
                 then formatted_entry format_str <$> fs !! p
                 else fs !! p) as Hfiles.
  { intros p. unfold run. rewrite validate_container_structure_files.
    destruct (formats fs container_path); [|done]. cbn [andb].
    apply format_python_files_exact. }
  split_and!; [done| |].
  - apply set_eq. intros p. rewrite !elem_of_dom, Hfiles.
    destruct (_ && _); [apply fmap_is_Some|done].
  - intros Hstable. unfold run at 2.
    rewrite validate_container_structure_files.
    destruct (formats fs container_path) eqn:Hformats; [|done].
    apply andb_prop in Hformats as [Hname Hcode].
    apply negb_true_iff in Hname.
    unfold run, validate_container_structure.
    rewrite Hname, has_python_code_formatted, Hcode.
    by rewrite format_python_files_again.
Qed.

End Formatting.

Lemma universal_newlines_other (c : ascii) (s : string) :
  c ≠ Str.CR →
  Fs.universal_newlines (String c s) = String c (Fs.universal_newlines s).
Proof.
  intros Hc. cbn [Fs.universal_newlines].
  by rewrite bool_decide_eq_false_2.
Qed.

(** Translating the line ends a second time changes nothing. *)
Lemma universal_newlines_idem (s : string) :
  Fs.universal_newlines (Fs.universal_newlines s) = Fs.universal_newlines s.
Proof.
  assert (∀ n s, String.length s ≤ n →
                 Fs.universal_newlines (Fs.universal_newlines s)
                 = Fs.universal_newlines s) as Hall;
    [|by apply (Hall (String.length s) s)].
  clear s. intros n. induction n as [|n IH]; intros s Hlen.
  { by destruct s; [|cbn in Hlen; lia]. }
  destruct s as [|c s]; [done|]. cbn [String.length] in Hlen.
  destruct (decide (c = Str.CR)) as [->|Hc].
  - cbn [Fs.universal_newlines].
    rewrite (bool_decide_eq_true_2 (Str.CR = Str.CR)) by done.
    rewrite universal_newlines_other by done. f_equal.
    destruct s as [|c' s]; [done|]. cbn [String.length] in Hlen.
    destruct (bool_decide (c' = Str.LF)); apply IH; cbn; lia.
  - rewrite !universal_newlines_other by done. f_equal. apply IH. lia.
Qed.

Lemma sample_format_stable : black_stable sample_format.
Proof.
  intros src out. unfold sample_format. case_bool_decide as Hsrc.
  - intros [= <-]. vm_compute. reflexivity.
  - intros [= <-]. rewrite universal_newlines_idem.
    by rewrite bool_decide_eq_false_2.
Qed.

Lemma validate_container_structure_rewrites_witness :
  let fs := service_container unformatted_source in
  let run :=
    ContainerValidator.validate_container_structure
      sample_format sample_parse in
  run (run fs ["containers"; "api"]).2 ["containers"; "api"]
  = run fs ["containers"; "api"].
Proof.
  intros fs run.
  apply (validate_container_structure_rewrites sample_format sample_parse
           fs ["containers"; "api"]).
  exact sample_format_stable.
Defined.

(** C2, as stated, fails. On a service container whose module reads
    [x=1], [validate_container_structure] leaves the module reading
    [x = 1]: the checker has rewritten the artifact it checks. *)
Lemma validate_container_structure_mutates :
  let fs := service_container unformatted_source in
  let main := ["containers"; "api"; "src"; "api"; "main.py"] in
  let after :=
    (ContainerValidator.validate_container_structure
       sample_format sample_parse fs ["containers"; "api"]).2 in
  fs !! main = Some (Fs.File unformatted_source)
  ∧ after !! main = Some (Fs.File formatted_source)
  ∧ after ≠ fs.
Proof.
  intros fs main after.
  assert (fs !! main = Some (Fs.File unformatted_source)) as Hbefore
    by (vm_compute; reflexivity).
  assert (after !! main = Some (Fs.File formatted_source)) as Hafter
    by (vm_compute; reflexivity).
  split_and!; [done..|]. intros Hsame. rewrite Hsame, Hbefore in Hafter.
  discriminate Hafter.
Qed.

(** A module black has nothing to change in, stored with carriage return
    and line feed, is written back with the line feed alone: black gets
    the text of a text-mode read. *)
Lemma validate_container_structure_line_ends :
  let fs := service_container crlf_source in
  let main := ["containers"; "api"; "src"; "api"; "main.py"] in
  let after :=
    (ContainerValidator.validate_container_structure
       sample_format sample_parse fs ["containers"; "api"]).2 in
  sample_format (Fs.universal_newlines crlf_source)
  = ContainerValidator.Formatted (Fs.universal_newlines crlf_source)
  ∧ fs !! main = Some (Fs.File crlf_source)
  ∧ after !! main = Some (Fs.File formatted_source).
Proof. split_and!; vm_compute; reflexivity. Qed.

(** ** The aggregation in [check_standards.py] and in [main] *)

Section Standards.

Import Fs CheckStandards.

Variable format_str : string → ContainerValidator.black_outcome.
Variable ast_parse : string → Ast.parse_outcome.
Variable tomli_load : string → string + PoetryValidator.toml.
Variable validate_dockerfile : filesystem → path → list string * list string.
Variable validate_compose_file : filesystem → path → list string.

(** Reporting a list never raises and leaves the files alone; the result
    stays valid exactly when it was and the list is empty. *)
Lemma report_list (errors : list string) header all_valid (w : world) :
  ∃ printed,
    report (PyList errors) header all_valid w
    = (Ok (all_valid && bool_decide (errors = [])),
       World (files w) (stdout w ++ printed)).
Proof.
  unfold report, truthy. destruct errors as [|error errors].
  - exists []. rewrite bool_decide_eq_true_2 by done. cbn.
    rewrite andb_true_r, app_nil_r. by destruct w.
  - rewrite bool_decide_eq_false_2 by done. cbn. eexists.
    rewrite andb_false_r, <- (assoc_L (++)). reflexivity.
Qed.

(** Reporting a boolean: nothing for [False]; for [True] the header is
    printed and iterating the boolean raises. *)
Lemma report_bool (b : bool) header all_valid (w : world) :
  report (PyBool b) header all_valid w
  = if b
    then (Raise bool_not_iterable, World (files w) (stdout w ++ [header]))
    else (Ok all_valid, w).
Proof. by destruct b. Qed.

(** The Dockerfile block never raises and leaves the files alone; the
    warnings do not reach [all_valid]. *)
Lemma dockerfile_block_outcome container_dir all_valid (w : world) :
  let dockerfile_path := container_dir ++ ["Dockerfile"] in
  let errors := (validate_dockerfile (files w) dockerfile_path).1 in
  ∃ printed,
    dockerfile_block validate_dockerfile container_dir all_valid w
    = (Ok (if exists_ (files w) dockerfile_path
           then all_valid && bool_decide (errors = [])
           else all_valid),
       World (files w) (stdout w ++ printed)).
Proof.
  cbn zeta. unfold dockerfile_block, io_bind, get_files. cbn [fst snd files].
  destruct (exists_ (files w) (container_dir ++ ["Dockerfile"]));
    [|exists []; rewrite app_nil_r; by destruct w].
  destruct (validate_dockerfile (files w) (container_dir ++ ["Dockerfile"]))
    as [errors warnings]. cbn [fst].
  destruct (report_list errors
              ("Dockerfile validation errors in "
               +:+ path_str (container_dir ++ ["Dockerfile"]) +:+ ":")
              all_valid w) as [printed ->].
  destruct warnings as [|warning warnings]; cbn.
  - by exists printed.
  - eexists. by rewrite <- (assoc_L (++)).
Qed.

(** The Poetry block: the validator prints its line; on [False] nothing
    else happens and [all_valid] is what it was; on [True] the header is
    printed and the loop over the boolean raises. *)
Lemma poetry_block_outcome container_dir all_valid (w : world) :
  poetry_block tomli_load container_dir all_valid w
  = let '(valid, line) :=
      PoetryValidator.validate_poetry_config tomli_load (files w)
        container_dir in
    if valid
    then (Raise bool_not_iterable,
          World (files w)
            (stdout w ++ [line]
             ++ ["Poetry configuration errors in "
                 +:+ path_str container_dir +:+ ":"]))
    else (Ok all_valid, World (files w) (stdout w ++ [line])).
Proof.
  unfold poetry_block, io_bind, validate_poetry_config.
  destruct (PoetryValidator.validate_poetry_config _ _ _) as [valid line].
  rewrite report_bool. destruct valid; [|done].
  cbn [files stdout]. by rewrite <- (assoc_L (++)).
Qed.

Lemma python_only_changes_refl (fs : filesystem) : python_only_changes fs fs.
Proof. intros p. by left. Qed.

Lemma python_only_changes_trans (fs1 fs2 fs3 : filesystem) :
  python_only_changes fs1 fs2 → python_only_changes fs2 fs3 →
  python_only_changes fs1 fs3.
Proof.
  intros H12 H23 p.
  destruct (H23 p) as [H3|(Hpy & src2 & src3 & Hsrc2 & Hsrc3)].
  - destruct (H12 p) as [H2|(Hpy & src1 & src2 & Hsrc1 & Hsrc2)].
    + left. congruence.
    + right. split; [done|]. exists src1, src2. split; congruence.
  - right. split; [done|].
    destruct (H12 p) as [H2|(_ & src1 & ? & Hsrc1 & _)].
    + exists src2, src3. split; congruence.
    + exists src1, src3. split; congruence.
Qed.

Lemma python_only_changes_exists (before after : filesystem) (p : path) :
  python_only_changes before after → exists_ after p = exists_ before p.
Proof.
  intros Hchanges. unfold exists_.
  destruct (Hchanges p) as [Hp|(_ & src & src' & Hsrc & Hsrc')].
  - by replace (after !! p) with (before !! p).
  - replace (after !! p) with (Some (File src')).
    replace (before !! p) with (Some (File src)).
    by rewrite !bool_decide_eq_true_2 by eauto.
Qed.

Lemma python_only_changes_read (before after : filesystem) (p : path) :
  python_only_changes before after →
  Str.endswith ".py" (name p) = false →
  read after p = read before p.
Proof.
  intros Hchanges Hname. unfold read.
  destruct (Hchanges p) as [Hp|(Hpy & _)]; [|congruence].
  by replace (after !! p) with (before !! p).
Qed.

Lemma name_snoc (dir : path) (file : string) : name (dir ++ [file]) = file.
Proof. apply last_last. Qed.

(** The Poetry validator does not see what the formatting pass changes. *)
Lemma validate_poetry_config_python_only (before after : filesystem)
    (container_dir : path) :
  python_only_changes before after →
  PoetryValidator.validate_poetry_config tomli_load after container_dir
  = PoetryValidator.validate_poetry_config tomli_load before container_dir.
Proof.
  intros Hchanges. unfold PoetryValidator.validate_poetry_config.
  rewrite !(python_only_changes_exists before after) by done.
  unfold PoetryValidator.check_pyproject.
  rewrite (python_only_changes_read before after) by (by rewrite ?name_snoc).
  done.
Qed.

(** The structural block never raises; it prints, and changes Python files
    only. *)
Lemma structure_block_returns container_dir all_valid (w : world) :
  ∃ all_valid' fs' printed,
    structure_block format_str ast_parse container_dir all_valid w
    = (Ok all_valid', World fs' (stdout w ++ printed))
    ∧ python_only_changes (files w) fs'.
Proof.
  unfold structure_block, io_bind, validate_container_structure.
  pose proof (validate_container_structure_python_only format_str ast_parse
                (files w) container_dir) as Hfiles.
  destruct (ContainerValidator.validate_container_structure _ _ _ _)
    as [errors fs]. cbn [snd] in Hfiles.
  destruct (report_list errors
              ("Container structure validation errors in "
               +:+ path_str container_dir +:+ ":")
              all_valid (World fs (stdout w))) as [printed ->].
  cbn [files stdout]. by exists (all_valid && bool_decide (errors = [])), fs,
    printed.
Qed.

Lemma structure_block_outcome container_dir all_valid (w : world) :
  ∃ all_valid' w',
    structure_block format_str ast_parse container_dir all_valid w
    = (Ok all_valid', w')
    ∧ python_only_changes (files w) (files w').
Proof.
  destruct (structure_block_returns container_dir all_valid w)
    as (all_valid' & fs' & printed & -> & Hfiles).
  by do 2 eexists.
Qed.

(** One round of the loop over the containers, begun on a file system
    that differs from the first one in Python files only: it raises when
    the container's Poetry configuration is valid, and goes through when
    it is not. *)
Lemma container_body_outcome (first : filesystem) container_dir all_valid
    (w : world) :
  python_only_changes first (files w) →
  if (PoetryValidator.validate_poetry_config tomli_load first
        container_dir).1
  then ∃ w',
         container_body format_str ast_parse tomli_load validate_dockerfile
           all_valid container_dir w
         = (Raise bool_not_iterable, w')
  else ∃ all_valid' w',
         container_body format_str ast_parse tomli_load validate_dockerfile
           all_valid container_dir w
         = (Ok all_valid', w')
         ∧ python_only_changes first (files w').
Proof.
  intros Hfirst. unfold container_body, io_bind.
  destruct (structure_block_outcome container_dir all_valid w)
    as (all_valid1 & w1 & -> & Hw1).
  pose proof (python_only_changes_trans _ _ _ Hfirst Hw1) as Hfirst1.
  rewrite poetry_block_outcome.
  rewrite (validate_poetry_config_python_only first (files w1)) by done.
  destruct (PoetryValidator.validate_poetry_config tomli_load first
              container_dir) as [[|] line]; cbn [fst]; [by eexists|].
  destruct (dockerfile_block_outcome container_dir all_valid1
              (World (files w1) (stdout w1 ++ [line]))) as [printed ->].
  do 2 eexists. split; [done|]. done.
Qed.

(** The loop over the containers raises as soon as one of them has a valid
    Poetry configuration, and goes through when none has. *)
Lemma container_loop_outcome (first : filesystem) (dirs : list path)
    all_valid (w : world) :
  python_only_changes first (files w) →
  let body :=
    container_body format_str ast_parse tomli_load validate_dockerfile in
  let valid container_dir :=
    (PoetryValidator.validate_poetry_config tomli_load first
       container_dir).1 in
  (Exists (λ container_dir, valid container_dir = true) dirs →
   ∃ w', io_for_each body dirs all_valid w = (Raise bool_not_iterable, w'))
  ∧ (Forall (λ container_dir, valid container_dir = false) dirs →
     ∃ all_valid' w',
       io_for_each body dirs all_valid w = (Ok all_valid', w')).
Proof.
  intros Hfirst body valid. subst body valid. revert all_valid w Hfirst.
  induction dirs as [|container_dir dirs IH]; intros all_valid w Hfirst.
  - split; [by intros ?%Exists_nil|]. intros _. by do 2 eexists.
  - pose proof (container_body_outcome first container_dir all_valid w
                  Hfirst) as Hbody.
    cbn [io_for_each]. unfold io_bind.
    destruct (PoetryValidator.validate_poetry_config tomli_load first
                container_dir).1 eqn:Hvalid.
    + destruct Hbody as [w' ->]. split; [by eexists|].
      intros [Hhead _]%Forall_cons. congruence.
    + destruct Hbody as (all_valid' & w' & -> & Hw').
      destruct (IH all_valid' w' Hw') as [Hraise Hreturn].
      split; [|by intros [_ ?]%Forall_cons; apply Hreturn].
      intros [Hhead|Htail]%Exists_cons; [|by apply Hraise].
      congruence.
Qed.







(** C10. [check_containers] uses the boolean of [validate_poetry_config]
    as a list of errors. In the Poetry block a [True] prints the header
    and raises [TypeError] at the loop over the boolean, a [False] prints
    and changes nothing; so [check_containers] raises [TypeError] when
    some container directory has a valid Poetry configuration, and when
    none has it returns with a result that no Poetry block has touched. *)
Theorem check_containers_iterates_boolean :
  (∀ container_dir all_valid w,
     let validated :=
       PoetryValidator.validate_poetry_config tomli_load (files w)
         container_dir in
     let block := poetry_block tomli_load container_dir all_valid w in
     (validated.1 = true → block.1 = Raise bool_not_iterable)
     ∧ (validated.1 = false →
        block = (Ok all_valid,
                 World (files w) (stdout w ++ [validated.2]))))
  ∧ (∀ w,
       let valid container_dir :=
         (PoetryValidator.validate_poetry_config tomli_load (files w)
            container_dir).1 in
       let run :=
         check_containers format_str ast_parse tomli_load
           validate_dockerfile validate_compose_file w in
       ((∃ container_dir, container_dir ∈ container_dirs (files w)
                          ∧ valid container_dir = true) →
        run.1 = Raise bool_not_iterable)
       ∧ ((∀ container_dir, container_dir ∈ container_dirs (files w) →
                            valid container_dir = false) →
          ∃ all_valid, run.1 = Ok all_valid)).
Proof.
  split.
  - intros container_dir all_valid w validated block. unfold block.
    rewrite poetry_block_outcome. fold validated.
    destruct validated as [[|] line]; cbn; by split.
  - intros w valid run. unfold run, check_containers, io_bind, print.
    cbn [get_files files fst snd].
    destruct (container_loop_outcome (files w) (container_dirs (files w))
                true (World (files w) (stdout w ++ ["Validating containers..."]))
                (python_only_changes_refl _)) as [Hraise Hreturn].
    fold (container_dirs (files w)). split.
    + intros Hvalid%Exists_exists. destruct (Hraise Hvalid) as [w' ->].
      done.
    + intros Hinvalid%Forall_forall.
      destruct (Hreturn Hinvalid) as (all_valid & w' & ->).
      unfold compose_block, io_bind, get_files. cbn [fst snd].
      destruct (exists_ (files w') compose_path); [|by eexists].
      destruct (report_list (validate_compose_file (files w') compose_path)
                  "Docker Compose validation errors:" all_valid w')
        as [printed ->].
      by eexists.
Qed.

End Standards.

Lemma check_containers_iterates_boolean_witness :
  (sample_run (service_container formatted_source)).1
  = Raise bool_not_iterable
  ∧ ∃ all_valid,
      (sample_run service_container_without_pyproject).1 = Ok all_valid.
Proof.
  split.
  - apply (check_containers_iterates_boolean sample_format sample_parse
             sample_tomli_load (λ _ _, ([], [])) (λ _ _, [])).
    exists ["containers"; "api"]. split; [listed|vm_compute; reflexivity].
  - apply (check_containers_iterates_boolean sample_format sample_parse
             sample_tomli_load (λ _ _, ([], [])) (λ _ _, [])).
    intros container_dir Hdir. vm_compute in Hdir.
    apply list_elem_of_singleton in Hdir as ->. vm_compute; reflexivity.
Defined.


(** * Further properties *)

Import Further.

(** ** More on the Dockerfile parser *)

Lemma parse_line_continued (st : parser_state) (raw ci : string) :
  current_instruction st = Some ci →
  kept raw = true → continued raw = true →
  parse_line st raw
  = Ok (ParserState (instructions st) (Some ci)
          (current_args st ++ [fragment (Str.strip raw)])).
Proof.
  unfold kept, continued, parse_line.
  intros Hcur Hkept%negb_true_iff Hcont. by rewrite Hkept, Hcont, Hcur.
Qed.

Lemma parse_line_opening (st : parser_state) (raw kw arg : string) :
  current_instruction st = None →
  kept raw = true → continued raw = true →
  Str.split_none_1 (Str.strip raw) = [kw; arg] →
  parse_line st raw
  = Ok (ParserState (instructions st) (Some kw) [fragment arg]).
Proof.
  unfold kept, continued, parse_line.
  intros Hcur Hkept%negb_true_iff Hcont Hsplit.
  by rewrite Hkept, Hcont, Hcur, Hsplit.
Qed.

Lemma parse_line_closing (st : parser_state) (raw ci : string) :
  current_instruction st = Some ci →
  kept raw = true → continued raw = false →
  parse_line st raw
  = Ok (ParserState
          (instructions st
           ++ [(ci, Str.join " " (current_args st ++ [Str.strip raw]))])
          None []).
Proof.
  unfold kept, continued, parse_line.
  intros Hcur Hkept%negb_true_iff Hcont. by rewrite Hkept, Hcont, Hcur.
Qed.

(** One round of the loop adds an instruction exactly at a closing line. *)
Lemma parse_line_count (st st' : parser_state) (raw : string) :
  parse_line st raw = Ok st' →
  length (instructions st')
  = length (instructions st) + (if closing raw then 1 else 0).
Proof.
  unfold closing. destruct (kept raw) eqn:Hkept; cbn [andb];
    [|rewrite parse_line_dropped by done; intros [= <-]; lia].
  destruct (continued raw) eqn:Hcont, (current_instruction st) as [ci|]
    eqn:Hcur; cbn [negb].
  - rewrite (parse_line_continued st raw ci) by done.
    intros [= <-]. simpl. lia.
  - unfold kept, continued, parse_line in *.
    apply negb_true_iff in Hkept. rewrite Hkept, Hcont, Hcur.
    destruct (Str.split_none_1 _) as [|kw [|arg [|? ?]]]; simpl;
      try discriminate. intros [= <-]. simpl. lia.
  - rewrite (parse_line_closing st raw ci) by done.
    intros [= <-]. simpl. rewrite length_app. simpl. lia.
  - unfold kept, continued, parse_line in *.
    apply negb_true_iff in Hkept. rewrite Hkept, Hcont, Hcur.
    destruct (Str.split_none_1 _) as [|kw [|arg [|? ?]]]; simpl;
      try discriminate. intros [= <-]. simpl. rewrite length_app. simpl. lia.
Qed.

Lemma for_each_parse_line_count (lines : list string)
    (st st' : parser_state) :
  for_each parse_line lines st = Ok st' →
  length (instructions st')
  = length (instructions st) + length (filter (λ raw, closing raw) lines).
Proof.
  revert st. induction lines as [|raw lines IH]; intros st; simpl.
  - intros [= <-]. lia.
  - destruct (parse_line st raw) as [st1|] eqn:Hstep; simpl; [|done].
    intros Hrest. rewrite (IH _ Hrest), (parse_line_count _ _ _ Hstep).
    rewrite filter_cons. destruct (closing raw).
    + rewrite decide_True by done. simpl. lia.
    + rewrite decide_False by exact id. lia.
Qed.

(** X1. When [parse_dockerfile] returns, it returns as many instructions
    as the text has closing lines: kept lines without a continuation
    marker. Continued lines, comments and blank lines add none. *)
Theorem parse_dockerfile_instruction_count (content : string)
    (instrs : list instruction) :
  parse_dockerfile content = Ok instrs →
  length instrs
  = length (filter (λ raw, closing raw) (Str.split Str.LF content)).
Proof.
  unfold parse_dockerfile.
  destruct (for_each parse_line _ _) as [st|] eqn:Hrun; simpl; [|done].
  intros [= <-]. by rewrite (for_each_parse_line_count _ _ _ Hrun).
Qed.

Lemma parse_dockerfile_instruction_count_witness :
  length [("FROM", "python:3.11-slim"); ("RUN", "pip install poetry && poetry install")]
  = length (filter (λ raw, closing raw)
      (Str.split Str.LF
         ("FROM python:3.11-slim" +:+ nl +:+ "# tools" +:+ nl
          +:+ "RUN pip install poetry \" +:+ nl
          +:+ "    && poetry install" +:+ nl))).
Proof.
  apply (parse_dockerfile_instruction_count
           ("FROM python:3.11-slim" +:+ nl +:+ "# tools" +:+ nl
            +:+ "RUN pip install poetry \" +:+ nl
            +:+ "    && poetry install" +:+ nl)).
  vm_compute; reflexivity.
Defined.

(** The loop over the lines is the loop over the kept lines. *)
Lemma for_each_parse_line_kept (lines : list string) (st : parser_state) :
  for_each parse_line lines st
  = for_each parse_line (filter (λ raw, kept raw) lines) st.
Proof.
  revert st. induction lines as [|raw lines IH]; intros st; [done|].
  rewrite filter_cons. destruct (kept raw) eqn:Hkept.
  - rewrite decide_True by done. simpl.
    destruct (parse_line st raw); simpl; [apply IH|done].
  - rewrite decide_False by exact id. simpl.
    rewrite parse_line_dropped by done. apply IH.
Qed.

(** X2. Blank lines and comments do not count wherever they stand, inside
    a continuation too: two texts with the same kept lines parse to the
    same result. *)
Theorem parse_dockerfile_kept_lines_only (content content' : string) :
  filter (λ raw, kept raw) (Str.split Str.LF content)
  = filter (λ raw, kept raw) (Str.split Str.LF content') →
  parse_dockerfile content = parse_dockerfile content'.
Proof.
  intros Hkept. unfold parse_dockerfile.
  by rewrite (for_each_parse_line_kept (Str.split Str.LF content)),
    (for_each_parse_line_kept (Str.split Str.LF content')), Hkept.
Qed.

Lemma parse_dockerfile_kept_lines_only_witness :
  parse_dockerfile
    ("FROM python:3.11-slim" +:+ nl +:+ nl +:+ "RUN apt-get update \" +:+ nl
     +:+ "  # no recommends" +:+ nl +:+ "  && apt-get install -y curl")
  = parse_dockerfile
      ("FROM python:3.11-slim" +:+ nl +:+ "RUN apt-get update \" +:+ nl
       +:+ "  && apt-get install -y curl").
Proof.
  apply parse_dockerfile_kept_lines_only. vm_compute; reflexivity.
Defined.

(** Inside a continuation, lines that close nothing leave the instructions
    as they are and the continuation open. *)
Lemma for_each_parse_line_open (lines : list string) (st : parser_state)
    (ci : string) :
  current_instruction st = Some ci →
  Forall (λ raw, closing raw = false) lines →
  ∃ args,
    for_each parse_line lines st
    = Ok (ParserState (instructions st) (Some ci) args).
Proof.
  intros Hcur Hlines. revert st Hcur.
  induction Hlines as [|raw lines Hraw _ IH]; intros st Hcur.
  - exists (current_args st). simpl. destruct st; simpl in *; by subst.
  - simpl. unfold closing in Hraw. destruct (kept raw) eqn:Hkept.
    + apply negb_false_iff in Hraw.
      rewrite (parse_line_continued st raw ci) by done. simpl.
      by destruct (IH (ParserState (instructions st) (Some ci)
                         (current_args st ++ [fragment (Str.strip raw)]))
                      eq_refl) as [args ->]; eauto.
    + rewrite parse_line_dropped by done. simpl. by apply IH.
Qed.

(** X3. A continuation that the text never closes is dropped without a
    word: when the last instruction line opens a continuation and no line
    after it closes it, [parse_dockerfile] returns the instructions of the
    lines before, and nothing for the open one. *)
Theorem parse_dockerfile_open_continuation_dropped
    (content : string) (before rest : list string) (opening : string)
    (st : parser_state) :
  Str.split Str.LF content = before ++ opening :: rest →
  for_each parse_line before initial_state = Ok st →
  current_instruction st = None →
  kept opening = true → continued opening = true →
  length (Str.split_none_1 (Str.strip opening)) = 2 →
  Forall (λ raw, closing raw = false) rest →
  parse_dockerfile content = Ok (instructions st).
Proof.
  intros Hlines Hbefore Hcur Hkept Hcont Hlen Hrest.
  unfold parse_dockerfile. rewrite Hlines, for_each_app, Hbefore.
  cbn [bind for_each].
  destruct (Str.split_none_1 (Str.strip opening))
    as [|kw [|arg [|? ?]]] eqn:Hsplit; try discriminate Hlen.
  rewrite (parse_line_opening st opening kw arg) by done. cbn [bind].
  by destruct (for_each_parse_line_open rest
                 (ParserState (instructions st) (Some kw) [fragment arg])
                 kw eq_refl Hrest) as [args ->].
Qed.

Lemma parse_dockerfile_open_continuation_dropped_witness :
  parse_dockerfile
    ("FROM python:3.11-slim" +:+ nl +:+ "RUN pip install poetry \" +:+ nl
     +:+ "# to be continued" +:+ nl)
  = Ok [("FROM", "python:3.11-slim")].
Proof.
  apply (parse_dockerfile_open_continuation_dropped _
           ["FROM python:3.11-slim"] ["# to be continued"; ""]
           "RUN pip install poetry \"
           (ParserState [("FROM", "python:3.11-slim")] None []));
    try (vm_compute; reflexivity).
  by repeat constructor.
Defined.

(** Inside a continuation, continued lines add their fragments. *)
Lemma for_each_parse_line_middles (middles : list string)
    (st : parser_state) (ci : string) :
  current_instruction st = Some ci →
  Forall (λ raw, kept raw = true ∧ continued raw = true) middles →
  for_each parse_line middles st
  = Ok (ParserState (instructions st) (Some ci)
          (current_args st
           ++ ((λ raw, fragment (Str.strip raw)) <$> middles))).
Proof.
  intros Hcur Hmiddles. revert st Hcur.
  induction Hmiddles as [|raw middles [Hkept Hcont] _ IH]; intros st Hcur.
  - simpl. rewrite app_nil_r. destruct st; simpl in *; by subst.
  - simpl. rewrite (parse_line_continued st raw ci) by done. cbn [bind].
    rewrite IH by done. simpl. by rewrite <- (assoc_L (++)).
Qed.

(** X4. An instruction spread over lines with continuation markers becomes
    one instruction: its keyword is the first word of the first line, its
    argument the rest of the first line, the lines between and the last
    line, each without its markers and the whitespace around it, joined by
    single spaces. *)
Theorem parse_dockerfile_joins_continuation
    (content : string) (opening last kw arg : string)
    (middles : list string) :
  Str.split Str.LF content = opening :: middles ++ [last] →
  kept opening = true → continued opening = true →
  Str.split_none_1 (Str.strip opening) = [kw; arg] →
  Forall (λ raw, kept raw = true ∧ continued raw = true) middles →
  kept last = true → continued last = false →
  parse_dockerfile content
  = Ok [(kw, Str.join " "
               (fragment arg
                :: ((λ raw, fragment (Str.strip raw)) <$> middles)
                ++ [Str.strip last]))].
Proof.
  intros Hlines Hkept Hcont Hsplit Hmiddles Hklast Hclast.
  unfold parse_dockerfile. rewrite Hlines. cbn [for_each].
  rewrite (parse_line_opening initial_state opening kw arg) by done.
  cbn [bind]. rewrite for_each_app.
  rewrite (for_each_parse_line_middles middles _ kw) by done.
  cbn [bind for_each instructions current_args].
  by rewrite (parse_line_closing _ last kw) by done.
Qed.

Lemma parse_dockerfile_joins_continuation_witness :
  parse_dockerfile
    ("RUN apt-get update \" +:+ nl
     +:+ "    && apt-get install -y curl \" +:+ nl
     +:+ "    && rm -rf /var/lib/apt/lists/*")
  = Ok [("RUN",
         "apt-get update && apt-get install -y curl && rm -rf /var/lib/apt/lists/*")].
Proof.
  apply (parse_dockerfile_joins_continuation _
           "RUN apt-get update \" "    && rm -rf /var/lib/apt/lists/*"
           "RUN" "apt-get update \"
           ["    && apt-get install -y curl \"]);
    try (vm_compute; reflexivity).
  by repeat constructor.
Defined.

Lemma span_word_no_space_in_word s : has_space (Str.span_word s).1 = false.
Proof.
  induction s as [|c s IH]; [done|]. simpl.
  destruct (Str.isspace c) eqn:Hc; [done|].
  destruct (Str.span_word s) as [w r]. simpl in *. by rewrite Hc, IH.
Qed.

(** The first element of a split is a word. *)
Lemma split_none_1_keyword s kw rest :
  Str.split_none_1 s = kw :: rest → kw ≠ "" ∧ has_space kw = false.
Proof.
  unfold Str.split_none_1.
  destruct (Str.lstrip s) as [|c s1] eqn:Hstrip; [done|].
  pose proof (span_word_no_space_in_word (String c s1)) as Hword.
  pose proof (lstrip_head _ _ _ Hstrip) as Hc.
  destruct (Str.span_word (String c s1)) as [w r] eqn:Hspan.
  assert (w ≠ "") as Hne.
  { simpl in Hspan. rewrite Hc in Hspan.
    destruct (Str.span_word s1). by injection Hspan as <- _. }
  by destruct (Str.lstrip r); intros [= <- _].
Qed.


Lemma parse_line_invariant (st st' : parser_state) (raw : string) :
  parse_line st raw = Ok st' → parser_invariant st → parser_invariant st'.
Proof.
  intros Hstep [Hinstrs Hopen].
  destruct (kept raw) eqn:Hkept;
    [|rewrite parse_line_dropped in Hstep by done; by injection Hstep as <-].
  assert (has_text (Str.strip raw) = true) as Htext.
  { apply has_text_strip. unfold kept in Hkept.
    by apply negb_true_iff, orb_false_elim in Hkept as [? _]. }
  destruct (continued raw) eqn:Hcont, (current_instruction st) as [ci|]
    eqn:Hcur.
  - rewrite (parse_line_continued st raw ci) in Hstep by done.
    injection Hstep as <-. split; [done|]. by intros ? [= <-]; apply Hopen.
  - unfold kept, continued, parse_line in *.
    apply negb_true_iff in Hkept. rewrite Hkept, Hcont, Hcur in Hstep.
    destruct (Str.split_none_1 _) as [|kw [|arg [|? ?]]] eqn:Hsplit;
      simpl in Hstep; try discriminate. injection Hstep as <-.
    split; [done|]. intros ? [= <-]. by eapply split_none_1_keyword.
  - rewrite (parse_line_closing st raw ci) in Hstep by done.
    injection Hstep as <-. split; [|done]. simpl.
    apply Forall_app. split; [done|]. constructor; [|constructor].
    destruct (Hopen ci eq_refl) as [Hne Hword].
    split_and!; [done..|]. by apply has_text_join_snoc.
  - unfold kept, continued, parse_line in *.
    apply negb_true_iff in Hkept. rewrite Hkept, Hcont, Hcur in Hstep.
    destruct (Str.split_none_1 _) as [|kw [|arg [|? ?]]] eqn:Hsplit;
      simpl in Hstep; try discriminate. injection Hstep as <-.
    split; [|intros ci Hci; simpl in Hci; congruence]. simpl.
    apply Forall_app. split; [done|]. constructor; [|constructor].
    destruct (split_none_1_keyword _ _ _ Hsplit) as [Hne Hword].
    split_and!; [done..|]. by eapply split_none_1_arg_has_text.
Qed.

Lemma for_each_parse_line_invariant (lines : list string)
    (st st' : parser_state) :
  for_each parse_line lines st = Ok st' →
  parser_invariant st → parser_invariant st'.
Proof.
  revert st. induction lines as [|raw lines IH]; intros st; simpl.
  - by intros [= <-].
  - destruct (parse_line st raw) as [st1|] eqn:Hstep; simpl; [|done].
    intros Hrest Hst. eapply IH; [done|]. by eapply parse_line_invariant.
Qed.

(** X5. Every instruction [parse_dockerfile] returns has a keyword that is
    one non-empty word and an argument with at least one character that is
    not whitespace: no check that follows meets an empty keyword or a
    blank argument. *)
Theorem parse_dockerfile_well_shaped (content : string)
    (instrs : list instruction) :
  parse_dockerfile content = Ok instrs → Forall well_shaped instrs.
Proof.
  unfold parse_dockerfile.
  destruct (for_each parse_line _ _) as [st|] eqn:Hrun; simpl; [|done].
  intros [= <-].
  apply (for_each_parse_line_invariant _ _ _ Hrun).
  split; [constructor|done].
Qed.

Lemma parse_dockerfile_well_shaped_witness :
  Forall well_shaped
    [("FROM", "python:3.11-slim");
     ("ENV", " PYTHONUNBUFFERED=1 VENV_PATH=/v")].
Proof.
  apply (parse_dockerfile_well_shaped
           ("  FROM   python:3.11-slim" +:+ nl +:+ "ENV \" +:+ nl
            +:+ "  PYTHONUNBUFFERED=1 \" +:+ nl +:+ "  VENV_PATH=/v")).
  vm_compute; reflexivity.
Defined.

(** ** More on the Dockerfile checks *)

Lemma blank_contains_no_char c s :
  Str.isspace c = false → has_text s = false →
  Str.contains (String c "") s = false.
Proof.
  intros Hc. induction s as [|x s IH]; [done|]. simpl has_text.
  intros [Hx Hs]%orb_false_elim. apply negb_false_iff in Hx.
  rewrite contains_char_cons, (IH Hs), orb_false_r.
  apply bool_decide_eq_false. by intros <-; congruence.
Qed.

Lemma blank_split_none s : has_text s = false → Str.split_none s = [].
Proof.
  induction s as [|c s IH]; [done|]. simpl.
  intros [Hc Hs]%orb_false_elim. apply negb_false_iff in Hc.
  rewrite Hc. by apply IH.
Qed.

(** The key of a blank argument does not exist. *)
Lemma env_key_blank args :
  has_text args = false →
  env_key args = Raise (IndexError "list index out of range").
Proof.
  intros Hblank. unfold env_key.
  rewrite (blank_contains_no_char "=" args) by done.
  by rewrite blank_split_none.
Qed.

Lemma found_env_vars_outcome instrs (acc : gset string) :
  match for_each (λ (found : gset string) '(kw, args),
                    if bool_decide (kw = "ENV")
                    then let* key := env_key args in Ok ({[ key ]} ∪ found)
                    else Ok found) instrs acc with
  | Ok found =>
      (∀ args, ("ENV", args) ∈ instrs → has_text args = true)
      ∧ ∀ key, key ∈ found
               ↔ key ∈ acc
                 ∨ ∃ args, ("ENV", args) ∈ instrs ∧ env_key args = Ok key
  | Raise e =>
      e = IndexError "list index out of range"
      ∧ ∃ args, ("ENV", args) ∈ instrs ∧ has_text args = false
  end.
Proof.
  revert acc. induction instrs as [|[kw args] instrs IH]; intros acc.
  - simpl. split; [by intros ? ?%elem_of_nil|].
    intros key. split; [by left|]. by intros [?|(? & ?%elem_of_nil & _)].
  - cbn [for_each]. destruct (bool_decide (kw = "ENV")) eqn:Hkw.
    + apply bool_decide_eq_true in Hkw as ->.
      destruct (has_text args) eqn:Htext.
      * destruct (env_key_total args Htext) as [key0 Hkey0].
        rewrite Hkey0. cbn [bind]. specialize (IH ({[ key0 ]} ∪ acc)).
        destruct (for_each _ instrs _) as [found|e].
        -- destruct IH as [Htexts Hfound]. split.
           ++ intros args' [[= ->]|?]%elem_of_cons; [done|by apply Htexts].
           ++ intros key. rewrite Hfound, elem_of_union, elem_of_singleton.
              split.
              ** intros [[->|?]|(args' & ? & ?)]; [|by left|].
                 --- right. exists args. split; [by left|done].
                 --- right. exists args'. split; [by right|done].
              ** intros [?|(args' & [[= ->]|?]%elem_of_cons & Hkey)].
                 --- by left; right.
                 --- left; left. congruence.
                 --- right. by exists args'.
        -- destruct IH as [-> (args' & ? & ?)]. split; [done|].
           exists args'. split; [by right|done].
      * rewrite (env_key_blank args Htext). cbn [bind]. split; [done|].
        exists args. split; [by left|done].
    + apply bool_decide_eq_false in Hkw. cbn [bind]. specialize (IH acc).
      destruct (for_each _ instrs _) as [found|e].
      * destruct IH as [Htexts Hfound]. split.
        -- intros args' [[= <- ?]|?]%elem_of_cons; [done|by apply Htexts].
        -- intros key. rewrite Hfound. split.
           ++ intros [?|(args' & ? & ?)]; [by left|].
              right. exists args'. split; [by right|done].
           ++ intros [?|(args' & [[= <- ?]|?]%elem_of_cons & Hkey)];
                [by left|done|]. right. by exists args'.
      * destruct IH as [-> (args' & ? & ?)]. split; [done|].
        exists args'. split; [by right|done].
Qed.

(** X6. [check_environment_variables] raises [IndexError] exactly when
    some [ENV] instruction has a blank argument, and then nothing is
    reported; in every other case it returns a list. *)
Theorem check_environment_variables_blank_argument
    (instrs : list instruction) :
  match check_environment_variables instrs with
  | Ok _ => ∀ args, ("ENV", args) ∈ instrs → has_text args = true
  | Raise e =>
      e = IndexError "list index out of range"
      ∧ ∃ args, ("ENV", args) ∈ instrs ∧ has_text args = false
  end.
Proof.
  unfold check_environment_variables.
  pose proof (found_env_vars_outcome instrs ∅) as Hfound.
  fold (found_env_vars instrs) in Hfound.
  destruct (found_env_vars instrs) as [found|e]; cbn [bind]; [|done].
  by destruct Hfound.
Qed.

(** X7. On what [parse_dockerfile] returns, [check_environment_variables]
    never raises: the parser produces no blank argument. *)
Theorem check_environment_variables_after_parse (content : string)
    (instrs : list instruction) :
  parse_dockerfile content = Ok instrs →
  ∃ errors, check_environment_variables instrs = Ok errors.
Proof.
  intros Hparse%parse_dockerfile_args_have_text.
  pose proof (found_env_vars_outcome instrs ∅) as Hfound.
  fold (found_env_vars instrs) in Hfound.
  unfold check_environment_variables.
  destruct (found_env_vars instrs) as [found|e]; cbn [bind]; [by eexists|].
  destruct Hfound as [_ (args & Hin & Hblank)].
  unfold args_have_text in Hparse. rewrite Forall_forall in Hparse.
  specialize (Hparse _ Hin). simpl in Hparse. congruence.
Qed.

Lemma check_environment_variables_after_parse_witness :
  ∃ errors,
    check_environment_variables
      [("FROM", "python:3.11-slim"); ("ENV", " VENV_PATH=/v")]
    = Ok errors.
Proof.
  apply (check_environment_variables_after_parse
           ("FROM python:3.11-slim" +:+ nl +:+ "ENV \" +:+ nl
            +:+ "  VENV_PATH=/v")).
  vm_compute; reflexivity.
Defined.

(** What [missing_from] reports: once each, the required elements that were
    not found. *)
Lemma missing_from_reports prefix (required found : gset string) :
  NoDup (missing_from prefix required found)
  ∧ ∀ e, e ∈ missing_from prefix required found
         ↔ ∃ key, e = prefix +:+ key ∧ key ∈ required ∧ key ∉ found.
Proof.
  unfold missing_from. split.
  - apply (NoDup_fmap_2 _), NoDup_filter, NoDup_elements.
  - intros e. rewrite list_elem_of_fmap. split.
    + intros (key & -> & [Hnot Hkey%elem_of_elements]%list_elem_of_filter).
      by exists key.
    + intros (key & -> & Hkey & Hnot). exists key. split; [done|].
      apply list_elem_of_filter. split; [done|by apply elem_of_elements].
Qed.

(** X8. When [check_environment_variables] returns, it reports each
    required key that is the extracted key of no [ENV] instruction, once,
    and nothing else; where the [ENV] instructions stand plays no part. *)
Theorem check_environment_variables_reports
    (instrs : list instruction) (errors : list string) :
  check_environment_variables instrs = Ok errors →
  NoDup errors
  ∧ ∀ e, e ∈ errors
         ↔ ∃ key,
             e = "Missing required environment variable: " +:+ key
             ∧ key ∈ required_env_vars
             ∧ ∀ args, ("ENV", args) ∈ instrs → env_key args ≠ Ok key.
Proof.
  unfold check_environment_variables.
  pose proof (found_env_vars_outcome instrs ∅) as Hfound.
  fold (found_env_vars instrs) in Hfound.
  destruct (found_env_vars instrs) as [found|]; cbn [bind];
    [|discriminate].
  intros Herrors%Ok_inj. subst errors. destruct Hfound as [_ Hfound].
  destruct (missing_from_reports "Missing required environment variable: "
              required_env_vars found) as [Hnodup Hin].
  split; [exact Hnodup|]. intros e. rewrite Hin.
  split; intros (key & He & Hrequired & Hmissing); exists key;
    (split_and!; [exact He|exact Hrequired|]).
  - intros args Hargs Hkey. apply Hmissing, Hfound. right. by exists args.
  - intros [[]%elem_of_empty|(args & Hargs & Hkey)]%Hfound.
    by apply (Hmissing args).
Qed.

Lemma check_environment_variables_reports_witness :
  NoDup ["Missing required environment variable: VENV_PATH"]
  ∧ ∀ e, e ∈ ["Missing required environment variable: VENV_PATH"]
         ↔ ∃ key,
             e = "Missing required environment variable: " +:+ key
             ∧ key ∈ required_env_vars
             ∧ ∀ args,
                 ("ENV", args)
                 ∈ [ ("ENV", "PYSETUP_PATH /opt/pysetup");
                     ("ENV", "POETRY_HOME=/opt/poetry");
                     ("ENV", "POETRY_VERSION=1.7.1");
                     ("ENV", "POETRY_NO_INTERACTION=1");
                     ("ENV", "POETRY_VIRTUALENVS_IN_PROJECT=true");
                     ("ENV", "PYTHONDONTWRITEBYTECODE=1");
                     ("ENV", "PYTHONUNBUFFERED=1") ] →
                 env_key args ≠ Ok key.
Proof.
  apply check_environment_variables_reports. vm_compute; reflexivity.
Defined.

Lemma found_labels_membership key instrs (acc : gset string) :
  key ∈ foldl (λ (found : gset string) '(kw, args),
                 if bool_decide (kw = "LABEL")
                 then list_to_set (label_keys args) ∪ found
                 else found) acc instrs
  ↔ key ∈ acc ∨ ∃ args, ("LABEL", args) ∈ instrs ∧ key ∈ label_keys args.
Proof.
  revert acc. induction instrs as [|[kw args] instrs IH]; intros acc.
  - simpl. split; [by left|]. by intros [?|(? & ?%elem_of_nil & _)].
  - cbn [foldl]. rewrite IH. destruct (bool_decide (kw = "LABEL")) eqn:Hkw.
    + apply bool_decide_eq_true in Hkw as ->.
      rewrite elem_of_union, elem_of_list_to_set. split.
      * intros [[?|?]|(args' & ? & ?)]; [|by left|].
        -- right. exists args. split; [by left|done].
        -- right. exists args'. split; [by right|done].
      * intros [?|(args' & [[= ->]|?]%elem_of_cons & Hkey)].
        -- by left; right.
        -- by left; left.
        -- right. by exists args'.
    + apply bool_decide_eq_false in Hkw. split.
      * intros [?|(args' & ? & ?)]; [by left|].
        right. exists args'. split; [by right|done].
      * intros [?|(args' & [[= <- ?]|?]%elem_of_cons & Hkey)];
          [by left|done|]. right. by exists args'.
Qed.

(** X9. [check_labels] reports each required label that is the key of no
    [key=value] token of any [LABEL] instruction, once, and nothing else:
    the labels may be spread over instructions or share one. *)
Theorem check_labels_reports (instrs : list instruction) :
  NoDup (check_labels instrs)
  ∧ ∀ e, e ∈ check_labels instrs
         ↔ ∃ key,
             e = "Missing required label: " +:+ key
             ∧ key ∈ required_labels
             ∧ ∀ args, ("LABEL", args) ∈ instrs → key ∉ label_keys args.
Proof.
  unfold check_labels, found_labels.
  match goal with
  | |- context [missing_from ?prefix ?required ?found] =>
      destruct (missing_from_reports prefix required found) as [Hnodup Hin]
  end.
  split; [exact Hnodup|]. intros e. rewrite Hin.
  split; intros (key & He & Hrequired & Hmissing); exists key;
    (split_and!; [exact He|exact Hrequired|]).
  - intros args Hargs Hkey. apply Hmissing, found_labels_membership.
    right. by exists args.
  - intros [[]%elem_of_empty|(args & Hargs & Hkey)]%found_labels_membership.
    by apply (Hmissing args).
Qed.

(** One turn of the loop of [main] over its table of checks. *)
Lemma run_checks_step (instrs : list instruction) (name : string)
    (check_func : list instruction → result (list string))
    (rest : list (string * (list instruction → result (list string))))
    (st : list string * Z) :
  for_each (λ '(printed, exit_code) '(_, check_func),
              let* errors := check_func instrs in
              match errors with
              | [] => Ok (printed, exit_code)
              | _ => Ok (printed ++ errors, 1%Z)
              end)
           ((name, check_func) :: rest) st
  = let* errors := check_func instrs in
    for_each (λ '(printed, exit_code) '(_, check_func),
                let* errors := check_func instrs in
                match errors with
                | [] => Ok (printed, exit_code)
                | _ => Ok (printed ++ errors, 1%Z)
                end)
             rest
             (match errors with [] => st | _ => (st.1 ++ errors, 1%Z) end).
Proof.
  destruct st as [printed exit_code]. cbn [for_each].
  by destruct (check_func instrs) as [[|? ?]|?].
Qed.

(** The six checks in a row: every error in the order of the table, and
    exit code 1 as soon as there is one. *)
Lemma run_checks_concat (instrs : list instruction)
    (env_errors : list string) :
  check_environment_variables instrs = Ok env_errors →
  let errors :=
    check_base_image instrs ++ env_errors
    ++ check_poetry_installation instrs
    ++ check_dependencies_installation instrs
    ++ check_healthcheck instrs ++ check_labels instrs in
  run_checks instrs
  = Ok (errors, match errors with [] => 0%Z | _ => 1%Z end).
Proof.
  intros Henv. cbn zeta. unfold run_checks, checks.
  rewrite run_checks_step. cbn [bind].
  rewrite run_checks_step, Henv. cbn [bind].
  do 4 (rewrite run_checks_step; cbn [bind]). cbn [for_each].
  generalize (check_base_image instrs) (check_poetry_installation instrs)
    (check_dependencies_installation instrs) (check_healthcheck instrs)
    (check_labels instrs).
  intros e1 e3 e4 e5 e6.
  destruct e1 as [|? ?], env_errors as [|? ?], e3 as [|? ?], e4 as [|? ?],
    e5 as [|? ?], e6 as [|? ?]; cbn; rewrite ?app_nil_r;
    try reflexivity; by rewrite <- ?(assoc_L (++)).
Qed.

(** The environment check is the only one that can raise, and the loop
    does not go past it. *)
Lemma run_checks_raises (instrs : list instruction) (e : exn) :
  check_environment_variables instrs = Raise e →
  run_checks instrs = Raise e.
Proof.
  intros Henv. unfold run_checks, checks.
  rewrite run_checks_step. cbn [bind].
  by rewrite run_checks_step, Henv.
Qed.

(** X10. The loop of [main] over the six checks collects their errors in
    the order base image, environment, Poetry installation, dependencies,
    health check, labels, and sets the exit code to 1 exactly when there
    is at least one; an exception of the environment check goes through. *)
Theorem run_checks_collects (instrs : list instruction) :
  match check_environment_variables instrs with
  | Ok env_errors =>
      let errors :=
        check_base_image instrs ++ env_errors
        ++ check_poetry_installation instrs
        ++ check_dependencies_installation instrs
        ++ check_healthcheck instrs ++ check_labels instrs in
      run_checks instrs
      = Ok (errors, if bool_decide (errors = []) then 0%Z else 1%Z)
  | Raise e => run_checks instrs = Raise e
  end.
Proof.
  destruct (check_environment_variables instrs) as [env_errors|e] eqn:Henv.
  - cbn zeta. rewrite (run_checks_concat instrs env_errors Henv).
    cbn zeta. by destruct (_ ++ _).
  - by apply run_checks_raises.
Qed.

(** X11. A Dockerfile that starts with [FROM] and another base image gets
    the base-image error as the first finding, and exit code 1. *)
Theorem run_checks_base_image_first (instrs rest : list instruction)
    (base : string) (printed : list string) (exit_code : Z) :
  instrs = ("FROM", base) :: rest →
  Str.startswith "python:3.11" base = false →
  run_checks instrs = Ok (printed, exit_code) →
  head printed = Some "Base image must be python:3.11" ∧ exit_code = 1%Z.
Proof.
  intros -> Hbase Hrun.
  destruct (check_environment_variables (("FROM", base) :: rest))
    as [env_errors|e] eqn:Henv.
  - rewrite (run_checks_concat _ env_errors Henv) in Hrun. cbn zeta in Hrun.
    unfold check_base_image in Hrun.
    rewrite bool_decide_eq_false_2, Hbase in Hrun by (by intros []).
    cbn [negb app] in Hrun. by injection Hrun as <- <-.
  - by rewrite (run_checks_raises _ e Henv) in Hrun.
Qed.

Lemma run_checks_base_image_first_witness :
  head ["Base image must be python:3.11";
        "Missing required environment variable: VENV_PATH";
        "Missing required environment variable: POETRY_NO_INTERACTION";
        "Missing required environment variable: POETRY_VERSION";
        "Missing required environment variable: POETRY_VIRTUALENVS_IN_PROJECT";
        "Missing required environment variable: POETRY_HOME";
        "Missing required environment variable: PYSETUP_PATH";
        "Missing required environment variable: PYTHONUNBUFFERED";
        "Missing required environment variable: PYTHONDONTWRITEBYTECODE";
        "Poetry installation command not found";
        "Must copy pyproject.toml and poetry.lock files";
        "Must install dependencies using poetry install";
        "Healthcheck configuration not found";
        "Missing required label: maintainer";
        "Missing required label: version";
        "Missing required label: description"]
  = Some "Base image must be python:3.11"
  ∧ 1%Z = 1%Z.
Proof.
  apply (run_checks_base_image_first [("FROM", "node:18")] [] "node:18");
    vm_compute; reflexivity.
Defined.

(** X12. [check_dependencies_installation] reports the missing copy unless
    one single [COPY] instruction names both [pyproject.toml] and
    [poetry.lock], and the missing installation unless some [RUN]
    instruction contains [poetry install]; the copy error comes first. *)
Theorem check_dependencies_installation_reports (instrs : list instruction) :
  check_dependencies_installation instrs
  = (if has_instruction "COPY" copies_manifests instrs
     then [] else ["Must copy pyproject.toml and poetry.lock files"])
    ++ (if has_instruction "RUN" (Str.contains "poetry install") instrs
        then [] else ["Must install dependencies using poetry install"]).
Proof.
  unfold check_dependencies_installation.
  rewrite dependencies_flags. cbn [orb].
  by destruct (has_instruction "RUN" _ instrs),
    (has_instruction "COPY" _ instrs).
Qed.

(** X13. Only the first [HEALTHCHECK] instruction counts: whatever comes
    after it, the finding is decided by the three flags of that one. *)
Theorem check_healthcheck_first_only (before after : list instruction)
    (args : string) :
  has_instruction "HEALTHCHECK" (λ _, true) before = false →
  check_healthcheck (before ++ ("HEALTHCHECK", args) :: after)
  = if healthcheck_flags args then []
    else ["Healthcheck must specify interval, timeout, and retries"].
Proof.
  intros Hbefore. induction before as [|[kw a] before IH].
  - cbn. unfold healthcheck_flags.
    by destruct (Str.contains "--interval" args),
      (Str.contains "--timeout" args), (Str.contains "--retries" args).
  - unfold has_instruction in Hbefore. cbn [existsb] in Hbefore.
    apply orb_false_elim in Hbefore as [Hkw Hbefore].
    rewrite andb_true_r in Hkw.
    change ((kw, a) :: before) with ([(kw, a)] ++ before).
    rewrite <- (assoc_L (++)). cbn [app check_healthcheck].
    rewrite Hkw. by apply IH.
Qed.

Lemma check_healthcheck_first_only_witness :
  check_healthcheck
    ([("FROM", "python:3.11-slim")]
     ++ ("HEALTHCHECK", "--interval=30s CMD curl -f http://localhost/")
     :: [("HEALTHCHECK",
          "--interval=30s --timeout=5s --retries=3 CMD curl -f http://localhost/")])
  = if healthcheck_flags "--interval=30s CMD curl -f http://localhost/"
    then []
    else ["Healthcheck must specify interval, timeout, and retries"].
Proof.
  apply (check_healthcheck_first_only [("FROM", "python:3.11-slim")]).
  vm_compute. reflexivity.
Defined.

(** X14. [main] returns 0 exactly when the template loads, the Dockerfile
    is there and parses, and each of the six checks returns no error; in
    every other case, exceptions included, it returns 1. *)
Theorem main_exit_code (template : result string)
    (dockerfile : option string) :
  (main template dockerfile = 0%Z
   ↔ ∃ t content instrs,
       template = Ok t ∧ dockerfile = Some content
       ∧ parse_dockerfile content = Ok instrs
       ∧ check_base_image instrs = []
       ∧ check_environment_variables instrs = Ok []
       ∧ check_poetry_installation instrs = []
       ∧ check_dependencies_installation instrs = []
       ∧ check_healthcheck instrs = []
       ∧ check_labels instrs = [])
  ∧ (main template dockerfile = 0%Z ∨ main template dockerfile = 1%Z).
Proof.
  unfold main.
  destruct template as [t|e]; cbn [bind];
    [|split; [split; [done|by intros (? & ? & ? & ? & _)]|by right]].
  destruct dockerfile as [content|];
    [|split; [split; [done|by intros (? & ? & ? & _ & ? & _)]|by right]].
  destruct (parse_dockerfile content) as [instrs|e] eqn:Hparse; cbn [bind];
    [|split; [split; [done|]|by right];
      intros (? & ? & ? & _ & [= <-] & Hp & _); by rewrite Hparse in Hp].
  destruct (check_environment_variables instrs) as [env_errors|e] eqn:Henv.
  - rewrite (run_checks_concat instrs env_errors Henv). cbn [bind].
    split.
    + split.
      * intros Hcode. exists t, content, instrs.
        destruct (check_base_image instrs) as [|? ?]; [|done].
        destruct env_errors as [|? ?]; [|done].
        destruct (check_poetry_installation instrs) as [|? ?]; [|done].
        destruct (check_dependencies_installation instrs) as [|? ?]; [|done].
        destruct (check_healthcheck instrs) as [|? ?]; [|done].
        destruct (check_labels instrs) as [|? ?]; [|done].
        done.
      * intros (t' & content' & instrs' & _ & [= <-] & Hp & H1 & H2 & H3
                & H4 & H5 & H6).
        rewrite Hparse in Hp. apply Ok_inj in Hp as <-.
        rewrite Henv in H2. apply Ok_inj in H2 as ->.
        by rewrite H1, H3, H4, H5, H6.
    + destruct (_ ++ _); [by left|by right].
  - rewrite (run_checks_raises instrs e Henv). cbn [bind].
    split; [split; [done|]|by right].
    intros (t' & content' & instrs' & _ & [= <-] & Hp & _ & H2 & _).
    rewrite Hparse in Hp. apply Ok_inj in Hp as <-.
    by rewrite Henv in H2.
Qed.

(** ** More on the compose validator *)

Section ComposeFurther.

Import ComposeValidator.

Lemma eq_str_true (v : yaml) (s : string) : eq_str v s = true ↔ v = YStr s.
Proof.
  destruct v; cbn; try (split; [done|by intros [=]]).
  rewrite bool_decide_eq_true. split; [by intros ->|by intros [= ->]].
Qed.

Lemma dict_get_single (key : string) (v : yaml) :
  dict_get key [(YStr key, v)] = Some v.
Proof. cbn. by rewrite bool_decide_eq_true_2. Qed.

(** The [build] block reads the [build] entry of the service and nothing
    else. *)
Lemma check_build_entry (name : string) (entries : list (yaml * yaml))
    (errors : list string) :
  check_build name (YDict entries) errors
  = match dict_get "build" entries with
    | Some build => check_build name (YDict [(YStr "build", build)]) errors
    | None => Ok errors
    end.
Proof.
  destruct (dict_get "build" entries) as [build|] eqn:Hbuild.
  - unfold check_build, getitem. cbn [contains_key bind].
    by rewrite dict_get_single, Hbuild.
  - unfold check_build. cbn [contains_key bind]. rewrite Hbuild.
    by rewrite bool_decide_eq_false_2 by (by intros [? ?]).
Qed.

(** For a service that is not taken for a Python service, the [volumes]
    and [environment] blocks of a mapping add nothing. *)
Lemma check_volumes_other (name : string) (entries : list (yaml * yaml))
    (errors : list string) :
  is_python_service name = false →
  check_volumes name (YDict entries) errors = Ok errors.
Proof.
  intros Hother. unfold check_volumes, getitem.
  rewrite contains_key_dict, Hother. cbn [bind].
  destruct (dict_get "volumes" entries) as [volumes|].
  - rewrite bool_decide_eq_true_2 by eauto. cbn [bind].
    destruct volumes; try done. by rewrite andb_false_r.
  - by rewrite bool_decide_eq_false_2 by (by intros [? ?]).
Qed.

Lemma check_environment_other (name : string) (entries : list (yaml * yaml))
    (errors : list string) :
  is_python_service name = false →
  check_environment name (YDict entries) errors = Ok errors.
Proof.
  intros Hother. unfold check_environment, getitem.
  rewrite contains_key_dict, Hother. cbn [bind].
  destruct (dict_get "environment" entries) as [env_vars|].
  - rewrite bool_decide_eq_true_2 by eauto. cbn [bind].
    by rewrite andb_false_r.
  - by rewrite bool_decide_eq_false_2 by (by intros [? ?]).
Qed.

Lemma validate_compose_service_other (name : string)
    (entries : list (yaml * yaml)) :
  is_python_service name = false →
  validate_compose_service name (YDict entries)
  = check_build name (YDict entries) [].
Proof.
  intros Hother. unfold validate_compose_service.
  destruct (check_build name (YDict entries) []) as [errors|e];
    cbn [bind]; [|done].
  rewrite check_volumes_other by done. cbn [bind].
  by apply check_environment_other.
Qed.

(** X15. For a service whose name is not taken for a Python service, only
    the [build] entry of its mapping counts: the outcome is that of the
    service reduced to this entry, and without one there is no finding. *)
Theorem validate_compose_service_build_only (name : string)
    (entries : list (yaml * yaml)) :
  is_python_service name = false →
  validate_compose_service name (YDict entries)
  = match dict_get "build" entries with
    | Some build =>
        validate_compose_service name (YDict [(YStr "build", build)])
    | None => Ok []
    end.
Proof.
  intros Hother. rewrite validate_compose_service_other by done.
  rewrite check_build_entry.
  destruct (dict_get "build" entries) as [build|]; [|done].
  by rewrite validate_compose_service_other by done.
Qed.

Lemma validate_compose_service_build_only_witness :
  validate_compose_service "gateway"
    (YDict [ (YStr "image", YStr "nginx");
             (YStr "build", YDict [(YStr "context", YStr "./gw")]);
             (YStr "volumes", YList [YStr "./gw:/etc/gw"]);
             (YStr "environment", YDict [(YStr "PORT", YInt 80)]) ])
  = match dict_get "build"
            [ (YStr "image", YStr "nginx");
              (YStr "build", YDict [(YStr "context", YStr "./gw")]);
              (YStr "volumes", YList [YStr "./gw:/etc/gw"]);
              (YStr "environment", YDict [(YStr "PORT", YInt 80)]) ] with
    | Some build =>
        validate_compose_service "gateway" (YDict [(YStr "build", build)])
    | None => Ok []
    end.
Proof.
  apply (validate_compose_service_build_only "gateway").
  vm_compute. reflexivity.
Defined.

(** With a [build] mapping that has a [context] and no [args], the
    [build] block is the build-context rules. *)
Lemma check_build_is_context (name : string)
    (entries build : list (yaml * yaml)) (context : yaml)
    (errors : list string) :
  dict_get "build" entries = Some (YDict build) →
  dict_get "context" build = Some context →
  dict_get "args" build = None →
  check_build name (YDict entries) errors
  = check_build_context name (YDict build) errors.
Proof.
  intros Hbuild Hcontext Hargs. unfold check_build, getitem.
  cbn [contains_key bind]. rewrite Hbuild.
  rewrite bool_decide_eq_true_2 by eauto. cbn [is_dict contains_key bind].
  rewrite Hcontext, Hargs. rewrite bool_decide_eq_true_2 by eauto.
  rewrite bool_decide_eq_false_2 by (by intros [? ?]).
  by destruct (check_build_context name (YDict build) errors).
Qed.

Lemma root_is_not_component (name : string) :
  eq_str (YStr ".") ("./containers/" +:+ name) = false.
Proof. cbn. apply bool_decide_eq_false_2. by rewrite !append_cons. Qed.

(** The build-context rules of a service other than [dev], by the two
    accepted contexts. *)
Lemma check_build_context_component (name : string)
    (build : list (yaml * yaml)) :
  name ≠ "dev" →
  dict_get "context" build = Some (YStr ("./containers/" +:+ name)) →
  check_build_context name (YDict build) []
  = Ok (match dict_get "dockerfile" build with
        | Some dockerfile =>
            if eq_str dockerfile "Dockerfile" then []
            else ["When using component context, dockerfile should be 'Dockerfile'"]
        | None => []
        end).
Proof.
  intros Hdev Hcontext. unfold check_build_context, getitem.
  cbn [contains_key bind]. rewrite Hcontext. cbn [bind].
  rewrite (bool_decide_eq_false_2 (name = "dev")) by done.
  assert (eq_str (YStr ("./containers/" +:+ name)) ("./containers/" +:+ name)
          = true) as -> by (by apply eq_str_true).
  assert (eq_str (YStr ("./containers/" +:+ name)) "." = false) as ->.
  { cbn. apply bool_decide_eq_false_2. by rewrite !append_cons. }
  cbn [orb negb andb append_if].
  destruct (dict_get "dockerfile" build) as [dockerfile|].
  - rewrite bool_decide_eq_true_2 by eauto. cbn [bind].
    by destruct (eq_str dockerfile "Dockerfile").
  - by rewrite bool_decide_eq_false_2 by (by intros [? ?]).
Qed.

Lemma check_build_context_root (name : string) (build : list (yaml * yaml)) :
  name ≠ "dev" →
  dict_get "context" build = Some (YStr ".") →
  check_build_context name (YDict build) []
  = match dict_get "dockerfile" build with
    | Some dockerfile =>
        let* at_component :=
          startswith dockerfile ("containers/" +:+ name +:+ "/") in
        Ok (if at_component then []
            else ["When using root context, dockerfile should include component path"])
    | None => Ok []
    end.
Proof.
  intros Hdev Hcontext. unfold check_build_context, getitem.
  cbn [contains_key bind]. rewrite Hcontext. cbn [bind].
  rewrite (bool_decide_eq_false_2 (name = "dev")) by done.
  rewrite root_is_not_component.
  assert (eq_str (YStr ".") "." = true) as -> by done.
  cbn [orb negb andb append_if bind].
  destruct (dict_get "dockerfile" build) as [dockerfile|].
  - rewrite bool_decide_eq_true_2 by eauto. cbn [bind].
    destruct (startswith dockerfile _) as [[|]|]; done.
  - by rewrite bool_decide_eq_false_2 by (by intros [? ?]).
Qed.

Lemma check_build_context_elsewhere (name : string)
    (build : list (yaml * yaml)) (context : yaml) :
  name ≠ "dev" →
  dict_get "context" build = Some context →
  eq_str context ("./containers/" +:+ name) = false →
  eq_str context "." = false →
  check_build_context name (YDict build) []
  = Ok ["Build context should be './containers/" +:+ name +:+ "' or '.'"].
Proof.
  intros Hdev Hcontext Hcomponent Hroot. unfold check_build_context, getitem.
  cbn [contains_key bind]. rewrite Hcontext. cbn [bind].
  rewrite (bool_decide_eq_false_2 (name = "dev")) by done.
  by rewrite Hcomponent, Hroot.
Qed.

(** X16. A service other than [dev] that is not taken for a Python
    service, with a [build] mapping that has a [context] and no [args],
    gets no finding exactly in two cases: the context is the component
    directory and the [dockerfile], if given, is [Dockerfile]; or the
    context is [.] and the [dockerfile], if given, is a text that starts
    with the component directory. *)
Theorem validate_compose_service_build_accepted (name : string)
    (entries build : list (yaml * yaml)) (context : yaml) :
  name ≠ "dev" →
  is_python_service name = false →
  dict_get "build" entries = Some (YDict build) →
  dict_get "context" build = Some context →
  dict_get "args" build = None →
  validate_compose_service name (YDict entries) = Ok []
  ↔ (context = YStr ("./containers/" +:+ name)
     ∧ (dict_get "dockerfile" build = None
        ∨ dict_get "dockerfile" build = Some (YStr "Dockerfile")))
    ∨ (context = YStr "."
       ∧ (dict_get "dockerfile" build = None
          ∨ ∃ rest,
              dict_get "dockerfile" build
              = Some (YStr ("containers/" +:+ name +:+ "/" +:+ rest)))).
Proof.
  intros Hdev Hother Hbuild Hcontext Hargs.
  rewrite validate_compose_service_other by done.
  rewrite (check_build_is_context name entries build context) by done.
  destruct (eq_str context ("./containers/" +:+ name)) eqn:Hcomponent.
  { apply eq_str_true in Hcomponent as ->.
    rewrite check_build_context_component by done.
    destruct (dict_get "dockerfile" build) as [dockerfile|].
    - destruct (eq_str dockerfile "Dockerfile") eqn:Hfile.
      + apply eq_str_true in Hfile as ->. split; [|done].
        intros _. left. split; [done|by right].
      + split; [done|].
        intros [[_ [?|[= ->]]]|[[= Hroot] _]]; [done|].
        by rewrite (proj2 (eq_str_true _ _)) in Hfile.
    - split; [|done]. intros _. left. split; [done|by left]. }
  destruct (eq_str context ".") eqn:Hroot.
  { apply eq_str_true in Hroot as ->.
    rewrite check_build_context_root by done.
    destruct (dict_get "dockerfile" build) as [dockerfile|].
    - destruct dockerfile as [| | |s| |];
        try (cbn; split; [done|];
             by intros [[[= Hc] _]|[_ [?|[rest [=]]]]]).
      cbn [startswith bind].
      destruct (Str.startswith ("containers/" +:+ name +:+ "/") s)
        eqn:Hprefix.
      + apply startswith_app in Hprefix as [rest ->]. split; [|done].
        intros _. right. split; [done|]. right. exists rest.
        by rewrite !append_assoc.
      + split; [done|].
        intros [[[= Hc] _]|[_ [?|[rest [= ->]]]]]; [done|].
        assert ("containers/" +:+ name +:+ "/" +:+ rest
                = ("containers/" +:+ name +:+ "/") +:+ rest) as Happ
          by (by rewrite !append_assoc).
        by rewrite Happ, startswith_append in Hprefix.
    - split; [|done]. intros _. right. split; [done|by left]. }
  rewrite (check_build_context_elsewhere name build context) by done.
  split; [done|].
  intros [[-> _]|[-> _]].
  - by rewrite (proj2 (eq_str_true _ _)) in Hcomponent.
  - by rewrite (proj2 (eq_str_true _ _)) in Hroot.
Qed.

Lemma validate_compose_service_build_accepted_witness :
  validate_compose_service "gateway"
    (YDict [ (YStr "build",
              YDict [ (YStr "context", YStr ".");
                      (YStr "dockerfile",
                       YStr "containers/gateway/Dockerfile") ]) ])
  = Ok []
  ↔ (YStr "." = YStr ("./containers/" +:+ "gateway")
     ∧ (dict_get "dockerfile"
          [ (YStr "context", YStr ".");
            (YStr "dockerfile", YStr "containers/gateway/Dockerfile") ]
        = None
        ∨ dict_get "dockerfile"
            [ (YStr "context", YStr ".");
              (YStr "dockerfile", YStr "containers/gateway/Dockerfile") ]
          = Some (YStr "Dockerfile")))
    ∨ (YStr "." = YStr "."
       ∧ (dict_get "dockerfile"
            [ (YStr "context", YStr ".");
              (YStr "dockerfile", YStr "containers/gateway/Dockerfile") ]
          = None
          ∨ ∃ rest,
              dict_get "dockerfile"
                [ (YStr "context", YStr ".");
                  (YStr "dockerfile",
                   YStr "containers/gateway/Dockerfile") ]
              = Some (YStr ("containers/" +:+ "gateway" +:+ "/"
                            +:+ rest)))).
Proof.
  apply (validate_compose_service_build_accepted "gateway"
           [ (YStr "build",
              YDict [ (YStr "context", YStr ".");
                      (YStr "dockerfile",
                       YStr "containers/gateway/Dockerfile") ]) ]
           [ (YStr "context", YStr ".");
             (YStr "dockerfile", YStr "containers/gateway/Dockerfile") ]
           (YStr "."));
    [discriminate | vm_compute; reflexivity..].
Defined.

(** X17. With the root context [.], a [dockerfile] entry that is not a
    text (an empty entry, a number, a list) makes
    [validate_compose_service] raise [AttributeError] for every service
    other than [dev]: the value is asked for its [startswith]. *)
Theorem validate_compose_service_dockerfile_not_text (name : string)
    (entries build : list (yaml * yaml)) (dockerfile : yaml) :
  name ≠ "dev" →
  dict_get "build" entries = Some (YDict build) →
  dict_get "context" build = Some (YStr ".") →
  dict_get "dockerfile" build = Some dockerfile →
  is_str dockerfile = false →
  validate_compose_service name (YDict entries)
  = Raise (AttributeError ("'" +:+ type_name dockerfile
                           +:+ "' object has no attribute 'startswith'")).
Proof.
  intros Hdev Hbuild Hcontext Hfile Htext.
  unfold validate_compose_service, check_build, getitem.
  cbn [contains_key bind]. rewrite Hbuild.
  rewrite bool_decide_eq_true_2 by eauto. cbn [is_dict contains_key bind].
  rewrite Hcontext. rewrite bool_decide_eq_true_2 by eauto. cbn [bind].
  rewrite check_build_context_root, Hfile by done.
  by destruct dockerfile.
Qed.

Lemma validate_compose_service_dockerfile_not_text_witness :
  validate_compose_service "worker-api"
    (YDict [ (YStr "build",
              YDict [ (YStr "context", YStr ".");
                      (YStr "dockerfile", YNone) ]) ])
  = Raise (AttributeError ("'" +:+ type_name YNone
                           +:+ "' object has no attribute 'startswith'")).
Proof.
  apply (validate_compose_service_dockerfile_not_text "worker-api"
           [ (YStr "build",
              YDict [ (YStr "context", YStr ".");
                      (YStr "dockerfile", YNone) ]) ]
           [ (YStr "context", YStr "."); (YStr "dockerfile", YNone) ]
           YNone);
    [discriminate | vm_compute; reflexivity..].
Defined.

Lemma lower_app (a b : string) :
  Str.lower (a +:+ b) = Str.lower a +:+ Str.lower b.
Proof.
  induction a as [|c a IH]; [done|].
  rewrite append_cons. cbn [Str.lower]. by rewrite append_cons, IH.
Qed.

Lemma startswith_app_l (p a b : string) :
  Str.startswith p a = true → Str.startswith p (a +:+ b) = true.
Proof.
  revert a. induction p as [|x p IH]; intros a Ha; [by destruct (a +:+ b)|].
  destruct a as [|y a]; [done|]. rewrite append_cons.
  cbn [Str.startswith] in *.
  apply andb_prop in Ha as [-> Ha]. by rewrite (IH a Ha).
Qed.

Lemma contains_app_l (sub a b : string) :
  Str.contains sub a = true → Str.contains sub (a +:+ b) = true.
Proof.
  induction a as [|x a IH]; intros Ha.
  - cbn in Ha. rewrite orb_false_r in Ha.
    apply contains_startswith. by apply (startswith_app_l sub "" b).
  - rewrite append_cons. cbn [Str.contains] in *.
    apply orb_prop in Ha as [Ha|Ha].
    + rewrite <- append_cons, (startswith_app_l _ _ _ Ha). done.
    + rewrite (IH Ha). apply orb_true_r.
Qed.

(** X18. The classification looks for the keywords anywhere in the name:
    a name that contains the name of a Python service, whatever stands
    before and after it, is one too. *)
Theorem is_python_service_embedded (before name after : string) :
  is_python_service name = true →
  is_python_service (before +:+ name +:+ after) = true.
Proof.
  unfold is_python_service. rewrite !existsb_exists.
  intros (indicator & Hin & Hname). exists indicator. split; [done|].
  rewrite !lower_app. by apply contains_app_r, contains_app_l.
Qed.

Lemma is_python_service_embedded_witness :
  is_python_service ("snapshot" +:+ "app" +:+ "er") = true.
Proof.
  apply (is_python_service_embedded "snapshot" "app" "er").
  vm_compute. reflexivity.
Defined.

End ComposeFurther.

(** ** More on the container validator *)

Section ContainerFurther.

Import Fs Ast ContainerValidator.

Variable format_str : string → black_outcome.
Variable ast_parse : string → parse_outcome.

Lemma should_skip_directory_app (a b : path) :
  should_skip_directory (a ++ b)
  = should_skip_directory a || should_skip_directory b.
Proof.
  unfold should_skip_directory. rewrite !existsb_app.
  by destruct (existsb _ a), (existsb _ a), (existsb _ b), (existsb _ b).
Qed.

(** What lies strictly below [base] has its parent at or below [base]. *)
Lemma parent_below (base p : path) :
  below base p = true → ∃ rest, parent p = base ++ rest.
Proof.
  unfold below. intros [Hprefix Hne]%andb_prop.
  apply bool_decide_eq_true in Hprefix as [rest ->].
  apply bool_decide_eq_true in Hne.
  destruct rest as [|x rest]; [by rewrite app_nil_r in Hne|].
  exists (removelast (x :: rest)). unfold parent.
  by apply removelast_app.
Qed.

Lemma rglob_below (fs : filesystem) (base p : path) (suffix : string) :
  p ∈ rglob fs base suffix → below base p = true.
Proof.
  unfold rglob. intros [Hp _]%list_elem_of_filter.
  by apply andb_prop_elim in Hp as [Hp%Is_true_true _].
Qed.

(** X19. A container that lies below a hidden or an excluded directory is
    not formatted at all: [format_python_files] returns no error and leaves
    every file as it is. *)
Theorem format_python_files_skipped_container (fs : filesystem)
    (container_path : path) :
  should_skip_directory container_path = true →
  format_python_files format_str fs container_path = ([], fs).
Proof.
  intros Hskip. unfold format_python_files.
  assert (∀ p, p ∈ rglob fs container_path ".py" →
               should_skip_directory (parent p) = true) as Hall.
  { intros p [rest ->]%rglob_below%parent_below.
    by rewrite should_skip_directory_app, Hskip. }
  revert Hall. generalize (rglob fs container_path ".py").
  intros files Hall. induction files as [|x files IH]; [done|].
  cbn [foldl]. unfold format_python_file at 2.
  rewrite (Hall x) by (by left). cbn [negb].
  apply IH. intros p Hp. apply Hall. by right.
Qed.

(** X20. What [format_python_files] leaves behind: one error for each
    file it does not skip and black cannot format, taken from the files as
    they were before the pass and in the order of the walk; and every file
    it does not skip and black formats holds black's output for its text
    as a text-mode read gives it, a carriage return with or without a
    line feed read as a line feed. *)
Theorem format_python_files_outcome (fs : filesystem)
    (container_path : path) :
  let result := format_python_files format_str fs container_path in
  result.1
  = omap (format_failure format_str fs) (format_targets fs container_path)
  ∧ ∀ p src formatted_src,
      p ∈ format_targets fs container_path →
      fs !! p = Some (File src) →
      format_str (universal_newlines src) = Formatted formatted_src →
      result.2 !! p = Some (File formatted_src).
Proof.
  destruct (format_python_files_exact format_str fs container_path)
    as [Herrors Hfiles].
  cbn zeta in *. split; [exact Herrors|].
  intros p src out Hp Hsrc Hfmt. unfold path in *.
  rewrite Hfiles, bool_decide_eq_true_2, Hsrc by done. cbn.
  by rewrite Hfmt.
Qed.

Lemma bind_eq_nil {A B : Type} (f : A → list B) (l : list A) :
  l ≫= f = [] ↔ ∀ x, x ∈ l → f x = [].
Proof.
  induction l as [|x l IH].
  - split; [|done]. intros _ x Hx. by apply elem_of_nil in Hx.
  - rewrite bind_cons. split.
    + intros [Hx Hl]%app_eq_nil y [->|Hy]%elem_of_cons; [done|].
      by apply IH.
    + intros Hall. rewrite (Hall x) by (by left). cbn.
      apply IH. intros y Hy. apply Hall. by right.
Qed.

(** X21. A module that parses gets no finding from [validate_imports]
    exactly when no import-from statement anywhere in its tree, nested
    ones included, is relative or names a module that starts with
    [containers.]. *)
Theorem validate_imports_clean (fs : filesystem)
    (py_file package_path : path) (content : string) (tree : node) :
  read fs py_file = inr content →
  ast_parse content = Parsed tree →
  validate_imports ast_parse fs py_file package_path = []
  ↔ ∀ module level lineno,
      ImportFrom module level lineno ∈ nodes tree →
      level = 0
      ∧ ∀ m, module = Some m → Str.startswith "containers." m = false.
Proof.
  intros Hread Hparse. unfold validate_imports. rewrite Hread, Hparse.
  rewrite bind_eq_nil. split.
  - intros Hclean module level lineno Hnode.
    assert (ImportFrom module level lineno ∈ walk tree) as Hwalk
      by (by rewrite walk_nodes).
    specialize (Hclean _ Hwalk). cbn [import_errors] in Hclean.
    destruct level as [|level]; [|by rewrite bool_decide_eq_true_2 in Hclean
                                      by lia].
    split; [done|]. intros m ->.
    rewrite bool_decide_eq_false_2 in Hclean by lia.
    destruct m as [|c m]; [done|]. cbn [Str.is_empty negb andb] in Hclean.
    by destruct (Str.startswith "containers." (String c m)).
  - intros Hclean n Hn. rewrite walk_nodes in Hn.
    destruct n as [module level lineno| |]; [|done..].
    destruct (Hclean module level lineno Hn) as [-> Hmodule].
    cbn [import_errors]. rewrite bool_decide_eq_false_2 by lia.
    destruct module as [m|]; [|done].
    by rewrite (Hmodule m eq_refl), andb_false_r.
Qed.

Lemma elem_of_paths (fs : filesystem) (p : path) :
  p ∈ (map_to_list fs).*1 ↔ is_Some (fs !! p).
Proof.
  rewrite list_elem_of_fmap. split.
  - intros [[q e] [-> Hq%elem_of_map_to_list]]. by exists e.
  - intros [e He]. exists (p, e). split; [done|].
    by apply elem_of_map_to_list.
Qed.

Lemma singleton_sublist {A : Type} (x : A) (l : list A) :
  x ∈ l → [x] `sublist_of` l.
Proof.
  induction 1 as [x l|x y l _ IH].
  - apply sublist_skip, sublist_nil_l.
  - by apply sublist_cons.
Qed.

(** X22. The [__init__.py] of the package itself is validated twice, once
    as the root of the package and once more in the walk over the
    directories: a finding about it comes twice in the result. *)
Theorem validate_python_package_root_init_twice (fs : filesystem)
    (package_path : path) (package_name finding : string) :
  is_dir fs (package_path ++ [package_name]) = true →
  should_skip_directory (package_path ++ [package_name]) = false →
  exists_ fs (package_path ++ [package_name; "__init__.py"]) = true →
  finding ∈ validate_init_file ast_parse fs
              (package_path ++ [package_name; "__init__.py"]) →
  [finding; finding]
  `sublist_of` validate_python_package ast_parse fs package_path
                 package_name.
Proof.
  intros Hdir Hskip Hinit Hfinding. unfold validate_python_package.
  cbn zeta. rewrite Hinit. cbn [negb andb].
  change [finding; finding] with ([finding] ++ [finding]).
  apply sublist_app; [by apply singleton_sublist|].
  apply sublist_inserts_r, singleton_sublist, list_elem_of_bind.
  exists (package_path ++ [package_name]). split.
  - rewrite Hdir, Hskip. cbn [negb andb].
    rewrite <- (assoc_L (++)). cbn [app]. by rewrite Hinit.
  - unfold rglob. apply list_elem_of_filter. split.
    + apply andb_prop_intro. split; [|done].
      apply Is_true_true. unfold below. apply andb_true_intro. split.
      * apply bool_decide_eq_true. by exists [package_name].
      * apply bool_decide_eq_true. intros Hsame.
        apply (f_equal length) in Hsame. rewrite length_app in Hsame.
        cbn in Hsame. lia.
    + apply elem_of_paths. unfold is_dir in Hdir.
      match type of Hdir with
      | match ?found with _ => _ end = _ =>
          destruct found as [e|] eqn:Hfound;
            [by exists e|discriminate Hdir]
      end.
Qed.

End ContainerFurther.

Lemma format_python_files_skipped_container_witness :
  ContainerValidator.format_python_files sample_format vendored_container
    ["build"; "api"]
  = ([], vendored_container).
Proof.
  apply (format_python_files_skipped_container sample_format
           vendored_container ["build"; "api"]).
  vm_compute. reflexivity.
Defined.

Lemma validate_imports_clean_witness :
  ContainerValidator.validate_imports sample_parse
    (service_container formatted_source)
    ["containers"; "api"; "src"; "api"; "main.py"]
    ["containers"; "api"; "src"]
  = []
  ↔ ∀ module level lineno,
      Ast.ImportFrom module level lineno
      ∈ nodes (Ast.Other [Ast.Assign [Ast.Name "x"] 1]) →
      level = 0
      ∧ ∀ m, module = Some m → Str.startswith "containers." m = false.
Proof.
  apply (validate_imports_clean sample_parse
           (service_container formatted_source)
           ["containers"; "api"; "src"; "api"; "main.py"]
           ["containers"; "api"; "src"] formatted_source);
    vm_compute; reflexivity.
Defined.

Lemma validate_python_package_root_init_twice_witness :
  [ ContainerValidator.missing_all_message
      ["src"; "app"; "core"; "__init__.py"];
    ContainerValidator.missing_all_message
      ["src"; "app"; "core"; "__init__.py"] ]
  `sublist_of` ContainerValidator.validate_python_package sample_parse
                 sample_package ["src"; "app"] "core".
Proof.
  apply (validate_python_package_root_init_twice sample_parse
           sample_package ["src"; "app"] "core");
    [vm_compute; reflexivity..|].
  vm_compute. apply list_elem_of_here.
Defined.

(** ** More on the Poetry validator *)

Section PoetryFurther.

Import Fs PoetryValidator.

Variable tomli_load : string → string + toml.

Lemma first_failing_none (test : string → result bool)
    (items : list string) :
  first_failing test items = Ok None
  ↔ Forall (λ x, test x = Ok true) items.
Proof.
  induction items as [|x items IH]; cbn [first_failing].
  - split; [by constructor|done].
  - rewrite Forall_cons. destruct (test x) as [[|]|]; cbn [bind].
    + rewrite IH. by split; [|intros [_ ?]].
    + split; [done|by intros [? _]].
    + split; [done|by intros [? _]].
Qed.

(** A section is found below a value only when the value is a table that
    holds the first part, and the rest is found below what it holds. *)
Lemma has_section_cons (part : string) (rest : list string)
    (current : toml) :
  has_section (part :: rest) current = Ok true
  ↔ ∃ entries next,
      current = TTable entries ∧ table_get part entries = Some next
      ∧ has_section rest next = Ok true.
Proof.
  cbn [has_section]. destruct current as [s|n|b|items|entries];
    cbn [contains_key getitem bind].
  - split; [|by intros (? & ? & ? & _)].
    by destruct (Str.contains part s).
  - split; [done|by intros (? & ? & ? & _)].
  - split; [done|by intros (? & ? & ? & _)].
  - split; [|by intros (? & ? & ? & _)].
    by destruct (existsb _ items).
  - destruct (table_get part entries) as [next|] eqn:Hpart.
    + rewrite bool_decide_eq_true_2 by eauto. cbn [bind].
      split; [by exists entries, next|].
      intros (? & ? & [= <-] & Hnext & ?). by rewrite Hpart in Hnext;
        injection Hnext as <-.
    + rewrite bool_decide_eq_false_2 by (by intros [? ?]).
      split; [done|]. intros (? & ? & [= <-] & Hnext & _).
      by rewrite Hpart in Hnext.
Qed.

(** The two required sections are present exactly in a document with a
    table [tool], a table [poetry] in it, and [dependencies] in that. *)
Lemma required_sections_present (data : toml) :
  first_failing (λ section, has_section (Str.split "." section) data)
    REQUIRED_SECTIONS = Ok None
  ↔ ∃ document tool poetry dependencies,
      data = TTable document ∧ table_get "tool" document = Some (TTable tool)
      ∧ table_get "poetry" tool = Some (TTable poetry)
      ∧ table_get "dependencies" poetry = Some dependencies.
Proof.
  rewrite first_failing_none. unfold REQUIRED_SECTIONS.
  rewrite !Forall_cons, Forall_nil.
  change (Str.split "." "tool.poetry") with ["tool"; "poetry"].
  change (Str.split "." "tool.poetry.dependencies")
    with ["tool"; "poetry"; "dependencies"].
  rewrite !has_section_cons. split.
  - intros [_ [(document & tool & -> & Htool & Hrest) _]].
    apply has_section_cons in Hrest as (tool' & poetry & -> & Hpoetry & Hrest).
    apply has_section_cons in Hrest as (poetry' & deps & -> & Hdeps & _).
    by exists document, tool', poetry', deps.
  - intros (document & tool & poetry & deps & -> & Htool & Hpoetry & Hdeps).
    split_and!; [| |done].
    + exists document, (TTable tool). split_and!; [done..|].
      apply has_section_cons. by exists tool, (TTable poetry).
    + exists document, (TTable tool). split_and!; [done..|].
      apply has_section_cons. exists tool, (TTable poetry).
      split_and!; [done..|].
      apply has_section_cons. by exists poetry, deps.
Qed.

(** The [try] block returns [True] exactly on an accepted document. *)
Lemma check_pyproject_accepts (fs : filesystem) (pyproject_path : path) :
  (∃ line, check_pyproject tomli_load fs pyproject_path = Ok (true, line))
  ↔ ∃ text data,
      read fs pyproject_path = inr text ∧ tomli_load text = inr data
      ∧ poetry_document_accepted data.
Proof.
  unfold check_pyproject.
  destruct (read fs pyproject_path) as [msg|text]; cbn [bind];
    [split; [by intros [? ?]|by intros (? & ? & ? & _)]|].
  destruct (tomli_load text) as [msg|data] eqn:Hload; cbn [bind];
    [split; [by intros [? ?]|];
     intros (? & ? & [= <-] & Hdata & _); by rewrite Hload in Hdata|].
  destruct (first_failing _ REQUIRED_SECTIONS) as [missing|e] eqn:Hsections;
    cbn [bind].
  2: { split; [by intros [? ?]|].
       intros (? & ? & [= <-] & Hdata & document & tool & poetry & deps
               & -> & Htool & Hpoetry & _ & Hdeps & _).
       rewrite Hload in Hdata. injection Hdata as ->.
       assert (first_failing
                 (λ section,
                    has_section (Str.split "." section) (TTable document))
                 REQUIRED_SECTIONS = Ok None) as Hpresent.
       { apply required_sections_present.
         by exists document, tool, poetry, deps. }
       by rewrite Hpresent in Hsections. }
  destruct missing as [section|].
  { split; [by intros [? [=]]|].
    intros (? & ? & [= <-] & Hdata & document & tool & poetry & deps
            & -> & Htool & Hpoetry & _ & Hdeps & _).
    rewrite Hload in Hdata. injection Hdata as ->.
    assert (first_failing
              (λ section,
                 has_section (Str.split "." section) (TTable document))
              REQUIRED_SECTIONS = Ok None) as Hpresent.
    { apply required_sections_present.
      by exists document, tool, poetry, deps. }
    by rewrite Hpresent in Hsections. }
  apply required_sections_present in Hsections
    as (document & tool & poetry & deps & -> & Htool & Hpoetry & Hdeps).
  cbn [get_or_empty bind]. rewrite Htool.
  cbn [from_option id get_or_empty bind].
  rewrite Hpoetry. cbn [from_option id get_or_empty bind]. rewrite Hdeps.
  cbn [from_option id].
  destruct (first_failing _ REQUIRED_FIELDS) as [missing|e] eqn:Hfields;
    cbn [bind].
  2: { split; [by intros [? ?]|].
       intros (? & ? & [= <-] & Hdata & document' & tool' & poetry' & deps'
               & -> & Htool' & Hpoetry' & Hall & _).
       rewrite Hload in Hdata. injection Hdata as <-.
       rewrite Htool in Htool'. injection Htool' as <-.
       rewrite Hpoetry in Hpoetry'. injection Hpoetry' as <-.
       assert (first_failing (λ field, contains_key field (TTable poetry))
                 REQUIRED_FIELDS = Ok None) as Hpresent.
       { apply first_failing_none.
         eapply Forall_impl; [exact Hall|]. intros field Hfield. cbn.
         by rewrite bool_decide_eq_true_2. }
       by rewrite Hpresent in Hfields. }
  destruct missing as [field|].
  { split; [by intros [? [=]]|].
    intros (? & ? & [= <-] & Hdata & document' & tool' & poetry' & deps'
            & -> & Htool' & Hpoetry' & Hall & _).
    rewrite Hload in Hdata. injection Hdata as <-.
    rewrite Htool in Htool'. injection Htool' as <-.
    rewrite Hpoetry in Hpoetry'. injection Hpoetry' as <-.
    assert (first_failing (λ field, contains_key field (TTable poetry))
              REQUIRED_FIELDS = Ok None) as Hpresent.
    { apply first_failing_none.
      eapply Forall_impl; [exact Hall|]. intros field' Hfield. cbn.
      by rewrite bool_decide_eq_true_2. }
    by rewrite Hpresent in Hfields. }
  apply first_failing_none in Hfields.
  assert (Forall (λ field, is_Some (table_get field poetry))
            ["name"; "version"; "description"]) as Hall.
  { eapply Forall_impl; [exact Hfields|]. intros field Hfield.
    cbn in Hfield. injection Hfield as Hfield.
    by apply bool_decide_eq_true in Hfield. }
  destruct (contains_key "python" deps) as [[|]|e] eqn:Hpython;
    cbn [bind negb].
  - split; [|by eexists]. intros _. exists text, (TTable document).
    split_and!; [done..|]. by exists document, tool, poetry, deps.
  - split; [by intros [? [=]]|].
    intros (? & ? & [= <-] & Hdata & document' & tool' & poetry' & deps'
            & -> & Htool' & Hpoetry' & _ & Hdeps' & Hpython').
    rewrite Hload in Hdata. injection Hdata as <-.
    rewrite Htool in Htool'. injection Htool' as <-.
    rewrite Hpoetry in Hpoetry'. injection Hpoetry' as <-.
    rewrite Hdeps in Hdeps'. injection Hdeps' as <-.
    by rewrite Hpython in Hpython'.
  - split; [by intros [? ?]|].
    intros (? & ? & [= <-] & Hdata & document' & tool' & poetry' & deps'
            & -> & Htool' & Hpoetry' & _ & Hdeps' & Hpython').
    rewrite Hload in Hdata. injection Hdata as <-.
    rewrite Htool in Htool'. injection Htool' as <-.
    rewrite Hpoetry in Hpoetry'. injection Hpoetry' as <-.
    rewrite Hdeps in Hdeps'. injection Hdeps' as <-.
    by rewrite Hpython in Hpython'.
Qed.

(** X23. [validate_poetry_config] returns [True] exactly when the
    container has neither [requirements.txt] nor [setup.py] and its
    [pyproject.toml] is a file that loads as a document with a table
    [tool.poetry] holding [name], [version], [description] and a
    [dependencies] entry in which [python] is found; the section of the
    development dependencies is not asked for. *)
Theorem validate_poetry_config_passes (fs : filesystem)
    (container_path : path) :
  (validate_poetry_config tomli_load fs container_path).1 = true
  ↔ exists_ fs (container_path ++ ["requirements.txt"]) = false
    ∧ exists_ fs (container_path ++ ["setup.py"]) = false
    ∧ ∃ text data,
        read fs (container_path ++ ["pyproject.toml"]) = inr text
        ∧ tomli_load text = inr data
        ∧ poetry_document_accepted data.
Proof.
  unfold validate_poetry_config.
  pose proof (check_pyproject_accepts fs
                (container_path ++ ["pyproject.toml"])) as Haccepts.
  destruct (exists_ fs (container_path ++ ["pyproject.toml"])) eqn:Hexists;
    cbn [negb].
  - destruct (exists_ fs (container_path ++ ["requirements.txt"]));
      [split; [done|by intros [? _]]|].
    destruct (exists_ fs (container_path ++ ["setup.py"]));
      [split; [done|by intros (_ & ? & _)]|].
    destruct (check_pyproject _ _ _) as [[valid line]|e]; cbn [fst].
    + split.
      * intros ->. split_and!; [done..|]. apply Haccepts. by exists line.
      * intros (_ & _ & [line' [= -> _]]%Haccepts). done.
    + split; [done|]. by intros (_ & _ & [line' ?]%Haccepts).
  - split; [done|]. intros (_ & _ & text & data & Hread & _).
    unfold exists_, read in *.
    match type of Hread with
    | match ?found with _ => _ end = _ =>
        destruct found as [[?|]|]; [|done..]
    end.
    by rewrite bool_decide_eq_true_2 in Hexists by eauto.
Qed.

(** X24. A container that passes [validate_poetry_config] gets no finding
    from the Poetry rules of the container validator,
    [validate_poetry_configuration]. *)
Theorem poetry_validators_agree (fs : filesystem) (container_path : path) :
  (validate_poetry_config tomli_load fs container_path).1 = true →
  ContainerValidator.validate_poetry_configuration fs container_path = [].
Proof.
  unfold validate_poetry_config,
    ContainerValidator.validate_poetry_configuration.
  destruct (exists_ fs (container_path ++ ["pyproject.toml"]));
    cbn [negb andb]; [|done].
  destruct (exists_ fs (container_path ++ ["requirements.txt"])); [done|].
  by destruct (exists_ fs (container_path ++ ["setup.py"])).
Qed.

End PoetryFurther.

Lemma poetry_validators_agree_witness :
  ContainerValidator.validate_poetry_configuration
    (service_container formatted_source) ["containers"; "api"]
  = [].
Proof.
  apply (poetry_validators_agree sample_tomli_load
           (service_container formatted_source) ["containers"; "api"]).
  vm_compute. reflexivity.
Defined.

(** ** More on [check_containers] *)

Section StandardsFurther.

Import Fs CheckStandards.

Variable format_str : string → ContainerValidator.black_outcome.
Variable ast_parse : string → Ast.parse_outcome.
Variable tomli_load : string → string + PoetryValidator.toml.
Variable validate_dockerfile : filesystem → path → list string * list string.
Variable validate_compose_file : filesystem → path → list string.

Lemma extends_refl (w : world) : extends w w.
Proof. split; [apply python_only_changes_refl|done]. Qed.

Lemma extends_trans (w1 w2 w3 : world) :
  extends w1 w2 → extends w2 w3 → extends w1 w3.
Proof.
  intros [Hfiles12 Hout12] [Hfiles23 Hout23]. split.
  - by eapply python_only_changes_trans.
  - by etrans.
Qed.

Lemma extends_print (w : world) (fs : filesystem) (printed : list string) :
  python_only_changes (files w) fs →
  extends w (World fs (stdout w ++ printed)).
Proof. intros Hfiles. split; [done|]. by apply prefix_app_r. Qed.

(** One round of the loop over the containers, however it ends. *)
Lemma container_body_extends (all_valid : bool) (container_dir : path)
    (w : world) :
  extends w
    (container_body format_str ast_parse tomli_load validate_dockerfile
       all_valid container_dir w).2.
Proof.
  unfold container_body, io_bind.
  destruct (structure_block_returns format_str ast_parse container_dir
              all_valid w) as (all_valid1 & fs & printed & -> & Hchanges).
  rewrite poetry_block_outcome. cbn [files stdout].
  destruct (PoetryValidator.validate_poetry_config tomli_load fs
              container_dir) as [[|] line].
  - cbn [snd]. rewrite <- (assoc_L (++)). by apply extends_print.
  - destruct (dockerfile_block_outcome validate_dockerfile container_dir
                all_valid1 (World fs ((stdout w ++ printed) ++ [line])))
      as [printed' ->].
    cbn [snd files stdout]. rewrite <- !(assoc_L (++)).
    by apply extends_print.
Qed.

Lemma container_loop_extends (dirs : list path) (all_valid : bool)
    (w : world) :
  extends w
    (io_for_each
       (container_body format_str ast_parse tomli_load validate_dockerfile)
       dirs all_valid w).2.
Proof.
  revert all_valid w.
  induction dirs as [|container_dir dirs IH]; intros all_valid w.
  - apply extends_refl.
  - cbn [io_for_each]. unfold io_bind.
    pose proof (container_body_extends all_valid container_dir w) as Hbody.
    destruct (container_body _ _ _ _ all_valid container_dir w)
      as [[all_valid'|e] w']; cbn [snd] in *; [|done].
    eapply extends_trans; [exact Hbody|apply IH].
Qed.

(** X25. However [check_containers] ends, with a result or with an
    exception, what it has done to the world is this: the text of files
    whose name ends in [.py] may have changed, no path has appeared or
    gone, no other file has changed, and lines have been added to the
    output. *)
Theorem check_containers_extends (w : world) :
  extends w
    (check_containers format_str ast_parse tomli_load validate_dockerfile
       validate_compose_file w).2.
Proof.
  unfold check_containers, io_bind, print. cbn [get_files files fst snd].
  pose proof (container_loop_extends
                (filter (λ p, is_dir (files w) p)
                   (glob_star (files w) ["containers"]))
                true
                (World (files w) (stdout w ++ ["Validating containers..."])))
    as Hloop.
  assert (extends w
            (World (files w) (stdout w ++ ["Validating containers..."])))
    as Hprint by apply extends_print, python_only_changes_refl.
  destruct (io_for_each _ _ true _) as [[all_valid|e] w1]; cbn [snd] in *;
    [|by eapply extends_trans].
  eapply extends_trans; [by eapply extends_trans|].
  unfold compose_block, io_bind, get_files. cbn [fst snd].
  destruct (exists_ (files w1) compose_path); [|apply extends_refl].
  destruct (report_list (validate_compose_file (files w1) compose_path)
              "Docker Compose validation errors:" all_valid w1)
    as [printed ->].
  cbn [snd]. apply extends_print, python_only_changes_refl.
Qed.

End StandardsFurther.
